(** * ELECA energy coach: daily calendar, log store and billing engine

    A shallow embedding of the TypeScript sources
    - [types.ts]            the data model,
    - [DailyCalendar.tsx]   the month summary and the per-day status grid,
    - [App.tsx]             the daily-log store ([handleSaveLog]), the
                            inventory, the history, the tariff selection and
                            the translation lookup,
    - the insight service   its retry helper ([retryWithBackoff]),
    together with the billing engine ([utils/calculator]) that those files
    import.

    Numbers.  The sources are modelled twice.  In the first model a
    JavaScript [number] that carries a quantity (units, rupees, watts,
    hours) is a rational [Q]: rounding, [NaN] and overflow are left out, and
    every equation between quantities is stated up to [==]; the one
    non-finite value the sources produce on purpose, [Infinity] in
    [subsidyConfig.limitUnits || Infinity], is kept ([Limit.Infinity]).
    What depends on an order between a sum and a threshold is not settled
    there: module [Double] has the code of DailyCalendar.tsx again with
    every [number] a binary64 double and the operations of IEEE 754, and
    the status of a day and [slabCrossed] are proved on it.  Counters and
    day numbers are [nat], epoch milliseconds are [Z]. *)

From Stdlib Require Import List String Ascii Bool Arith PeanoNat ZArith.
From Stdlib Require Import QArith Qminmax Lia Lqa DecimalString Permutation Sorted.
From Stdlib Require DecimalNat DecimalZ OrderedTypeEx.
From Stdlib Require Import PrimFloat FloatOps FloatAxioms.
From Stdlib Require Uint63.

Set Warnings "-inexact-float".
Import ListNotations.

Open Scope string_scope.
Open Scope Q_scope.

(* ================================================================== *)
(** * types.ts                                                         *)
(* ================================================================== *)

Module ApplianceCategory.
Inductive t := lighting | cooling | heating | electronics | motor.
End ApplianceCategory.

Module EnergyMode.
Inductive t := standard | bee_annual | iseer | eer.
End EnergyMode.

Module ACType.
Inductive t := inverter | non_inverter.
End ACType.

Module Season.
Inductive t := summer | winter | monsoon.
End Season.

Module SubsidyType.
Inductive t := none | government | company.
End SubsidyType.

Module SubsidyConfig.
Record t := mk { type : SubsidyType.t; limitUnits : Q }.
End SubsidyConfig.

Module Appliance.
Record t := mk {
  id : string;
  name : string;
  category : ApplianceCategory.t;
  type : string;
  watts : Q;
  hoursPerDay : Q;
  daysPerMonth : Q;
  quantity : Q;
  inputMode : EnergyMode.t;
  acType : option ACType.t;
  annualUnits : option Q;
  capacityTon : option Q;
  iseer : option Q;
  eer : option Q;
  starRating : option Q;
  icon : string }.
End Appliance.

Module DailyApplianceEntry.
Record t := mk {
  applianceId : string;
  applianceType : string;
  ratingType : EnergyMode.t;
  ratingValue : Q;
  powerKW : Q;
  usageHours : Q;
  unitsConsumed : Q;
  cost : Q }.
End DailyApplianceEntry.

Module UserDailyUsage.
Record t := mk {
  userId : string;
  date : string;            (* YYYY-MM-DD *)
  totalUnits : Q;
  totalCost : Q;
  isEstimated : bool;
  appliances : list DailyApplianceEntry.t;
  id : string;
  createdAt : Z;
  updatedAt : Z }.
End UserDailyUsage.

Module TariffSlab.
Record t := mk { min : Q; max : option Q; rate : Q }.
End TariffSlab.

Module StateTariff.
Record t := mk {
  id : string;
  name : string;
  fixedCharge : Q;
  slabs : list TariffSlab.t }.
End StateTariff.

Module SolarConfig.
Record t := mk { isInstalled : bool; ratingKw : Q }.
End SolarConfig.

(** The object literal returned by [summary] in DailyCalendar.tsx: the
    fields of [MonthlyUsageSummary] plus [estRemainderCost]. *)
Module MonthlyUsageSummary.
Record t := mk {
  month : string;           (* YYYY-MM *)
  totalUnits : Q;
  totalCost : Q;
  subsidyLimit : Q;
  subsidyUsed : Q;
  slabCrossed : bool;
  projectedBill : Q;
  projectedUnits : Q;
  confidenceScore : option Q;   (* number | null *)
  isStabilized : bool;
  estRemainderCost : Q }.
End MonthlyUsageSummary.

(* ================================================================== *)
(** * JavaScript built-ins used by the sources                         *)
(* ================================================================== *)

(** [a > b] and [a >= b] on numbers. *)
Definition Qgtb (a b : Q) : bool := negb (Qle_bool a b).
Definition Qgeb (a b : Q) : bool := Qle_bool b a.

(** The sum of a list of numbers. *)
Definition sumQ (l : list Q) : Q := fold_right Qplus 0 l.

(** [Number.prototype.toString] on a non-negative integer. *)
Definition toString (i : nat) : string :=
  NilEmpty.string_of_uint (Nat.to_uint i).

Fixpoint repeatString (pad : string) (n : nat) : string :=
  match n with
  | O => ""
  | S k => pad ++ repeatString pad k
  end.

(** [s.padStart(width, pad)] for a one-character [pad]. *)
Definition padStart (s : string) (width : nat) (pad : string) : string :=
  repeatString pad (width - String.length s) ++ s.

(** [s.startsWith(p)]. *)
Definition startsWith (s p : string) : bool := String.prefix p s.

(** [Array.prototype.sort] is stable: an insertion sort that puts an
    element in front of the first one it does not exceed.  [cmp a b] is the
    sign of the comparator's result. *)
Fixpoint insertBy {A : Type} (cmp : A -> A -> comparison) (a : A) (l : list A)
  : list A :=
  match l with
  | [] => [a]
  | y :: rest =>
      match cmp a y with
      | Gt => y :: insertBy cmp a rest
      | _ => a :: y :: rest
      end
  end.

Fixpoint sortBy {A : Type} (cmp : A -> A -> comparison) (l : list A) : list A :=
  match l with
  | [] => []
  | a :: rest => insertBy cmp a (sortBy cmp rest)
  end.

(** [a.localeCompare(b)], taken as the code-unit order.  What is proved
    below needs [localeCompare s s = 0] and, for the dates of one month,
    which differ in two digits after a common prefix, that the earlier day
    comes first: both hold in every locale. *)
Definition localeCompare (a b : string) : comparison := String.compare a b.

(** The value of [x || Infinity] for a number [x], and the two operations
    DailyCalendar.tsx applies to it. *)
Module Limit.
Inductive t := Finite (q : Q) | Infinity.

(** [x || Infinity]: [0] is falsy. *)
Definition orInfinity (x : Q) : t :=
  if Qeq_bool x 0 then Infinity else Finite x.

(** [k * limit] for a positive constant [k]. *)
Definition scale (k : Q) (l : t) : t :=
  match l with
  | Finite q => Finite (k * q)
  | Infinity => Infinity
  end.

(** [c >= limit] for a finite [c]. *)
Definition reached (c : Q) (l : t) : bool :=
  match l with
  | Finite q => Qgeb c q
  | Infinity => false
  end.
End Limit.

(** What [new Date()] and the methods called on it return during one
    render; the clock is taken not to advance within a render.
    [startOfDay] is [new Date().setHours(0,0,0,0)]. *)
Module Clock.
Record t := mk {
  toISOString : string;     (* UTC, YYYY-MM-DDTHH:mm:ss.sssZ *)
  getFullYear : Z;          (* local time *)
  getMonth : nat;           (* local time, 0..11 *)
  getTime : Z;
  startOfDay : Z }.
End Clock.

Definition isLeapYear (y : Z) : bool :=
  ((y mod 4 =? 0) && (negb (y mod 100 =? 0) || (y mod 400 =? 0)))%Z.

(** [new Date(year, monthIndex + 1, 0).getDate()]: the last day of the
    month, for the four-digit years [getFullYear] returns. *)
Definition lastDayOfMonth (year : Z) (monthIndex : nat) : nat :=
  match monthIndex with
  | 1%nat => if isLeapYear year then 29%nat else 28%nat
  | 3%nat | 5%nat | 8%nat | 10%nat => 30%nat
  | _ => 31%nat
  end.

(* ================================================================== *)
(** * utils/calculator, as DailyCalendar.tsx imports it                *)
(* ================================================================== *)

(** One line of a bill's slab breakdown. *)
Module SlabCharge.
Record t := mk { slab : TariffSlab.t; units : Q; cost : Q }.
End SlabCharge.

(** The object [calculateProgressiveBill] returns; DailyCalendar.tsx reads
    its [total]. *)
Module ProgressiveBill.
Record t := mk {
  energyCost : Q;
  fixedCharge : Q;
  total : Q;
  slabBreakdown : list SlabCharge.t }.
End ProgressiveBill.

(** The two functions DailyCalendar.tsx imports from [./utils/calculator].
    The calendar uses their results as plain values, so they are total
    here. *)
Class Calculator := {
  calculateProgressiveBill : Q -> StateTariff.t -> ProgressiveBill.t;
  calculateApplianceUnits : Appliance.t -> Season.t -> Q }.

(** [new Date(s).getTime()] for a date string; [None] is an invalid date,
    which compares false with everything. *)
Class DateRuntime := { Date_parse : string -> option Z }.

(* ================================================================== *)
(** * DailyCalendar.tsx                                                *)
(* ================================================================== *)

Module DayStatus.
Inductive t := safe | warning | critical | none.
End DayStatus.

(** An element of [calendarDays]. *)
Module CalendarDay.
Record t := mk {
  date : string;
  dayNum : nat;
  log : option UserDailyUsage.t;
  status : DayStatus.t;
  isFuture : bool;
  isEstimated : bool }.
End CalendarDay.

(** A count used as a number. *)
Definition num (n : nat) : Q := inject_Z (Z.of_nat n).

(** [logs.filter(l => l.date.startsWith(currentMonth))
        .sort((a,b) => a.date.localeCompare(b.date))] *)
Definition monthLogs (logs : list UserDailyUsage.t) (currentMonth : string)
  : list UserDailyUsage.t :=
  sortBy (fun a b => localeCompare (UserDailyUsage.date a) (UserDailyUsage.date b))
         (filter (fun l => startsWith (UserDailyUsage.date l) currentMonth) logs).

(** [monthLogs.reduce((sum, l) => sum + l.totalUnits, 0)] *)
Definition totalUnits (monthLogs : list UserDailyUsage.t) : Q :=
  fold_left (fun sum l => sum + UserDailyUsage.totalUnits l) monthLogs 0.

(** [Math.min(99, 65 + (daysLogged / daysInMonth) * 35)] when
    [daysLogged >= 10], else [null]. *)
Definition confidenceScore (daysLogged daysInMonth : nat) : option Q :=
  if (10 <=? daysLogged)%nat
  then Some (Qmin 99 (65 + (num daysLogged / num daysInMonth) * 35))
  else None.

(** [`${currentMonth}-${i.toString().padStart(2, '0')}`] *)
Definition dateStr (currentMonth : string) (i : nat) : string :=
  currentMonth ++ "-" ++ padStart (toString i) 2 "0".

(** The status chosen inside the loop of [calendarDays] for a day that has
    a log. *)
Definition loggedStatus (cumulativeUnits : Q) (limit : Limit.t) : DayStatus.t :=
  if Limit.reached cumulativeUnits limit then DayStatus.critical
  else if Limit.reached cumulativeUnits (Limit.scale 0.85 limit)
       then DayStatus.warning
       else DayStatus.safe.

Section DailyCalendar.

Context {calculator : Calculator} {runtime : DateRuntime}.

(** [inventory.reduce((sum, a) => sum + (calculateApplianceUnits(a, season) / 30), 0)] *)
Definition baselineDaily (inventory : list Appliance.t) (season : Season.t) : Q :=
  fold_left (fun sum a => sum + calculateApplianceUnits a season / 30) inventory 0.

(** [daysLogged > 0 ? totalUnits / daysLogged : baselineDaily] *)
Definition avgUnitsPerDay (monthLogs : list UserDailyUsage.t)
  (inventory : list Appliance.t) (season : Season.t) : Q :=
  let daysLogged := List.length monthLogs in
  if (0 <? daysLogged)%nat
  then totalUnits monthLogs / num daysLogged
  else baselineDaily inventory season.

(** The [summary] memo; its dependency list gives the arguments. *)
Definition summary (monthLogs : list UserDailyUsage.t)
  (stateTariff : StateTariff.t) (inventory : list Appliance.t)
  (daysInMonth : nat) (currentMonth : string)
  (subsidyConfig : SubsidyConfig.t) (season : Season.t)
  : MonthlyUsageSummary.t :=
  let totalUnits := totalUnits monthLogs in
  let daysLogged := List.length monthLogs in
  let avgUnitsPerDay := avgUnitsPerDay monthLogs inventory season in
  let projectedUnits := avgUnitsPerDay * num daysInMonth in
  let isStabilized := (7 <=? daysLogged)%nat in
  let confidenceScore := confidenceScore daysLogged daysInMonth in
  let projectedBillTotal := calculateProgressiveBill projectedUnits stateTariff in
  let mtdBillCost := calculateProgressiveBill totalUnits stateTariff in
  let estRemainderCost :=
    Qmax 0 (ProgressiveBill.total projectedBillTotal - ProgressiveBill.total mtdBillCost) in
  {| MonthlyUsageSummary.month := currentMonth;
     MonthlyUsageSummary.totalUnits := totalUnits;
     MonthlyUsageSummary.totalCost := ProgressiveBill.total mtdBillCost;
     MonthlyUsageSummary.subsidyLimit := SubsidyConfig.limitUnits subsidyConfig;
     MonthlyUsageSummary.subsidyUsed :=
       Qmin totalUnits (SubsidyConfig.limitUnits subsidyConfig);
     MonthlyUsageSummary.slabCrossed :=
       Qgtb totalUnits (SubsidyConfig.limitUnits subsidyConfig);
     MonthlyUsageSummary.projectedBill := ProgressiveBill.total projectedBillTotal;
     MonthlyUsageSummary.projectedUnits := projectedUnits;
     MonthlyUsageSummary.confidenceScore := confidenceScore;
     MonthlyUsageSummary.isStabilized := isStabilized;
     MonthlyUsageSummary.estRemainderCost := estRemainderCost |}.

(** [monthLogs.find(l => l.date === dateStr)] *)
Definition findLog (monthLogs : list UserDailyUsage.t) (dateStr : string)
  : option UserDailyUsage.t :=
  find (fun l => String.eqb (UserDailyUsage.date l) dateStr) monthLogs.

(** One turn of the [for] loop of [calendarDays]: the state is the array
    [days] and the running [cumulativeUnits]. *)
Definition calendarStep (clock : Clock.t) (currentMonth : string)
  (monthLogs : list UserDailyUsage.t) (limit : Limit.t)
  (st : list CalendarDay.t * Q) (i : nat) : list CalendarDay.t * Q :=
  let '(days, cumulativeUnits) := st in
  let dateStr := dateStr currentMonth i in
  let log := findLog monthLogs dateStr in
  let isPast :=
    match Date_parse dateStr with
    | Some t => (t <? Clock.startOfDay clock)%Z
    | None => false
    end in
  let cumulativeUnits :=
    match log with
    | Some l => cumulativeUnits + UserDailyUsage.totalUnits l
    | None => cumulativeUnits
    end in
  let status :=
    match log with
    | Some _ => loggedStatus cumulativeUnits limit
    | None => DayStatus.none
    end in
  let isFuture :=
    match Date_parse dateStr with
    | Some t => (Clock.getTime clock <? t)%Z
    | None => false
    end in
  ((days ++ [ {| CalendarDay.date := dateStr;
                CalendarDay.dayNum := i;
                CalendarDay.log := log;
                CalendarDay.status := status;
                CalendarDay.isFuture := isFuture;
                CalendarDay.isEstimated :=
                  isPast && match log with Some _ => false | None => true end |} ])%list,
   cumulativeUnits).

(** The loop [for (let i = 1; i <= daysInMonth; i++)] run from the state
    [([], 0)]. *)
Definition calendarLoop (clock : Clock.t) (currentMonth : string)
  (daysInMonth : nat) (monthLogs : list UserDailyUsage.t)
  (subsidyConfig : SubsidyConfig.t) : list CalendarDay.t * Q :=
  let limit := Limit.orInfinity (SubsidyConfig.limitUnits subsidyConfig) in
  fold_left (calendarStep clock currentMonth monthLogs limit)
            (seq 1 daysInMonth) ([], 0).

(** The [calendarDays] memo; it reads the clock besides its dependency
    list. *)
Definition calendarDays (clock : Clock.t) (currentMonth : string)
  (daysInMonth : nat) (monthLogs : list UserDailyUsage.t)
  (subsidyConfig : SubsidyConfig.t) : list CalendarDay.t :=
  fst (calendarLoop clock currentMonth daysInMonth monthLogs subsidyConfig).

(** The props of the component that reach [summary] and [calendarDays]. *)
Record Props := mkProps {
  logs : list UserDailyUsage.t;
  stateTariff : StateTariff.t;
  inventory : list Appliance.t;
  subsidyConfig : SubsidyConfig.t;
  season : Season.t }.

(** [new Date().toISOString().slice(0, 7)] *)
Definition currentMonth (clock : Clock.t) : string :=
  substring 0 7 (Clock.toISOString clock).

(** [new Date(new Date().getFullYear(), new Date().getMonth() + 1, 0).getDate()] *)
Definition daysInMonth (clock : Clock.t) : nat :=
  lastDayOfMonth (Clock.getFullYear clock) (Clock.getMonth clock).

(** The render that mounts [DailyCalendar]: no memo holds a value yet, so
    both are computed, from the props and from the clock the component
    reads. *)
Definition DailyCalendar (props : Props) (clock : Clock.t)
  : MonthlyUsageSummary.t * list CalendarDay.t :=
  let currentMonth := currentMonth clock in
  let daysInMonth := daysInMonth clock in
  let monthLogs := monthLogs (logs props) currentMonth in
  (summary monthLogs (stateTariff props) (inventory props) daysInMonth
           currentMonth (subsidyConfig props) (season props),
   calendarDays clock currentMonth daysInMonth monthLogs (subsidyConfig props)).

(** ** Re-rendering: the [useMemo] cells *)

(** The identities of the objects passed as props.  [useMemo] compares its
    dependencies with [Object.is]: the month, the number of days and the
    season by value, an array or an object by identity. *)
Record Identity := mkIdentity {
  logsId : nat;
  stateTariffId : nat;
  inventoryId : nat;
  subsidyConfigId : nat }.

(** What a mounted component keeps from its last render: the dependencies
    the memos saw and the values they hold.  The array [monthLogs] is the
    same object in two successive renders exactly when its own memo was not
    recomputed, that is when [logs] and [currentMonth] are unchanged. *)
Record Mounted := mkMounted {
  depMonth : string;
  depDays : nat;
  depIdentity : Identity;
  depSeason : Season.t;
  memoSummary : MonthlyUsageSummary.t;
  memoCalendarDays : list CalendarDay.t }.

Definition sameSeason (a b : Season.t) : bool :=
  match a, b with
  | Season.summer, Season.summer
  | Season.monsoon, Season.monsoon
  | Season.winter, Season.winter => true
  | _, _ => false
  end.

(** The dependencies [[logs, currentMonth]] of [monthLogs] are unchanged. *)
Definition monthLogsKept (m : Mounted) (ids : Identity) (currentMonth : string)
  : bool :=
  Nat.eqb (logsId (depIdentity m)) (logsId ids)
  && String.eqb (depMonth m) currentMonth.

(** The dependencies [[monthLogs, stateTariff, inventory, daysInMonth,
    currentMonth, subsidyConfig, season]] of [summary] are unchanged. *)
Definition summaryKept (m : Mounted) (ids : Identity) (currentMonth : string)
  (daysInMonth : nat) (season : Season.t) : bool :=
  monthLogsKept m ids currentMonth
  && Nat.eqb (stateTariffId (depIdentity m)) (stateTariffId ids)
  && Nat.eqb (inventoryId (depIdentity m)) (inventoryId ids)
  && Nat.eqb (depDays m) daysInMonth
  && String.eqb (depMonth m) currentMonth
  && Nat.eqb (subsidyConfigId (depIdentity m)) (subsidyConfigId ids)
  && sameSeason (depSeason m) season.

(** The dependencies [[currentMonth, daysInMonth, monthLogs, subsidyConfig]]
    of [calendarDays] are unchanged: the clock is not among them. *)
Definition calendarDaysKept (m : Mounted) (ids : Identity)
  (currentMonth : string) (daysInMonth : nat) : bool :=
  String.eqb (depMonth m) currentMonth
  && Nat.eqb (depDays m) daysInMonth
  && monthLogsKept m ids currentMonth
  && Nat.eqb (subsidyConfigId (depIdentity m)) (subsidyConfigId ids).

(** The first render of a component. *)
Definition mount (props : Props) (ids : Identity) (clock : Clock.t) : Mounted :=
  {| depMonth := currentMonth clock;
     depDays := daysInMonth clock;
     depIdentity := ids;
     depSeason := season props;
     memoSummary := fst (DailyCalendar props clock);
     memoCalendarDays := snd (DailyCalendar props clock) |}.

(** A later render of a mounted component: a memo whose dependencies are
    unchanged returns the value it holds, the others are computed anew. *)
Definition rerender (m : Mounted) (props : Props) (ids : Identity)
  (clock : Clock.t) : Mounted :=
  let currentMonth := currentMonth clock in
  let daysInMonth := daysInMonth clock in
  {| depMonth := currentMonth;
     depDays := daysInMonth;
     depIdentity := ids;
     depSeason := season props;
     memoSummary :=
       if summaryKept m ids currentMonth daysInMonth (season props)
       then memoSummary m
       else fst (DailyCalendar props clock);
     memoCalendarDays :=
       if calendarDaysKept m ids currentMonth daysInMonth
       then memoCalendarDays m
       else snd (DailyCalendar props clock) |}.

(** What a render shows. *)
Definition rendered (m : Mounted) : MonthlyUsageSummary.t * list CalendarDay.t :=
  (memoSummary m, memoCalendarDays m).

End DailyCalendar.

(* ================================================================== *)
(** * App.tsx: the daily-log store                                     *)
(* ================================================================== *)

(** The updater [handleSaveLog] passes to [setDailyLogs]. *)
Definition handleSaveLog (log : UserDailyUsage.t) (prev : list UserDailyUsage.t)
  : list UserDailyUsage.t :=
  let sameDate := fun l : UserDailyUsage.t =>
    String.eqb (UserDailyUsage.date l) (UserDailyUsage.date log) in
  match find sameDate prev with
  | Some _ => map (fun l => if sameDate l then log else l) prev
  | None => (prev ++ [log])%list
  end.

(* ================================================================== *)
(** * The billing engine (utils/calculator.ts)                          *)
(* ================================================================== *)

(** The functions of the engine, written from the specification of the
    engine (sections 4.1 to 4.4) under the names it gives them. *)
Module Engine.

(** Modelled from the spec: the two error kinds of utils/calculator.ts
    (section 7). *)
Inductive EngineError := ValidationError | ConfigurationError.

(** A value, or the error the engine raises instead. *)
Inductive Result (A : Type) : Type :=
| Ok (a : A)
| Err (e : EngineError).
Arguments Ok {A} a.
Arguments Err {A} e.

Definition bind {A B : Type} (c : Result A) (k : A -> Result B) : Result B :=
  match c with
  | Ok a => k a
  | Err e => Err e
  end.

Notation "x <- c ;; k" := (bind c (fun x => k))
  (at level 61, c at next level, right associativity).
Notation "c ;;; k" := (bind c (fun _ => k))
  (at level 61, right associativity).

Fixpoint mapM {A B : Type} (f : A -> Result B) (l : list A) : Result (list B) :=
  match l with
  | [] => Ok []
  | a :: rest => b <- f a ;; bs <- mapM f rest ;; Ok (b :: bs)
  end.

(** The grades of [efficiencyScore] in types.ts. *)
Inductive EfficiencyScore := A | B | C | D | E.

(** Modelled from the spec: the configuration constants of
    utils/calculator.ts, which the specification names without fixing their
    values: the per-season multiplier table, the monthly solar yield per
    installed kW, the electrical input of a cooling appliance given its
    capacity in tons and its ISEER or EER, and the four ascending unit
    thresholds of the efficiency bands. *)
Class Config := {
  seasonalMultiplier : Season.t -> Q;
  solarUnitsPerKw : Q;
  coolingInputKw : Q -> Q -> Q;
  efficiencyThresholds : Q * Q * Q * Q }.

(** [ApplianceBreakdown] of types.ts. *)
Record ApplianceBreakdown := mkBreakdown {
  appliance : Appliance.t;
  units : Q;
  cost : Q;
  percentage : Q }.

(** [CalculationResult] of types.ts, without its [id], on which the
    specification is silent. *)
Record CalculationResult := mkResult {
  totalUnits : Q;
  solarGeneratedUnits : Q;
  netUnits : Q;
  subsidizedUnits : Q;
  billableUnits : Q;
  totalCost : Q;
  energyCost : Q;
  fixedCharge : Q;
  applianceBreakdown : list ApplianceBreakdown;
  highestConsumer : option ApplianceBreakdown;
  topConsumers : list ApplianceBreakdown;
  efficiencyScore : EfficiencyScore;
  subsidyConfig : SubsidyConfig.t;
  season : Season.t;
  remainingSubsidyUnits : Q;
  seasonalImpact : Q;
  seasonalProjections : Season.t -> Q }.

(** Modelled from the spec: the object [applySubsidy] of
    utils/calculator.ts returns (section 4.3). *)
Record SubsidySplit := mkSplit {
  split_subsidizedUnits : Q;
  split_billableUnits : Q;
  split_remainingSubsidyUnits : Q }.

(** Modelled from the spec: the defensive check of utils/calculator.ts
    against negative values (sections 4.1 and 7). *)
Definition nonNegative (x : Q) : Result unit :=
  if Qle_bool 0 x then Ok tt else Err ValidationError.

(** Modelled from the spec: the check of utils/calculator.ts for a
    mode-specific field that is missing (sections 4.1 and 7). *)
Definition required (x : option Q) : Result Q :=
  match x with
  | Some v => Ok v
  | None => Err ValidationError
  end.

(** Modelled from the spec: the categories whose [standard]-mode units
    utils/calculator.ts scales by the season (section 4.1). *)
Definition isCoolingOrHeating (c : ApplianceCategory.t) : bool :=
  match c with
  | ApplianceCategory.cooling | ApplianceCategory.heating => true
  | _ => false
  end.

(** Modelled from the spec: the categories whose [bee_annual]-mode units
    utils/calculator.ts scales by the season (section 4.1). *)
Definition isCooling (c : ApplianceCategory.t) : bool :=
  match c with
  | ApplianceCategory.cooling => true
  | _ => false
  end.

(** Modelled from the spec: the slab walk of [calculateProgressiveBill]
    (utils/calculator.ts, section 4.2): in each slab the billable quantity
    is [min(units, slab.max ?? Infinity) - slab.min], clamped to [>= 0],
    charged at [slab.rate]. *)
Definition slabQuantity (units : Q) (s : TariffSlab.t) : Q :=
  let upper :=
    match TariffSlab.max s with
    | Some hi => Qmin units hi
    | None => units
    end in
  Qmax 0 (upper - TariffSlab.min s).

(** Modelled from the spec: one entry of [slabBreakdown] of
    [calculateProgressiveBill] (utils/calculator.ts). *)
Definition slabCharge (units : Q) (s : TariffSlab.t) : SlabCharge.t :=
  {| SlabCharge.slab := s;
     SlabCharge.units := slabQuantity units s;
     SlabCharge.cost := slabQuantity units s * TariffSlab.rate s |}.

(** Modelled from the spec: [calculateProgressiveBill] of
    utils/calculator.ts (section 4.2): the fixed charge is added once
    whatever the units, and [total = energyCost + fixedCharge]. *)
Definition calculateProgressiveBill (units : Q) (tariff : StateTariff.t)
  : ProgressiveBill.t :=
  let breakdown := map (slabCharge units) (StateTariff.slabs tariff) in
  let energyCost := sumQ (map SlabCharge.cost breakdown) in
  {| ProgressiveBill.energyCost := energyCost;
     ProgressiveBill.fixedCharge := StateTariff.fixedCharge tariff;
     ProgressiveBill.total := energyCost + StateTariff.fixedCharge tariff;
     ProgressiveBill.slabBreakdown := breakdown |}.

(** Modelled from the spec: the tariff check behind [ConfigurationError]
    (utils/calculator.ts, sections 3 and 4.4): slabs start at [lo], are
    contiguous with ascending bounds, none is negative, and the last one
    alone is unbounded. *)
Fixpoint validSlabs (lo : Q) (slabs : list TariffSlab.t) : bool :=
  match slabs with
  | [] => false
  | s :: rest =>
      Qeq_bool (TariffSlab.min s) lo && Qle_bool 0 lo
      && Qle_bool 0 (TariffSlab.rate s)
      && match TariffSlab.max s, rest with
         | None, [] => true
         | Some hi, _ :: _ => negb (Qle_bool hi lo) && validSlabs hi rest
         | _, _ => false
         end
  end.

(** Modelled from the spec: validity of a [StateTariff] for the engine
    (utils/calculator.ts, section 4.4, failure modes). *)
Definition validTariff (tariff : StateTariff.t) : bool :=
  Qle_bool 0 (StateTariff.fixedCharge tariff)
  && match StateTariff.slabs tariff with
     | [] => false
     | s :: _ => validSlabs (TariffSlab.min s) (StateTariff.slabs tariff)
     end.

(** Modelled from the spec: [applySubsidy] of utils/calculator.ts
    (section 4.3). *)
Definition applySubsidy (units : Q) (subsidyConfig : SubsidyConfig.t)
  : SubsidySplit :=
  match SubsidyConfig.type subsidyConfig with
  | SubsidyType.none =>
      {| split_subsidizedUnits := 0;
         split_billableUnits := units;
         split_remainingSubsidyUnits := 0 |}
  | SubsidyType.government | SubsidyType.company =>
      let limitUnits := SubsidyConfig.limitUnits subsidyConfig in
      {| split_subsidizedUnits := Qmin units limitUnits;
         split_billableUnits := Qmax 0 (units - limitUnits);
         split_remainingSubsidyUnits := Qmax 0 (limitUnits - units) |}
  end.

Section WithConfig.

Context {config : Config}.

(** Modelled from the spec: the seasonal adjustment of
    [computeMonthlyUnits] (utils/calculator.ts, section 4.1). *)
Definition seasonallyAdjusted (applies : bool) (season : Season.t) (units : Q) : Q :=
  if applies then units * seasonalMultiplier season else units.

(** Modelled from the spec: [computeMonthlyUnits] of utils/calculator.ts
    (section 4.1): the fields of the appliance's input mode are the
    authoritative ones; a missing or negative one is a [ValidationError]. *)
Definition computeMonthlyUnits (a : Appliance.t) (season : Season.t) : Result Q :=
  match Appliance.inputMode a with
  | EnergyMode.standard =>
      nonNegative (Appliance.watts a) ;;;
      nonNegative (Appliance.hoursPerDay a) ;;;
      nonNegative (Appliance.daysPerMonth a) ;;;
      nonNegative (Appliance.quantity a) ;;;
      Ok (seasonallyAdjusted (isCoolingOrHeating (Appliance.category a)) season
            (Appliance.watts a * Appliance.hoursPerDay a
             * Appliance.daysPerMonth a * Appliance.quantity a / 1000))
  | EnergyMode.bee_annual =>
      annualUnits <- required (Appliance.annualUnits a) ;;
      nonNegative annualUnits ;;;
      nonNegative (Appliance.quantity a) ;;;
      Ok (seasonallyAdjusted (isCooling (Appliance.category a)) season
            (annualUnits / 12 * Appliance.quantity a))
  | EnergyMode.iseer =>
      capacityTon <- required (Appliance.capacityTon a) ;;
      iseer <- required (Appliance.iseer a) ;;
      nonNegative capacityTon ;;;
      nonNegative iseer ;;;
      nonNegative (Appliance.hoursPerDay a) ;;;
      nonNegative (Appliance.daysPerMonth a) ;;;
      nonNegative (Appliance.quantity a) ;;;
      Ok (seasonallyAdjusted true season
            (coolingInputKw capacityTon iseer * Appliance.hoursPerDay a
             * Appliance.daysPerMonth a * Appliance.quantity a))
  | EnergyMode.eer =>
      capacityTon <- required (Appliance.capacityTon a) ;;
      eer <- required (Appliance.eer a) ;;
      nonNegative capacityTon ;;;
      nonNegative eer ;;;
      nonNegative (Appliance.hoursPerDay a) ;;;
      nonNegative (Appliance.daysPerMonth a) ;;;
      nonNegative (Appliance.quantity a) ;;;
      Ok (seasonallyAdjusted true season
            (coolingInputKw capacityTon eer * Appliance.hoursPerDay a
             * Appliance.daysPerMonth a * Appliance.quantity a))
  end.

(** Modelled from the spec: step 1 of [getFullCalculation]
    (utils/calculator.ts, section 4.4), also rerun per season in step 9. *)
Definition unitsPerAppliance (appliances : list Appliance.t) (season : Season.t)
  : Result (list (Appliance.t * Q)) :=
  mapM (fun a => u <- computeMonthlyUnits a season ;; Ok (a, u)) appliances.

(** Modelled from the spec: step 2 of [getFullCalculation]
    (utils/calculator.ts). *)
Definition solarGeneration (solarConfig : SolarConfig.t) : Q :=
  if SolarConfig.isInstalled solarConfig
  then SolarConfig.ratingKw solarConfig * solarUnitsPerKw
  else 0.

(** Modelled from the spec: step 6 of [getFullCalculation]
    (utils/calculator.ts): cost and percentage in proportion to the units,
    both [0] when [totalUnits] is [0]. *)
Definition breakdownEntry (totalUnits energyCost : Q) (au : Appliance.t * Q)
  : ApplianceBreakdown :=
  let '(a, u) := au in
  if Qeq_bool totalUnits 0
  then {| appliance := a; units := u; cost := 0; percentage := 0 |}
  else {| appliance := a; units := u;
          cost := u / totalUnits * energyCost;
          percentage := u / totalUnits * 100 |}.

(** Modelled from the spec: the order of step 7 of [getFullCalculation]
    (utils/calculator.ts): descending by units. *)
Definition byUnitsDescending (x y : ApplianceBreakdown) : comparison :=
  Qcompare (units y) (units x).

(** Modelled from the spec: step 8 of [getFullCalculation]
    (utils/calculator.ts): a banded grade over the total units. *)
Definition gradeOf (totalUnits : Q) : EfficiencyScore :=
  let '(a, b, c, d) := efficiencyThresholds in
  if negb (Qle_bool a totalUnits) then A
  else if negb (Qle_bool b totalUnits) then B
  else if negb (Qle_bool c totalUnits) then C
  else if negb (Qle_bool d totalUnits) then D
  else E.

(** Modelled from the spec: the two seasons that step 9 of
    [getFullCalculation] (utils/calculator.ts) averages against the current
    one. *)
Definition otherSeasons (s : Season.t) : Season.t * Season.t :=
  match s with
  | Season.summer => (Season.winter, Season.monsoon)
  | Season.winter => (Season.summer, Season.monsoon)
  | Season.monsoon => (Season.summer, Season.winter)
  end.

(** Modelled from the spec: [getFullCalculation] of utils/calculator.ts
    (section 4.4, steps 1 to 9 and its failure modes). *)
Definition getFullCalculation (appliances : list Appliance.t)
  (tariff : StateTariff.t) (solarConfig : SolarConfig.t)
  (subsidyConfig : SubsidyConfig.t) (season : Season.t)
  : Result CalculationResult :=
  (if validTariff tariff then Ok tt else Err ConfigurationError) ;;;
  perAppliance <- unitsPerAppliance appliances season ;;
  summerUnits <- unitsPerAppliance appliances Season.summer ;;
  winterUnits <- unitsPerAppliance appliances Season.winter ;;
  monsoonUnits <- unitsPerAppliance appliances Season.monsoon ;;
  let totalUnits := sumQ (map snd perAppliance) in
  let solarGeneratedUnits := solarGeneration solarConfig in
  let netUnits := Qmax 0 (totalUnits - solarGeneratedUnits) in
  let subsidy := applySubsidy netUnits subsidyConfig in
  let bill := calculateProgressiveBill (split_billableUnits subsidy) tariff in
  let breakdown :=
    map (breakdownEntry totalUnits (ProgressiveBill.energyCost bill)) perAppliance in
  let ranked := sortBy byUnitsDescending breakdown in
  let projections := fun s =>
    match s with
    | Season.summer => sumQ (map snd summerUnits)
    | Season.winter => sumQ (map snd winterUnits)
    | Season.monsoon => sumQ (map snd monsoonUnits)
    end in
  let '(o1, o2) := otherSeasons season in
  Ok {| totalUnits := totalUnits;
        solarGeneratedUnits := solarGeneratedUnits;
        netUnits := netUnits;
        subsidizedUnits := split_subsidizedUnits subsidy;
        billableUnits := split_billableUnits subsidy;
        totalCost := ProgressiveBill.total bill;
        energyCost := ProgressiveBill.energyCost bill;
        fixedCharge := ProgressiveBill.fixedCharge bill;
        applianceBreakdown := breakdown;
        highestConsumer := hd_error ranked;
        topConsumers := firstn 3 ranked;
        efficiencyScore := gradeOf totalUnits;
        subsidyConfig := subsidyConfig;
        season := season;
        remainingSubsidyUnits := split_remainingSubsidyUnits subsidy;
        seasonalImpact :=
          projections season - (projections o1 + projections o2) / 2;
        seasonalProjections := projections |}.

End WithConfig.

End Engine.

(* ================================================================== *)
(** * The quantities the specification speaks of                       *)
(* ================================================================== *)

Definition sumUnits (l : list UserDailyUsage.t) : Q :=
  sumQ (map UserDailyUsage.totalUnits l).

(** The logs of the target month, in the order they were stored. *)
Definition logsOfMonth (logs : list UserDailyUsage.t) (currentMonth : string)
  : list UserDailyUsage.t :=
  filter (fun l => startsWith (UserDailyUsage.date l) currentMonth) logs.

(** Month-to-date units: the sum of [totalUnits] over the logs of the target
    month. *)
Definition monthToDateUnits (logs : list UserDailyUsage.t) (currentMonth : string) : Q :=
  sumUnits (logsOfMonth logs currentMonth).

(** The number of logged days of the target month. *)
Definition daysLogged (logs : list UserDailyUsage.t) (currentMonth : string) : nat :=
  List.length (logsOfMonth logs currentMonth).

(** The log of day [i] of the month, if there is one: the first stored log
    that carries the day's date. *)
Definition logOfDay (logs : list UserDailyUsage.t) (currentMonth : string) (i : nat)
  : option UserDailyUsage.t :=
  find (fun l => String.eqb (UserDailyUsage.date l) (dateStr currentMonth i)) logs.

Definition unitsOfDay (logs : list UserDailyUsage.t) (currentMonth : string) (i : nat) : Q :=
  match logOfDay logs currentMonth i with
  | Some l => UserDailyUsage.totalUnits l
  | None => 0
  end.

(** Cumulative logged units up to and including day [i], a day counting
    for the first stored log of its date: with one log a date at most, the
    units logged through day [i]. *)
Fixpoint cumulativeUnits (logs : list UserDailyUsage.t) (currentMonth : string) (i : nat) : Q :=
  match i with
  | O => 0
  | S k => cumulativeUnits logs currentMonth k + unitsOfDay logs currentMonth i
  end.

(** The status the specification gives a logged day: the cumulative units
    against the subsidy limit itself. *)
Definition specifiedStatus (cumulative limit : Q) : DayStatus.t :=
  if negb (Qle_bool (0.85 * limit) cumulative) then DayStatus.safe
  else if negb (Qle_bool limit cumulative) then DayStatus.warning
  else DayStatus.critical.


(** What an entry of [calendarDays] shows besides its two date flags. *)
Definition classification (d : CalendarDay.t)
  : string * nat * option UserDailyUsage.t * DayStatus.t :=
  (CalendarDay.date d, CalendarDay.dayNum d, CalendarDay.log d,
   CalendarDay.status d).

(** At most one log per calendar date. *)
Definition distinctDates (logs : list UserDailyUsage.t) : Prop :=
  NoDup (map UserDailyUsage.date logs).

(* ================================================================== *)
(** * Sample data                                                      *)
(* ================================================================== *)

Module Sample.

(** Days from 1970-01-01 to the civil date [y]-[m]-[d]. *)
Definition daysFromCivil (y m d : Z) : Z :=
  (let y' := if m <=? 2 then y - 1 else y in
   let era := y' / 400 in
   let yoe := y' - era * 400 in
   let mp := (m + 9) mod 12 in
   let doy := (153 * mp + 2) / 5 + d - 1 in
   let doe := yoe * 365 + yoe / 4 - yoe / 100 + doy in
   era * 146097 + doe - 719468)%Z.

Definition digit (c : ascii) : option Z :=
  let n := nat_of_ascii c in
  if ((48 <=? n) && (n <=? 57))%nat then Some (Z.of_nat (n - 48)) else None.

Fixpoint digits (s : string) (acc : Z) : option Z :=
  match s with
  | EmptyString => Some acc
  | String c rest =>
      match digit c with
      | Some v => digits rest (10 * acc + v)%Z
      | None => None
      end
  end.

(** [new Date("YYYY-MM-DD").getTime()]: midnight UTC of that day. *)
Definition parseIsoDate (s : string) : option Z :=
  if ((String.length s =? 10)%nat
      && String.eqb (substring 4 1 s) "-" && String.eqb (substring 7 1 s) "-")%bool
  then
    match digits (substring 0 4 s) 0, digits (substring 5 2 s) 0,
          digits (substring 8 2 s) 0 with
    | Some y, Some m, Some d =>
        if ((1 <=? m) && (m <=? 12) && (1 <=? d) && (d <=? 31))%Z
        then Some (daysFromCivil y m d * 86400000)%Z
        else None
    | _, _, _ => None
    end
  else None.

Definition isoDates : DateRuntime := {| Date_parse := parseIsoDate |}.

(** The tariff of the specification's example: 0-100 at 3, 100-300 at 5,
    300 and above at 7, fixed charge 50. *)
Definition tariff : StateTariff.t :=
  {| StateTariff.id := "sample";
     StateTariff.name := "Sample State";
     StateTariff.fixedCharge := 50;
     StateTariff.slabs :=
       [ {| TariffSlab.min := 0; TariffSlab.max := Some 100; TariffSlab.rate := 3 |};
         {| TariffSlab.min := 100; TariffSlab.max := Some 300; TariffSlab.rate := 5 |};
         {| TariffSlab.min := 300; TariffSlab.max := None; TariffSlab.rate := 7 |} ] |}.

(** Engine constants for the examples: the summer multiplier 1.2 of the
    specification's example, 4 kWh per kW per day over 30 days, 3.517 kW of
    cooling per ton, bands at 150, 300, 450 and 600 units. *)
Definition config : Engine.Config :=
  {| Engine.seasonalMultiplier := fun s =>
       match s with
       | Season.summer => 1.2
       | Season.monsoon => 1
       | Season.winter => 0.9
       end;
     Engine.solarUnitsPerKw := 120;
     Engine.coolingInputKw := fun tons ratio => tons * 3.517 / ratio;
     Engine.efficiencyThresholds := (150, 300, 450, 600) |}.

(** A calculator for the examples: the engine's functions, an appliance the
    engine rejects counting for no units. *)
Definition calculator : Calculator :=
  {| calculateProgressiveBill := Engine.calculateProgressiveBill;
     calculateApplianceUnits := fun a s =>
       match Engine.computeMonthlyUnits (config := config) a s with
       | Engine.Ok u => u
       | Engine.Err _ => 0
       end |}.

(** A day's log with the given date and units. *)
Definition logOn (date : string) (units : Q) : UserDailyUsage.t :=
  {| UserDailyUsage.userId := "u1";
     UserDailyUsage.date := date;
     UserDailyUsage.totalUnits := units;
     UserDailyUsage.totalCost := 0;
     UserDailyUsage.isEstimated := false;
     UserDailyUsage.appliances := [];
     UserDailyUsage.id := date;
     UserDailyUsage.createdAt := 0%Z;
     UserDailyUsage.updatedAt := 0%Z |}.

(** A [standard]-mode appliance: 1000 W, 5 hours a day, 30 days a month,
    quantity 1. *)
Definition kilowatt (category : ApplianceCategory.t) : Appliance.t :=
  {| Appliance.id := "a1";
     Appliance.name := "appliance";
     Appliance.category := category;
     Appliance.type := "generic";
     Appliance.watts := 1000;
     Appliance.hoursPerDay := 5;
     Appliance.daysPerMonth := 30;
     Appliance.quantity := 1;
     Appliance.inputMode := EnergyMode.standard;
     Appliance.acType := None;
     Appliance.annualUnits := None;
     Appliance.capacityTon := None;
     Appliance.iseer := None;
     Appliance.eer := None;
     Appliance.starRating := None;
     Appliance.icon := "" |}.

(** 15 March 2024, 10:30 UTC, read in a UTC locale. *)
Definition march15 : Clock.t :=
  {| Clock.toISOString := "2024-03-15T10:30:00.000Z";
     Clock.getFullYear := 2024%Z;
     Clock.getMonth := 2%nat;
     Clock.getTime := 1710498600000%Z;
     Clock.startOfDay := 1710460800000%Z |}.

(** 20 March 2024, 08:00 UTC. *)
Definition march20 : Clock.t :=
  {| Clock.toISOString := "2024-03-20T08:00:00.000Z";
     Clock.getFullYear := 2024%Z;
     Clock.getMonth := 2%nat;
     Clock.getTime := 1710921600000%Z;
     Clock.startOfDay := 1710892800000%Z |}.

(** 15 April 2024, 10:30 UTC. *)
Definition april15 : Clock.t :=
  {| Clock.toISOString := "2024-04-15T10:30:00.000Z";
     Clock.getFullYear := 2024%Z;
     Clock.getMonth := 3%nat;
     Clock.getTime := 1713177000000%Z;
     Clock.startOfDay := 1713139200000%Z |}.

(** Ten logged days of April 2024, 8 units each. *)
Definition tenDays : list UserDailyUsage.t :=
  map (fun i => logOn (dateStr "2024-04" i) 8) (seq 1 10).

(** Three logged days of March 2024. *)
Definition threeDays : list UserDailyUsage.t :=
  [ logOn "2024-03-02" 60; logOn "2024-03-01" 30; logOn "2024-03-05" 20 ].

(** One logged day of March 2024. *)
Definition oneDay : list UserDailyUsage.t := [ logOn "2024-03-01" 5 ].

(** The configuration App.tsx starts from. *)
Definition noSubsidy : SubsidyConfig.t :=
  {| SubsidyConfig.type := SubsidyType.none; SubsidyConfig.limitUnits := 0 |}.

(** Props of [DailyCalendar]: the three days of March, the sample tariff,
    an empty inventory, no subsidy. *)
Definition props : Props :=
  {| logs := threeDays;
     stateTariff := tariff;
     inventory := [];
     subsidyConfig := noSubsidy;
     season := Season.summer |}.

(** One render of [DailyCalendar] on the sample props. *)
Definition render (clock : Clock.t) : MonthlyUsageSummary.t * list CalendarDay.t :=
  DailyCalendar (calculator := calculator) (runtime := isoDates) props clock.

(** A government subsidy of 100 units. *)
Definition government100 : SubsidyConfig.t :=
  {| SubsidyConfig.type := SubsidyType.government;
     SubsidyConfig.limitUnits := 100 |}.

End Sample.

(* ================================================================== *)
(** * DailyCalendar.tsx: the style of a day                            *)
(* ================================================================== *)

(** [getStatusClass], called on [day.status], [day.isFuture] and
    [day.isEstimated]. *)
Definition getStatusClass (status : DayStatus.t) (isFuture isEstimated : bool)
  : string :=
  if isFuture
  then "bg-white/5 border-dashed border-white/10 text-white/5 cursor-not-allowed opacity-20"
  else if isEstimated
  then "bg-eleca-amber/5 border-dashed border-eleca-amber/30 text-eleca-amber/40 ring-1 ring-eleca-amber/10"
  else
    match status with
    | DayStatus.critical =>
        "bg-rose-500/20 border-rose-500/50 text-rose-400 shadow-[0_15px_30px_rgba(244,63,94,0.1)] scale-105 z-10"
    | DayStatus.warning =>
        "bg-eleca-amber/20 border-eleca-amber/50 text-eleca-amber shadow-[0_15px_30px_rgba(255,183,3,0.1)]"
    | DayStatus.safe =>
        "bg-eleca-green/20 border-eleca-green/50 text-eleca-green shadow-[0_15px_30px_rgba(30,215,96,0.15)]"
    | DayStatus.none =>
        "bg-white/5 border-white/10 text-white/40 hover:bg-white/10 hover:border-white/20"
    end.

(** The class of a rendered day: [getStatusClass(day.status, day.isFuture,
    day.isEstimated)]. *)
Definition dayClass (d : CalendarDay.t) : string :=
  getStatusClass (CalendarDay.status d) (CalendarDay.isFuture d)
    (CalendarDay.isEstimated d).

(** How far a status is from [safe]. *)
Definition severity (s : DayStatus.t) : nat :=
  match s with
  | DayStatus.none | DayStatus.safe => 0%nat
  | DayStatus.warning => 1%nat
  | DayStatus.critical => 2%nat
  end.

(* ================================================================== *)
(** * The translation lookup of App.tsx and DailyCalendar.tsx          *)
(* ================================================================== *)

Module Language.
Inductive t := en | hi | te | ta | kn | ml | mr | bn | gu | pa | or | ur.
End Language.

(** A value a lookup in a translation table can give: the text stored under
    a key of the table's own, a member the table inherits from
    [Object.prototype] (a function or an object, named here by its key), or
    [undefined]. *)
Module JsValue.
Inductive t :=
| text (s : string)
| inherited (key : string)
| undefined.
End JsValue.

(** The [translations] object of ./translations: per language, if the
    language has a table, the text under a key, if the table has the key
    as its own. *)
Class Translations := {
  translations : Language.t -> option (string -> option string) }.

Module I18n.

(** The keys every plain object inherits from [Object.prototype]. *)
Definition Object_prototype : list string :=
  [ "constructor"; "hasOwnProperty"; "isPrototypeOf"; "propertyIsEnumerable";
    "toLocaleString"; "toString"; "valueOf"; "__proto__";
    "__defineGetter__"; "__defineSetter__"; "__lookupGetter__";
    "__lookupSetter__" ].

(** [table[key]] on a plain object: the own text, else the inherited
    member, else [undefined]. *)
Definition get (table : string -> option string) (key : string) : JsValue.t :=
  match table key with
  | Some s => JsValue.text s
  | None =>
      if existsb (String.eqb key) Object_prototype then JsValue.inherited key
      else JsValue.undefined
  end.

(** [translations[lang]?.[key]] *)
Definition entry {tr : Translations} (lang : Language.t) (key : string)
  : JsValue.t :=
  match translations lang with
  | Some table => get table key
  | None => JsValue.undefined
  end.

(** [a || b]: the empty string and [undefined] are falsy, a function or an
    object is not. *)
Definition orElse (a b : JsValue.t) : JsValue.t :=
  match a with
  | JsValue.text EmptyString | JsValue.undefined => b
  | _ => a
  end.

(** [translations[lang]?.[key] || translations['en']?.[key] || key] *)
Definition t {tr : Translations} (lang : Language.t) (key : string) : JsValue.t :=
  orElse (entry lang key) (orElse (entry Language.en key) (JsValue.text key)).

End I18n.

(* ================================================================== *)
(** * App.tsx: the inventory, the undo and the history                 *)
(* ================================================================== *)

(** The updater [handleAddAppliance] passes to [setAppliances]. *)
Definition handleAddAppliance (app : Appliance.t) (prev : list Appliance.t)
  : list Appliance.t :=
  let sameId := fun a : Appliance.t =>
    String.eqb (Appliance.id a) (Appliance.id app) in
  match find sameId prev with
  | Some _ => map (fun a => if sameId a then app else a) prev
  | None => (prev ++ [app])%list
  end.

(** [prev.filter(a => a.id !== id)] *)
Definition handleDeleteAppliance (id : string) (prev : list Appliance.t)
  : list Appliance.t :=
  filter (fun a => negb (String.eqb (Appliance.id a) id)) prev.

(** [prev.slice(0, -1)] *)
Definition handleUndoLast (prev : list UserDailyUsage.t) : list UserDailyUsage.t :=
  removelast prev.

Module HistoricalEntry.
Record t := mk {
  id : string;
  timestamp : Z;
  totalUnits : Q;
  totalCost : Q;
  stateName : string }.
End HistoricalEntry.

(** The decimal text of an integer in a template literal. *)
Definition toStringZ (z : Z) : string := NilEmpty.string_of_int (Z.to_int z).

(** [`hist-${Date.now()}`] *)
Definition historyId (now : Z) : string := "hist-" ++ toStringZ now.

(** The updater of [handleSaveForecast]; [idNow] and [timestampNow] are its
    two readings of [Date.now()], [resultUnits] and [resultCost] the
    [totalUnits] and [totalCost] of [calculationResult]. *)
Definition handleSaveForecast (idNow timestampNow : Z) (resultUnits resultCost : Q)
  (stateTariff : StateTariff.t) (prev : list HistoricalEntry.t)
  : list HistoricalEntry.t :=
  {| HistoricalEntry.id := historyId idNow;
     HistoricalEntry.timestamp := timestampNow;
     HistoricalEntry.totalUnits := resultUnits;
     HistoricalEntry.totalCost := resultCost;
     HistoricalEntry.stateName := StateTariff.name stateTariff |} :: prev.

(** The [onDelete] handed to [HistoryView]:
    [prev.filter(h => h.id !== id)]. *)
Definition deleteHistoryEntry (id : string) (prev : list HistoricalEntry.t)
  : list HistoricalEntry.t :=
  filter (fun h => negb (String.eqb (HistoricalEntry.id h) id)) prev.

(** [logs.find(l => l.date === selectedDate)], the [existingLog] handed to
    the day editor. *)
Definition existingLog (logs : list UserDailyUsage.t) (selectedDate : string)
  : option UserDailyUsage.t :=
  find (fun l => String.eqb (UserDailyUsage.date l) selectedDate) logs.

(* ================================================================== *)
(** * The retry helper of the insight service                          *)
(* ================================================================== *)

Module Retry.

(** What the helper reads of a caught value: [error?.status],
    [error?.code] when they are numbers, and [String(error)]. *)
Record JsError := mkError {
  status : option Z;
  code : option Z;
  text : string }.

(** How one [await fn()] ends. *)
Inductive Outcome (T : Type) : Type :=
| Returned (v : T)
| Threw (e : JsError).
Arguments Returned {T} v.
Arguments Threw {T} e.

(** [s.includes(sub)] *)
Fixpoint includes (s sub : string) : bool :=
  String.prefix sub s
  || match s with
     | EmptyString => false
     | String _ rest => includes rest sub
     end.

Definition is500 (v : option Z) : bool :=
  match v with
  | Some n => (n =? 500)%Z
  | None => false
  end.

(** [error?.status === 500 || error?.code === 500 ||
     String(error).includes('500')] *)
Definition retryable (e : JsError) : bool :=
  is500 (status e) || is500 (code e) || includes (text e) "500".

Section WithCall.

(** [fn] is an effect: a call takes the world from one state to the next
    and returns or throws. *)
Context {W T : Type} (fn : W -> Outcome T * W).

(** [retryWithBackoff(fn, retries, backoff)], from the world [w]: how it
    ends, the world it leaves, and the delays it waited, in order. *)
Fixpoint retryWithBackoff (retries : nat) (backoff : Z) (w : W)
  : Outcome T * W * list Z :=
  match fn w with
  | (Returned v, w') => (Returned v, w', [])
  | (Threw e, w') =>
      match retries with
      | S r =>
          if retryable e
          then let '(o, w'', delays) := retryWithBackoff r (backoff * 2) w' in
               (o, w'', backoff :: delays)
          else (Threw e, w', [])
      | O => (Threw e, w', [])
      end
  end.

(** [fn] with a counter of its calls added to the world. *)
Definition counted (st : W * nat) : Outcome T * (W * nat) :=
  let '(w, n) := st in
  let '(o, w') := fn w in
  (o, (w', S n)).

End WithCall.

End Retry.

(* ================================================================== *)
(** * The insert-or-replace both stores of App.tsx perform             *)
(* ================================================================== *)

(** The shape shared by [handleSaveLog] (key [date]) and
    [handleAddAppliance] (key [id]): replace every element of the key of
    [x] by [x], or append [x] when there is none. *)
Definition upsertBy {X : Type} (key : X -> string) (x : X) (prev : list X)
  : list X :=
  let same := fun y : X => String.eqb (key y) (key x) in
  match find same prev with
  | Some _ => map (fun y => if same y then x else y) prev
  | None => (prev ++ [x])%list
  end.

(** The lookup by key both stores are read with. *)
Definition findBy {X : Type} (key : X -> string) (k : string) (l : list X)
  : option X :=
  find (fun y => String.eqb (key y) k) l.

(** Pairwise distinct appliance ids. *)
Definition distinctIds (l : list Appliance.t) : Prop :=
  NoDup (map Appliance.id l).

(** The logs of the month are the logs of calendar days: their dates are
    pairwise distinct and each is the date of one of the days
    [1..daysInMonth]. *)
Definition onCalendar (logs : list UserDailyUsage.t) (currentMonth : string)
  (daysInMonth : nat) : Prop :=
  distinctDates (logsOfMonth logs currentMonth)
  /\ forall l, In l (logsOfMonth logs currentMonth) ->
       exists i, (1 <= i <= daysInMonth)%nat
                 /\ UserDailyUsage.date l = dateStr currentMonth i.

(** No log has negative units. *)
Definition nonNegativeUnits (logs : list UserDailyUsage.t) : Prop :=
  Forall (fun l => 0 <= UserDailyUsage.totalUnits l) logs.

(* ================================================================== *)
(** * More sample data                                                 *)
(* ================================================================== *)

Module Fixture.

(** The sample appliance under another id and wattage. *)
Definition appliance (id : string) (watts : Q) : Appliance.t :=
  {| Appliance.id := id;
     Appliance.name := id;
     Appliance.category := ApplianceCategory.electronics;
     Appliance.type := "generic";
     Appliance.watts := watts;
     Appliance.hoursPerDay := 5;
     Appliance.daysPerMonth := 30;
     Appliance.quantity := 1;
     Appliance.inputMode := EnergyMode.standard;
     Appliance.acType := None;
     Appliance.annualUnits := None;
     Appliance.capacityTon := None;
     Appliance.iseer := None;
     Appliance.eer := None;
     Appliance.starRating := None;
     Appliance.icon := "" |}.

(** An inventory of a fan and a fridge. *)
Definition inventory : list Appliance.t :=
  [ appliance "fan" 75; appliance "fridge" 150 ].

End Fixture.

(** The [stateTariff] memo of App.tsx over the catalogue [INDIAN_STATES]:
    [INDIAN_STATES.find(s => s.id === selectedStateId) || INDIAN_STATES[0]];
    [None] is [undefined]. *)
Definition selectStateTariff (INDIAN_STATES : list StateTariff.t)
  (selectedStateId : string) : option StateTariff.t :=
  match find (fun s => String.eqb (StateTariff.id s) selectedStateId)
             INDIAN_STATES with
  | Some s => Some s
  | None => hd_error INDIAN_STATES
  end.

(* ================================================================== *)
(** * DailyCalendar.tsx on IEEE doubles                                *)
(* ================================================================== *)

(** The same code with every [number] a binary64 double, the operations
    being the kernel's: [+], [*] and [/] round to nearest, a comparison
    with [NaN] is false, and [Infinity] is a value.  What is proved of the
    calendar at a threshold, where a rounded sum and an exact one part, is
    proved here. *)
Module Double.

#[local] Open Scope float_scope.

(** [a >= b] and [a > b]. *)
Definition geb (a b : float) : bool := PrimFloat.leb b a.
Definition gtb (a b : float) : bool := PrimFloat.ltb b a.

(** The values [||] takes for false: [0], [-0] and [NaN]. *)
Definition falsy (x : float) : bool := PrimFloat.eqb x 0 || PrimFloat.is_nan x.

(** [x || Infinity] *)
Definition orInfinity (x : float) : float := if falsy x then infinity else x.

(** [Math.min(a, b)] and [Math.max(a, b)]: [NaN] when an argument is; [-0]
    is below [0]. *)
Definition Math_min (a b : float) : float :=
  if PrimFloat.is_nan a || PrimFloat.is_nan b then nan
  else if PrimFloat.ltb a b then a
  else if PrimFloat.ltb b a then b
  else if PrimFloat.get_sign a then a else b.

Definition Math_max (a b : float) : float :=
  if PrimFloat.is_nan a || PrimFloat.is_nan b then nan
  else if PrimFloat.ltb a b then b
  else if PrimFloat.ltb b a then a
  else if PrimFloat.get_sign a then b else a.

(** An array length or a day count as a number. *)
Definition num (n : nat) : float := PrimFloat.of_uint63 (Uint63.of_Z (Z.of_nat n)).

Module SubsidyConfig.
Record t := mk { type : SubsidyType.t; limitUnits : float }.
End SubsidyConfig.

Module Appliance.
Record t := mk {
  id : string;
  name : string;
  category : ApplianceCategory.t;
  type : string;
  watts : float;
  hoursPerDay : float;
  daysPerMonth : float;
  quantity : float;
  inputMode : EnergyMode.t;
  acType : option ACType.t;
  annualUnits : option float;
  capacityTon : option float;
  iseer : option float;
  eer : option float;
  starRating : option float;
  icon : string }.
End Appliance.

Module DailyApplianceEntry.
Record t := mk {
  applianceId : string;
  applianceType : string;
  ratingType : EnergyMode.t;
  ratingValue : float;
  powerKW : float;
  usageHours : float;
  unitsConsumed : float;
  cost : float }.
End DailyApplianceEntry.

Module UserDailyUsage.
Record t := mk {
  userId : string;
  date : string;            (* YYYY-MM-DD *)
  totalUnits : float;
  totalCost : float;
  isEstimated : bool;
  appliances : list DailyApplianceEntry.t;
  id : string;
  createdAt : Z;
  updatedAt : Z }.
End UserDailyUsage.

Module TariffSlab.
Record t := mk { min : float; max : option float; rate : float }.
End TariffSlab.

Module StateTariff.
Record t := mk {
  id : string;
  name : string;
  fixedCharge : float;
  slabs : list TariffSlab.t }.
End StateTariff.

Module MonthlyUsageSummary.
Record t := mk {
  month : string;
  totalUnits : float;
  totalCost : float;
  subsidyLimit : float;
  subsidyUsed : float;
  slabCrossed : bool;
  projectedBill : float;
  projectedUnits : float;
  confidenceScore : option float;
  isStabilized : bool;
  estRemainderCost : float }.
End MonthlyUsageSummary.

Module CalendarDay.
Record t := mk {
  date : string;
  dayNum : nat;
  log : option UserDailyUsage.t;
  status : DayStatus.t;
  isFuture : bool;
  isEstimated : bool }.
End CalendarDay.

(** The two imports from [./utils/calculator]; of the object
    [calculateProgressiveBill] returns the calendar reads [total], which is
    what the first function gives here. *)
Class Calculator := {
  calculateProgressiveBillTotal : float -> StateTariff.t -> float;
  calculateApplianceUnits : Appliance.t -> Season.t -> float }.

(** [logs.filter(l => l.date.startsWith(currentMonth))
        .sort((a,b) => a.date.localeCompare(b.date))] *)
Definition monthLogs (logs : list UserDailyUsage.t) (currentMonth : string)
  : list UserDailyUsage.t :=
  sortBy (fun a b => localeCompare (UserDailyUsage.date a) (UserDailyUsage.date b))
         (filter (fun l => startsWith (UserDailyUsage.date l) currentMonth) logs).

(** [monthLogs.reduce((sum, l) => sum + l.totalUnits, 0)] *)
Definition totalUnits (monthLogs : list UserDailyUsage.t) : float :=
  fold_left (fun sum l => sum + UserDailyUsage.totalUnits l) monthLogs 0.

(** [daysLogged >= 10 ? Math.min(99, 65 + (daysLogged / daysInMonth) * 35)
     : null] *)
Definition confidenceScore (daysLogged daysInMonth : nat) : option float :=
  if (10 <=? daysLogged)%nat
  then Some (Math_min 99 (65 + (num daysLogged / num daysInMonth) * 35))
  else None.

(** The status chosen inside the loop of [calendarDays] for a day that has
    a log. *)
Definition loggedStatus (cumulativeUnits limit : float) : DayStatus.t :=
  if geb cumulativeUnits limit then DayStatus.critical
  else if geb cumulativeUnits (0.85 * limit) then DayStatus.warning
  else DayStatus.safe.

(** [monthLogs.find(l => l.date === dateStr)] *)
Definition findLog (monthLogs : list UserDailyUsage.t) (dateStr : string)
  : option UserDailyUsage.t :=
  find (fun l => String.eqb (UserDailyUsage.date l) dateStr) monthLogs.

Section Component.

Context {calculator : Calculator} {runtime : DateRuntime}.

(** The [summary] memo. *)
Definition summary (monthLogs : list UserDailyUsage.t)
  (stateTariff : StateTariff.t) (inventory : list Appliance.t)
  (daysInMonth : nat) (currentMonth : string)
  (subsidyConfig : SubsidyConfig.t) (season : Season.t)
  : MonthlyUsageSummary.t :=
  let totalUnits := totalUnits monthLogs in
  let daysLogged := List.length monthLogs in
  let baselineDaily :=
    fold_left (fun sum a => sum + calculateApplianceUnits a season / 30)
              inventory 0 in
  let avgUnitsPerDay :=
    if (0 <? daysLogged)%nat then totalUnits / num daysLogged
    else baselineDaily in
  let projectedUnits := avgUnitsPerDay * num daysInMonth in
  let isStabilized := (7 <=? daysLogged)%nat in
  let confidenceScore := confidenceScore daysLogged daysInMonth in
  let projectedBillTotal := calculateProgressiveBillTotal projectedUnits stateTariff in
  let mtdBillCost := calculateProgressiveBillTotal totalUnits stateTariff in
  let estRemainderCost := Math_max 0 (projectedBillTotal - mtdBillCost) in
  {| MonthlyUsageSummary.month := currentMonth;
     MonthlyUsageSummary.totalUnits := totalUnits;
     MonthlyUsageSummary.totalCost := mtdBillCost;
     MonthlyUsageSummary.subsidyLimit := SubsidyConfig.limitUnits subsidyConfig;
     MonthlyUsageSummary.subsidyUsed :=
       Math_min totalUnits (SubsidyConfig.limitUnits subsidyConfig);
     MonthlyUsageSummary.slabCrossed :=
       gtb totalUnits (SubsidyConfig.limitUnits subsidyConfig);
     MonthlyUsageSummary.projectedBill := projectedBillTotal;
     MonthlyUsageSummary.projectedUnits := projectedUnits;
     MonthlyUsageSummary.confidenceScore := confidenceScore;
     MonthlyUsageSummary.isStabilized := isStabilized;
     MonthlyUsageSummary.estRemainderCost := estRemainderCost |}.

(** One turn of the [for] loop of [calendarDays]. *)
Definition calendarStep (clock : Clock.t) (currentMonth : string)
  (monthLogs : list UserDailyUsage.t) (limit : float)
  (st : list CalendarDay.t * float) (i : nat) : list CalendarDay.t * float :=
  let '(days, cumulativeUnits) := st in
  let dateStr := dateStr currentMonth i in
  let log := findLog monthLogs dateStr in
  let isPast :=
    match Date_parse dateStr with
    | Some t => (t <? Clock.startOfDay clock)%Z
    | None => false
    end in
  let cumulativeUnits :=
    match log with
    | Some l => cumulativeUnits + UserDailyUsage.totalUnits l
    | None => cumulativeUnits
    end in
  let status :=
    match log with
    | Some _ => loggedStatus cumulativeUnits limit
    | None => DayStatus.none
    end in
  let isFuture :=
    match Date_parse dateStr with
    | Some t => (Clock.getTime clock <? t)%Z
    | None => false
    end in
  ((days ++ [ {| CalendarDay.date := dateStr;
                 CalendarDay.dayNum := i;
                 CalendarDay.log := log;
                 CalendarDay.status := status;
                 CalendarDay.isFuture := isFuture;
                 CalendarDay.isEstimated :=
                   isPast && match log with Some _ => false | None => true end |} ])%list,
   cumulativeUnits).

(** The loop [for (let i = 1; i <= daysInMonth; i++)] from [([], 0)], with
    [limit = subsidyConfig.limitUnits || Infinity]. *)
Definition calendarLoop (clock : Clock.t) (currentMonth : string)
  (daysInMonth : nat) (monthLogs : list UserDailyUsage.t)
  (subsidyConfig : SubsidyConfig.t) : list CalendarDay.t * float :=
  let limit := orInfinity (SubsidyConfig.limitUnits subsidyConfig) in
  fold_left (calendarStep clock currentMonth monthLogs limit)
            (seq 1 daysInMonth) ([], 0).

(** The [calendarDays] memo, when it is computed. *)
Definition calendarDays (clock : Clock.t) (currentMonth : string)
  (daysInMonth : nat) (monthLogs : list UserDailyUsage.t)
  (subsidyConfig : SubsidyConfig.t) : list CalendarDay.t :=
  fst (calendarLoop clock currentMonth daysInMonth monthLogs subsidyConfig).

End Component.

(** ** What the specification speaks of, in doubles *)

(** The stored logs dated day [j] of the month, all of them. *)
Definition loggedOn (logs : list UserDailyUsage.t) (currentMonth : string)
  (j : nat) : list UserDailyUsage.t :=
  filter (fun l => String.eqb (UserDailyUsage.date l) (dateStr currentMonth j)) logs.

(** Cumulative logged units up to and including day [i]: the units of the
    logs of day 1, then of day 2, and so on to day [i], added in that
    order from [0]. *)
Definition unitsThrough (logs : list UserDailyUsage.t) (currentMonth : string)
  (i : nat) : float :=
  fold_left PrimFloat.add
    (map UserDailyUsage.totalUnits
         (flat_map (loggedOn logs currentMonth) (seq 1 i))) 0.

(** The logs of the month are the logs of calendar days: their dates are
    pairwise distinct and each is the date of one of the days
    [1..daysInMonth]. *)
Definition onCalendar (logs : list UserDailyUsage.t) (currentMonth : string)
  (daysInMonth : nat) : Prop :=
  let ofMonth :=
    filter (fun l => startsWith (UserDailyUsage.date l) currentMonth) logs in
  NoDup (map UserDailyUsage.date ofMonth)
  /\ forall l, In l ofMonth ->
       exists i, (1 <= i <= daysInMonth)%nat
                 /\ UserDailyUsage.date l = dateStr currentMonth i.

(** The running total the loop of [calendarDays] holds after day [i]. *)
Definition runningTotal (logs : list UserDailyUsage.t) (currentMonth : string)
  (i : nat) : float :=
  fold_left
    (fun acc j =>
       match findLog (monthLogs logs currentMonth) (dateStr currentMonth j) with
       | Some l => acc + UserDailyUsage.totalUnits l
       | None => acc
       end)
    (seq 1 i) 0.

(** ** Sample data *)

(** A day's log with the given date and units. *)
Definition logOn (date : string) (units : float) : UserDailyUsage.t :=
  {| UserDailyUsage.userId := "u1";
     UserDailyUsage.date := date;
     UserDailyUsage.totalUnits := units;
     UserDailyUsage.totalCost := 0;
     UserDailyUsage.isEstimated := false;
     UserDailyUsage.appliances := [];
     UserDailyUsage.id := date;
     UserDailyUsage.createdAt := 0%Z;
     UserDailyUsage.updatedAt := 0%Z |}.

(** The first ten days of March 2024, each logged with the same units. *)
Definition tenDaysOf (units : float) : list UserDailyUsage.t :=
  map (fun i => logOn (dateStr "2024-03" i) units) (seq 1 10).

(** 30, 60 and 20 units on 1, 2 and 5 March 2024, stored out of order. *)
Definition threeDays : list UserDailyUsage.t :=
  [ logOn "2024-03-02" 60; logOn "2024-03-01" 30; logOn "2024-03-05" 20 ].

(** Two logs stored under one date: 30 units on 1 March, 60 and 50 on
    2 March. *)
Definition twiceLogged : list UserDailyUsage.t :=
  [ logOn "2024-03-01" 30; logOn "2024-03-02" 60; logOn "2024-03-02" 50 ].

(** Every day of April 2024 logged with the same units. *)
Definition allApril (units : float) : list UserDailyUsage.t :=
  map (fun i => logOn (dateStr "2024-04" i) units) (seq 1 30).

(** Two days whose units add up beyond the largest double. *)
Definition hugeDays : list UserDailyUsage.t :=
  [ logOn "2024-03-01" 1e308; logOn "2024-03-02" 1e308 ].

Definition subsidy (type : SubsidyType.t) (limitUnits : float) : SubsidyConfig.t :=
  {| SubsidyConfig.type := type; SubsidyConfig.limitUnits := limitUnits |}.

(** The configuration App.tsx starts from. *)
Definition noSubsidy : SubsidyConfig.t := subsidy SubsidyType.none 0.

(** A tariff without slabs and a calculator charging 5 a unit over a fixed
    50, for the examples. *)
Definition flatTariff : StateTariff.t :=
  {| StateTariff.id := "flat"; StateTariff.name := "Flat";
     StateTariff.fixedCharge := 50; StateTariff.slabs := [] |}.

Definition flatCalculator : Calculator :=
  {| calculateProgressiveBillTotal := fun units tariff =>
       units * 5 + StateTariff.fixedCharge tariff;
     calculateApplianceUnits := fun a _ =>
       Appliance.watts a * Appliance.hoursPerDay a * Appliance.daysPerMonth a
       * Appliance.quantity a / 1000 |}.

End Double.

(* ================================================================== *)
(** * Facts about the built-ins                                        *)
(* ================================================================== *)

Lemma Qgtb_lt (a b : Q) : Qgtb a b = true <-> b < a.
Proof.
  unfold Qgtb. rewrite negb_true_iff, <- not_true_iff_false, Qle_bool_iff.
  split; [apply Qnot_le_lt | apply Qlt_not_le].
Qed.

Lemma Qgeb_le (a b : Q) : Qgeb a b = true <-> b <= a.
Proof. unfold Qgeb. apply Qle_bool_iff. Qed.

#[global] Instance Qgtb_comp : Proper (Qeq ==> Qeq ==> eq) Qgtb.
Proof. intros a a' Ha b b' Hb. unfold Qgtb. now rewrite Ha, Hb. Qed.

#[global] Instance Qgeb_comp : Proper (Qeq ==> Qeq ==> eq) Qgeb.
Proof. intros a a' Ha b b' Hb. unfold Qgeb. now rewrite Ha, Hb. Qed.

Lemma Qle_bool_false (a b : Q) : Qle_bool a b = false <-> b < a.
Proof.
  rewrite <- not_true_iff_false, Qle_bool_iff.
  split; [apply Qnot_le_lt | apply Qlt_not_le].
Qed.

Lemma num_pos (n : nat) : (0 < n)%nat -> 0 < num n.
Proof.
  intros H. unfold num, Qlt. simpl. lia.
Qed.

Lemma num_le (n m : nat) : (n <= m)%nat -> num n <= num m.
Proof.
  intros H. unfold num. rewrite <- Zle_Qle. lia.
Qed.

Lemma num_lt (n m : nat) : (n < m)%nat -> num n < num m.
Proof.
  intros H. unfold num. rewrite <- Zlt_Qlt. lia.
Qed.

Lemma num_S (n : nat) : num (S n) == num n + 1.
Proof.
  unfold num. rewrite Nat2Z.inj_succ, <- Z.add_1_r, inject_Z_plus. reflexivity.
Qed.

Lemma startsWith_app (p s : string) : startsWith (p ++ s) p = true.
Proof.
  unfold startsWith. induction p as [|c p IH]; simpl.
  - now destruct s.
  - destruct (ascii_dec c c); [exact IH | congruence].
Qed.

Section Sums.

Context {X : Type} (f : X -> Q).

Lemma fold_left_sum (l : list X) (a : Q) :
  fold_left (fun sum x => sum + f x) l a == a + sumQ (map f l).
Proof.
  revert a. induction l as [|x l IH]; intros a; simpl.
  - ring.
  - rewrite IH. ring.
Qed.


Lemma sumQ_Permutation (l l' : list X) :
  Permutation l l' -> sumQ (map f l) == sumQ (map f l').
Proof.
  induction 1 as [| x l l' _ IH | x y l | l l' l'' _ IH1 _ IH2]; simpl.
  - reflexivity.
  - now rewrite IH.
  - ring.
  - now rewrite IH1.
Qed.

End Sums.

Lemma sumQ_app_plain (l1 l2 : list Q) : sumQ (l1 ++ l2) == sumQ l1 + sumQ l2.
Proof.
  induction l1 as [|x l1 IH]; simpl.
  - ring.
  - rewrite IH. ring.
Qed.

Section Sorting.

Context {X : Type} (cmp : X -> X -> comparison).

Lemma insertBy_Permutation (a : X) (l : list X) :
  Permutation (insertBy cmp a l) (a :: l).
Proof.
  induction l as [|y l IH]; simpl; [reflexivity|].
  destruct (cmp a y); try reflexivity.
  rewrite IH. apply perm_swap.
Qed.

Lemma sortBy_Permutation (l : list X) : Permutation (sortBy cmp l) l.
Proof.
  induction l as [|a l IH]; simpl; [reflexivity|].
  rewrite insertBy_Permutation. now constructor.
Qed.

Lemma sortBy_length (l : list X) : List.length (sortBy cmp l) = List.length l.
Proof. apply Permutation_length, sortBy_Permutation. Qed.

(** The sort is stable for a predicate that the comparator cannot tell
    apart: the first element satisfying it stays the first. *)
Variable p : X -> bool.
Hypothesis p_cmp : forall a y, p a = true -> p y = true -> cmp a y <> Gt.

Lemma find_insertBy (a : X) (l : list X) :
  find p (insertBy cmp a l) = if p a then Some a else find p l.
Proof.
  induction l as [|y l IH]; simpl; [reflexivity|].
  destruct (cmp a y) eqn:E; simpl; try reflexivity.
  rewrite IH. destruct (p a) eqn:Pa, (p y) eqn:Py; try reflexivity.
  exfalso. now apply (p_cmp a y).
Qed.

Lemma find_sortBy (l : list X) : find p (sortBy cmp l) = find p l.
Proof.
  induction l as [|a l IH]; simpl; [reflexivity|].
  rewrite find_insertBy, IH. reflexivity.
Qed.

End Sorting.

Lemma fold_left_pointwise {S X : Type} (f g : S -> X -> S) (l : list X) (st : S) :
  (forall s x, f s x = g s x) -> fold_left f l st = fold_left g l st.
Proof.
  intros H. revert st. induction l as [|x l IH]; intros st; simpl.
  - reflexivity.
  - now rewrite H, IH.
Qed.

Lemma find_filter {X : Type} (p q : X -> bool) (l : list X) :
  (forall x, p x = true -> q x = true) ->
  find p (filter q l) = find p l.
Proof.
  intros Hpq. induction l as [|x l IH]; simpl; [reflexivity|].
  destruct (q x) eqn:Qx; simpl.
  - now rewrite IH.
  - destruct (p x) eqn:Px; [|exact IH].
    apply Hpq in Px. congruence.
Qed.

Lemma localeCompare_same (a b : string) : a = b -> localeCompare a b <> Gt.
Proof.
  intros ->. unfold localeCompare.
  pose proof (String.compare_antisym b b) as H.
  destruct (b ?= b)%string; simpl in H; congruence.
Qed.

(* ================================================================== *)
(** * Facts about DailyCalendar.tsx                                    *)
(* ================================================================== *)

Lemma monthLogs_Permutation (logs : list UserDailyUsage.t) (m : string) :
  Permutation (monthLogs logs m) (logsOfMonth logs m).
Proof. apply sortBy_Permutation. Qed.

Lemma monthLogs_length (logs : list UserDailyUsage.t) (m : string) :
  List.length (monthLogs logs m) = daysLogged logs m.
Proof. apply sortBy_length. Qed.

Lemma totalUnits_monthLogs (logs : list UserDailyUsage.t) (m : string) :
  totalUnits (monthLogs logs m) == monthToDateUnits logs m.
Proof.
  unfold totalUnits, monthToDateUnits, sumUnits.
  rewrite fold_left_sum, Qplus_0_l.
  apply sumQ_Permutation, monthLogs_Permutation.
Qed.

(** Sorting and filtering by month do not change which log a day finds. *)
Lemma findLog_monthLogs (logs : list UserDailyUsage.t) (m : string) (i : nat) :
  findLog (monthLogs logs m) (dateStr m i) = logOfDay logs m i.
Proof.
  unfold findLog, monthLogs, logOfDay.
  rewrite find_sortBy.
  - apply find_filter. intros x Hx.
    apply String.eqb_eq in Hx. rewrite Hx. apply startsWith_app.
  - intros a y Ha Hy. apply String.eqb_eq in Ha, Hy.
    apply localeCompare_same. congruence.
Qed.

Lemma reached_comp (c c' : Q) (l : Limit.t) :
  c == c' -> Limit.reached c l = Limit.reached c' l.
Proof. intros H. destruct l; simpl; [now rewrite H | reflexivity]. Qed.

Lemma loggedStatus_comp (c c' : Q) (l : Limit.t) :
  c == c' -> loggedStatus c l = loggedStatus c' l.
Proof.
  intros H. unfold loggedStatus.
  now rewrite (reached_comp c c' l H), (reached_comp c c' (Limit.scale 0.85 l) H).
Qed.

Lemma loggedStatus_Infinity (c : Q) : loggedStatus c Limit.Infinity = DayStatus.safe.
Proof. reflexivity. Qed.

Lemma orInfinity_zero (x : Q) : x == 0 -> Limit.orInfinity x = Limit.Infinity.
Proof.
  intros H. unfold Limit.orInfinity.
  now apply Qeq_bool_iff in H; rewrite H.
Qed.

Lemma orInfinity_nonzero (x : Q) : ~ x == 0 -> Limit.orInfinity x = Limit.Finite x.
Proof.
  intros H. unfold Limit.orInfinity.
  destruct (Qeq_bool x 0) eqn:E; [|reflexivity].
  now apply Qeq_bool_iff in E.
Qed.

(** The cascade of the loop, for a finite limit. *)
Lemma loggedStatus_Finite (c q : Q) :
  loggedStatus c (Limit.Finite q) =
    if Qle_bool q c then DayStatus.critical
    else if Qle_bool (0.85 * q) c then DayStatus.warning
    else DayStatus.safe.
Proof. reflexivity. Qed.

Lemma calendarLoop_S {runtime : DateRuntime} (clock : Clock.t) (m : string)
  (logs : list UserDailyUsage.t) (cfg : SubsidyConfig.t) (n : nat) :
  calendarLoop clock m (S n) (monthLogs logs m) cfg =
    calendarStep clock m (monthLogs logs m)
      (Limit.orInfinity (SubsidyConfig.limitUnits cfg))
      (calendarLoop clock m n (monthLogs logs m) cfg) (S n).
Proof.
  unfold calendarLoop.
  now rewrite seq_S, fold_left_app.
Qed.

(** What the loop has built after [n] days: [n] entries, the running total
    is the cumulative units, and the entry of day [i] carries the log the
    day finds and the status of the cascade at the cumulative units. *)
Lemma calendarLoop_spec {runtime : DateRuntime} (clock : Clock.t) (m : string)
  (logs : list UserDailyUsage.t) (cfg : SubsidyConfig.t) (n : nat) :
  let st := calendarLoop clock m n (monthLogs logs m) cfg in
  snd st == cumulativeUnits logs m n
  /\ List.length (fst st) = n
  /\ forall i, (1 <= i <= n)%nat ->
       exists d, nth_error (fst st) (i - 1) = Some d
         /\ CalendarDay.dayNum d = i
         /\ CalendarDay.date d = dateStr m i
         /\ CalendarDay.log d = logOfDay logs m i
         /\ CalendarDay.status d =
              match logOfDay logs m i with
              | Some _ =>
                  loggedStatus (cumulativeUnits logs m i)
                    (Limit.orInfinity (SubsidyConfig.limitUnits cfg))
              | None => DayStatus.none
              end.
Proof.
  induction n as [|n IH]; cbv zeta.
  - split; [reflexivity|]. split; [reflexivity|]. intros i Hi. lia.
  - rewrite calendarLoop_S.
    destruct (calendarLoop clock m n (monthLogs logs m) cfg) as [days acc] eqn:Est.
    cbv zeta in IH. simpl fst in IH. simpl snd in IH.
    destruct IH as (Hacc & Hlen & Hdays).
    unfold calendarStep. rewrite findLog_monthLogs.
    simpl fst. simpl snd.
    assert (Hacc' :
      match logOfDay logs m (S n) with
      | Some l => acc + UserDailyUsage.totalUnits l
      | None => acc
      end == cumulativeUnits logs m (S n)).
    { simpl cumulativeUnits. unfold unitsOfDay.
      destruct (logOfDay logs m (S n)); rewrite Hacc; ring. }
    split; [exact Hacc'|].
    split; [rewrite length_app, Hlen; simpl; lia|].
    intros i Hi.
    destruct (Nat.eq_dec i (S n)) as [->|Hne].
    + eexists. split.
      * rewrite nth_error_app2 by lia.
        replace (S n - 1 - List.length days)%nat with 0%nat by lia.
        reflexivity.
      * simpl. repeat split.
        destruct (logOfDay logs m (S n)); [|reflexivity].
        apply loggedStatus_comp, Hacc'.
    + destruct (Hdays i) as (d & Hd & Hrest); [lia|].
      exists d. split; [|exact Hrest].
      rewrite nth_error_app1 by lia. exact Hd.
Qed.

Lemma calendarDays_length {runtime : DateRuntime} (clock : Clock.t) (m : string)
  (logs : list UserDailyUsage.t) (cfg : SubsidyConfig.t) (n : nat) :
  List.length (calendarDays clock m n (monthLogs logs m) cfg) = n.
Proof. apply (calendarLoop_spec clock m logs cfg n). Qed.

(** Every entry of [calendarDays] is the entry of one of the days
    [1..daysInMonth]. *)
Lemma calendarDays_entry {runtime : DateRuntime} (clock : Clock.t) (m : string)
  (logs : list UserDailyUsage.t) (cfg : SubsidyConfig.t) (n : nat)
  (d : CalendarDay.t) :
  In d (calendarDays clock m n (monthLogs logs m) cfg) ->
  exists i, (1 <= i <= n)%nat
    /\ nth_error (calendarDays clock m n (monthLogs logs m) cfg) (i - 1) = Some d.
Proof.
  intros Hin. apply In_nth_error in Hin. destruct Hin as [k Hk].
  assert (Hlt : (k < n)%nat).
  { rewrite <- (calendarDays_length clock m logs cfg n).
    apply nth_error_Some. congruence. }
  exists (S k). split; [lia|].
  now replace (S k - 1)%nat with k by lia.
Qed.

(** ** The per-day status *)

(** C1 as stated fails for a limit of [0]: a day logged with 5 units is at
    or above the limit, and its status is [safe], not [critical]. *)
Lemma calendarDays_status_counterexample :
  exists d l,
    nth_error (calendarDays (runtime := Sample.isoDates) Sample.march15
                 "2024-03" 31 (monthLogs Sample.oneDay "2024-03")
                 Sample.noSubsidy) 0 = Some d
    /\ CalendarDay.log d = Some l
    /\ SubsidyConfig.limitUnits Sample.noSubsidy
         <= cumulativeUnits Sample.oneDay "2024-03" 1
    /\ specifiedStatus (cumulativeUnits Sample.oneDay "2024-03" 1)
         (SubsidyConfig.limitUnits Sample.noSubsidy) = DayStatus.critical
    /\ CalendarDay.status d = DayStatus.safe
    /\ CalendarDay.status d <> DayStatus.critical.
Proof.
  eexists. eexists.
  split; [vm_compute; reflexivity|].
  split; [reflexivity|].
  split; [vm_compute; congruence|].
  split; [reflexivity|].
  split; [reflexivity | discriminate].
Qed.

(** ** The month summary *)



(** The expression behind [confidenceScore]. *)
Lemma confidence_le_99 (n dim : nat) :
  Qmin 99 (65 + num n / num dim * 35) <= 99.
Proof. apply Q.le_min_l. Qed.

Lemma ratio_le (n n' dim : nat) :
  (0 < dim)%nat -> (n <= n')%nat -> num n / num dim <= num n' / num dim.
Proof.
  intros Hdim Hn. unfold Qdiv.
  apply Qmult_le_compat_r; [now apply num_le|].
  apply Qinv_le_0_compat, Qlt_le_weak, num_pos, Hdim.
Qed.

Lemma ratio_lt (n n' dim : nat) :
  (0 < dim)%nat -> (n < n')%nat -> num n / num dim < num n' / num dim.
Proof.
  intros Hdim Hn. unfold Qdiv.
  apply Qmult_lt_compat_r; [|now apply num_lt].
  apply Qinv_lt_0_compat, num_pos, Hdim.
Qed.

Lemma confidence_mono (n n' dim : nat) :
  (0 < dim)%nat -> (n <= n')%nat ->
  Qmin 99 (65 + num n / num dim * 35) <= Qmin 99 (65 + num n' / num dim * 35).
Proof.
  intros Hdim Hn. apply Q.min_le_compat_l.
  pose proof (ratio_le n n' dim Hdim Hn). lra.
Qed.

(** Within the days of a month of fewer than 35 days the cap is met on the
    last day only, so the score is strictly increasing. *)
Lemma confidence_strict (n n' dim : nat) :
  (n < n')%nat -> (n' <= dim)%nat -> (dim < 35)%nat ->
  Qmin 99 (65 + num n / num dim * 35) < Qmin 99 (65 + num n' / num dim * 35).
Proof.
  intros Hn Hn' Hdim.
  assert (Hpos : (0 < dim)%nat) by lia.
  pose proof (ratio_lt n n' dim Hpos Hn) as Hlt.
  assert (Hbelow : num n / num dim < 34 # 35).
  { apply Qlt_shift_div_r; [now apply num_pos|].
    pose proof (num_le (S n) dim ltac:(lia)) as H1. rewrite num_S in H1.
    pose proof (num_lt dim 35 Hdim) as H2.
    change (num 35) with 35 in H2. lra. }
  apply Qle_lt_trans with (65 + num n / num dim * 35); [apply Q.le_min_r|].
  apply Q.min_glb_lt; lra.
Qed.

Lemma confidenceScore_of_summary {calculator : Calculator}
  (logs : list UserDailyUsage.t) (stateTariff : StateTariff.t)
  (inventory : list Appliance.t) (daysInMonth : nat) (currentMonth : string)
  (subsidyConfig : SubsidyConfig.t) (season : Season.t) :
  MonthlyUsageSummary.confidenceScore
    (summary (monthLogs logs currentMonth) stateTariff inventory daysInMonth
       currentMonth subsidyConfig season)
  = confidenceScore (daysLogged logs currentMonth) daysInMonth.
Proof.
  unfold summary. cbn [MonthlyUsageSummary.confidenceScore].
  now rewrite monthLogs_length.
Qed.

Lemma confidenceScore_Some (n dim : nat) :
  (10 <= n)%nat ->
  confidenceScore n dim = Some (Qmin 99 (65 + num n / num dim * 35)).
Proof.
  intros H. unfold confidenceScore.
  apply Nat.leb_le in H. now rewrite H.
Qed.

Lemma confidenceScore_None (n dim : nat) :
  (n < 10)%nat -> confidenceScore n dim = None.
Proof.
  intros H. unfold confidenceScore.
  apply Nat.leb_gt in H. now rewrite H.
Qed.

(** C2.  In a month of [daysInMonth > 0] days with [n] logged days the
    summary's [confidenceScore] is [null] when [n < 10] and otherwise
    [min(99, 65 + (n / daysInMonth) * 35)], which never exceeds 99.  It grows
    with the number of logged days: more logged days never give a lower
    score, and give a strictly higher one as long as they fit in a calendar
    month.  Ten logged days in a 30-day month give 230/3, which is 76.67 to
    two decimals. *)
Theorem summary_confidenceScore {calculator : Calculator}
  (logs : list UserDailyUsage.t) (stateTariff : StateTariff.t)
  (inventory : list Appliance.t) (daysInMonth : nat) (currentMonth : string)
  (subsidyConfig : SubsidyConfig.t) (season : Season.t) :
  (0 < daysInMonth)%nat ->
  let n := daysLogged logs currentMonth in
  let scoreOf := fun logs =>
    MonthlyUsageSummary.confidenceScore
      (summary (monthLogs logs currentMonth) stateTariff inventory daysInMonth
         currentMonth subsidyConfig season) in
  ((n < 10)%nat -> scoreOf logs = None)
  /\ ((10 <= n)%nat ->
      exists q, scoreOf logs = Some q
        /\ q == Qmin 99 (65 + num n / num daysInMonth * 35)
        /\ q <= 99)
  /\ (forall logs',
        (10 <= n)%nat -> (n <= daysLogged logs' currentMonth)%nat ->
        exists q q', scoreOf logs = Some q /\ scoreOf logs' = Some q'
          /\ q <= q'
          /\ ((n < daysLogged logs' currentMonth)%nat ->
              (daysLogged logs' currentMonth <= daysInMonth)%nat ->
              (daysInMonth <= 31)%nat -> q < q'))
  /\ (n = 10%nat -> daysInMonth = 30%nat ->
      exists q, scoreOf logs = Some q
        /\ q == 230 # 3 /\ 76.665 <= q /\ q < 76.675).
Proof.
  intros Hdim n scoreOf.
  assert (Hscore : forall l,
            scoreOf l = confidenceScore (daysLogged l currentMonth) daysInMonth).
  { intros l. apply confidenceScore_of_summary. }
  repeat split.
  - intros Hn. rewrite Hscore. now apply confidenceScore_None.
  - intros Hn. eexists. split.
    + rewrite Hscore. now apply confidenceScore_Some.
    + split; [reflexivity | apply confidence_le_99].
  - intros logs' Hn Hle. eexists. eexists.
    split; [rewrite Hscore; now apply confidenceScore_Some|].
    split; [rewrite Hscore; apply confidenceScore_Some; fold n; lia|].
    split.
    + now apply confidence_mono.
    + intros Hlt Hfit Hcal. apply confidence_strict; [assumption..|lia].
  - intros Hn H30. eexists. split.
    + rewrite Hscore. apply confidenceScore_Some. fold n. lia.
    + fold n. rewrite Hn, H30.
      repeat split; vm_compute; congruence.
Qed.

(** Ten logged days of April 2024, a 30-day month: 230/3. *)
Lemma summary_confidenceScore_witness :
  (0 < 30)%nat
  /\ exists q,
       MonthlyUsageSummary.confidenceScore
         (summary (calculator := Sample.calculator)
            (monthLogs Sample.tenDays "2024-04") Sample.tariff [] 30 "2024-04"
            Sample.government100 Season.summer) = Some q
       /\ q == 230 # 3 /\ 76.665 <= q /\ q < 76.675.
Proof.
  split; [lia|].
  destruct (summary_confidenceScore (calculator := Sample.calculator)
              Sample.tenDays Sample.tariff [] 30 "2024-04" Sample.government100
              Season.summer ltac:(lia)) as (_ & _ & _ & Hex).
  apply Hex; reflexivity.
Defined.

(* ================================================================== *)
(** * Facts about the daily-log store (App.tsx)                        *)
(* ================================================================== *)

Section SaveLog.

Variable log : UserDailyUsage.t.

Let sameDate (l : UserDailyUsage.t) : bool :=
  String.eqb (UserDailyUsage.date l) (UserDailyUsage.date log).

Let replace (l : UserDailyUsage.t) : UserDailyUsage.t :=
  if sameDate l then log else l.

Lemma find_sameDate_None (prev : list UserDailyUsage.t) :
  find sameDate prev = None
  <-> ~ In (UserDailyUsage.date log) (map UserDailyUsage.date prev).
Proof.
  induction prev as [|x l IH]; simpl.
  - tauto.
  - unfold sameDate at 1. destruct (String.eqb_spec (UserDailyUsage.date x)
                                      (UserDailyUsage.date log)) as [E|E].
    + split; [discriminate | intros H; exfalso; apply H; now left].
    + rewrite IH. split; [intros H [H1|H1]; contradiction | tauto].
Qed.

Lemma replace_absent (prev : list UserDailyUsage.t) :
  ~ In (UserDailyUsage.date log) (map UserDailyUsage.date prev) ->
  map replace prev = prev.
Proof.
  induction prev as [|x l IH]; simpl; intros H; [reflexivity|].
  rewrite IH by tauto. f_equal.
  unfold replace, sameDate.
  destruct (String.eqb_spec (UserDailyUsage.date x) (UserDailyUsage.date log));
    [exfalso; apply H; now left | reflexivity].
Qed.

(** With distinct dates the [map] of [handleSaveLog] changes one entry. *)
Lemma replace_present (prev : list UserDailyUsage.t) :
  distinctDates prev ->
  In (UserDailyUsage.date log) (map UserDailyUsage.date prev) ->
  exists before old after,
    prev = (before ++ old :: after)%list
    /\ UserDailyUsage.date old = UserDailyUsage.date log
    /\ map replace prev = (before ++ log :: after)%list.
Proof.
  unfold distinctDates.
  induction prev as [|x l IH]; simpl; intros Hnd Hin; [contradiction|].
  apply NoDup_cons_iff in Hnd. destruct Hnd as [Hx Hnd].
  destruct (String.eqb_spec (UserDailyUsage.date x) (UserDailyUsage.date log))
    as [E|E].
  - exists [], x, l. repeat split; [exact E|].
    simpl. rewrite replace_absent by (rewrite <- E; exact Hx).
    unfold replace, sameDate. rewrite E, String.eqb_refl. reflexivity.
  - destruct Hin as [Hin|Hin]; [contradiction|].
    destruct (IH Hnd Hin) as (before & old & after & Hprev & Hold & Hmap).
    exists (x :: before), old, after. repeat split.
    + simpl. now rewrite Hprev.
    + exact Hold.
    + simpl. rewrite Hmap. f_equal.
      unfold replace, sameDate.
      apply String.eqb_neq in E. now rewrite E.
Qed.

End SaveLog.

(** C9.  On a list of logs with pairwise distinct dates, [handleSaveLog]
    keeps the dates pairwise distinct; when a log of the same date is
    stored it takes that entry's place and the others stay as they are;
    otherwise the new log goes to the end. *)
Theorem handleSaveLog_distinctDates (log : UserDailyUsage.t)
  (prev : list UserDailyUsage.t) :
  distinctDates prev ->
  distinctDates (handleSaveLog log prev)
  /\ (In (UserDailyUsage.date log) (map UserDailyUsage.date prev) ->
      exists before old after,
        prev = (before ++ old :: after)%list
        /\ UserDailyUsage.date old = UserDailyUsage.date log
        /\ handleSaveLog log prev = (before ++ log :: after)%list)
  /\ (~ In (UserDailyUsage.date log) (map UserDailyUsage.date prev) ->
      handleSaveLog log prev = (prev ++ [log])%list).
Proof.
  intros Hnd. unfold handleSaveLog.
  destruct (find _ prev) as [found|] eqn:Efind.
  - assert (Hin : In (UserDailyUsage.date log) (map UserDailyUsage.date prev)).
    { destruct (in_dec string_dec (UserDailyUsage.date log)
                  (map UserDailyUsage.date prev)) as [H|H]; [exact H|].
      apply find_sameDate_None in H. congruence. }
    destruct (replace_present log prev Hnd Hin)
      as (before & old & after & Hprev & Hold & Hmap).
    split; [|split].
    + unfold distinctDates in *. rewrite Hmap.
      rewrite Hprev in Hnd. rewrite map_app in *. simpl in *.
      now rewrite <- Hold.
    + intros _. now exists before, old, after.
    + intros H. contradiction.
  - apply find_sameDate_None in Efind.
    split; [|split].
    + unfold distinctDates in *. rewrite map_app. simpl.
      apply (Permutation_NoDup (Permutation_cons_append _ _)).
      now constructor.
    + intros H. contradiction.
    + reflexivity.
Qed.

(** Saving 35 units for 1 March over the three days of March replaces the
    second entry. *)
Lemma handleSaveLog_distinctDates_witness :
  distinctDates Sample.threeDays
  /\ distinctDates (handleSaveLog (Sample.logOn "2024-03-01" 35) Sample.threeDays)
  /\ handleSaveLog (Sample.logOn "2024-03-01" 35) Sample.threeDays
     = [ Sample.logOn "2024-03-02" 60; Sample.logOn "2024-03-01" 35;
         Sample.logOn "2024-03-05" 20 ].
Proof.
  assert (H : distinctDates Sample.threeDays).
  { unfold distinctDates. simpl.
    repeat (constructor; [simpl; intuition discriminate|]). constructor. }
  split; [exact H|].
  split; [apply (handleSaveLog_distinctDates _ _ H) | reflexivity].
Defined.

(** ** The order of the sorted logs *)

Section SortedByKey.

Context {X : Type} (key : X -> string).

(** [a] comes before [b]: its key is the smaller. *)
Let before (a b : X) : Prop := localeCompare (key a) (key b) = Lt.

Let cmp (a b : X) : comparison := localeCompare (key a) (key b).

Lemma before_trans (a b c : X) : before a b -> before b c -> before a c.
Proof.
  unfold before, localeCompare. intros H1 H2.
  apply OrderedTypeEx.String_as_OT.cmp_lt in H1, H2.
  apply OrderedTypeEx.String_as_OT.cmp_lt.
  exact (OrderedTypeEx.String_as_OT.lt_trans _ _ _ H1 H2).
Qed.

Lemma before_asym (a b : X) : before a b -> before b a -> False.
Proof.
  unfold before, localeCompare. intros H1 H2.
  rewrite String.compare_antisym, H2 in H1. discriminate.
Qed.

Lemma after_before (a b : X) : cmp a b = Gt -> before b a.
Proof.
  unfold before, cmp, localeCompare. intros H.
  rewrite String.compare_antisym, H. reflexivity.
Qed.

Lemma insertBy_sorted (a : X) (l : list X) :
  StronglySorted before l ->
  ~ In (key a) (map key l) ->
  StronglySorted before (insertBy cmp a l).
Proof.
  induction l as [|y l IH]; intros Hs Hnew; cbn [insertBy].
  - constructor; constructor.
  - apply StronglySorted_inv in Hs. destruct Hs as [Hs Hy].
    destruct (cmp a y) eqn:E.
    + exfalso. apply Hnew. left. symmetry.
      now apply OrderedTypeEx.String_as_OT.cmp_eq.
    + constructor; [constructor; assumption|].
      constructor; [exact E|].
      apply Forall_forall. intros z Hz.
      apply (before_trans a y z E).
      rewrite Forall_forall in Hy. now apply Hy.
    + constructor.
      * apply IH; [exact Hs|]. intros H. apply Hnew. now right.
      * apply Forall_forall. intros z Hz.
        apply (Permutation_in _ (insertBy_Permutation cmp a l)) in Hz.
        destruct Hz as [<-|Hz]; [now apply after_before|].
        rewrite Forall_forall in Hy. now apply Hy.
Qed.

(** With distinct keys the sort puts the elements in increasing order. *)
Lemma sortBy_sorted (l : list X) :
  NoDup (map key l) -> StronglySorted before (sortBy cmp l).
Proof.
  induction l as [|a l IH]; intros Hnd; cbn [sortBy]; [constructor|].
  cbn [map] in Hnd. apply NoDup_cons_iff in Hnd. destruct Hnd as [Ha Hnd].
  apply insertBy_sorted; [now apply IH|].
  intros H. apply Ha.
  apply (Permutation_in _ (Permutation_map key (sortBy_Permutation cmp l))).
  exact H.
Qed.

(** Two increasing arrangements of the same elements are the same list. *)
Lemma sorted_unique (l1 l2 : list X) :
  Permutation l1 l2 ->
  StronglySorted before l1 -> StronglySorted before l2 -> l1 = l2.
Proof.
  revert l2. induction l1 as [|a l1 IH]; intros l2 Hp H1 H2.
  - apply Permutation_nil in Hp. now subst.
  - destruct l2 as [|b l2].
    + apply Permutation_sym, Permutation_nil in Hp. discriminate.
    + apply StronglySorted_inv in H1, H2.
      destruct H1 as [H1 Ha], H2 as [H2 Hb].
      rewrite Forall_forall in Ha, Hb.
      assert (E : a = b).
      { assert (Hab : In a (b :: l2))
          by (apply (Permutation_in _ Hp); now left).
        assert (Hba : In b (a :: l1))
          by (apply (Permutation_in _ (Permutation_sym Hp)); now left).
        destruct Hab as [->|Hab]; [reflexivity|].
        destruct Hba as [->|Hba]; [reflexivity|].
        exfalso. exact (before_asym a b (Ha b Hba) (Hb a Hab)). }
      subst b. f_equal. apply IH; try assumption.
      now apply Permutation_cons_inv in Hp.
Qed.

End SortedByKey.

Lemma compare_app (p a b : string) :
  String.compare (p ++ a) (p ++ b) = String.compare a b.
Proof.
  induction p as [|c p IH]; cbn; [reflexivity|].
  assert (E : Ascii.compare c c = Eq)
    by now apply OrderedTypeEx.Ascii_as_OT.cmp_eq.
  now rewrite E.
Qed.

(** The two-digit day numbers are ordered as the days. *)
Lemma padded_days_ordered :
  forallb (fun i =>
    forallb (fun j =>
      implb (i <? j)%nat
        match String.compare (padStart (toString i) 2 "0")
                             (padStart (toString j) 2 "0") with
        | Lt => true
        | _ => false
        end)
      (seq 0 100))
    (seq 0 100) = true.
Proof. vm_compute. reflexivity. Qed.

(** Within a month, an earlier day has the smaller date. *)
Lemma dateStr_lt (m : string) (i j : nat) :
  (i < j < 100)%nat -> localeCompare (dateStr m i) (dateStr m j) = Lt.
Proof.
  intros Hij. unfold localeCompare, dateStr. rewrite !compare_app.
  pose proof padded_days_ordered as H.
  rewrite forallb_forall in H. specialize (H i ltac:(apply in_seq; lia)).
  rewrite forallb_forall in H. specialize (H j ltac:(apply in_seq; lia)).
  destruct (Nat.ltb_spec i j); [|lia]. cbn [implb] in H.
  now destruct (String.compare _ _).
Qed.

(* ================================================================== *)
(** * Facts about the calendar on doubles                              *)
(* ================================================================== *)

(** [find] is the head of [filter]. *)
Lemma find_hd_filter {X : Type} (p : X -> bool) (l : list X) :
  find p l = hd_error (filter p l).
Proof.
  induction l as [|x l IH]; simpl; [reflexivity|].
  now destruct (p x).
Qed.

(** Among elements with pairwise distinct keys, at most one has a given
    key: the elements [filter] keeps are the one [find] returns. *)
Lemma filter_distinct_key {X : Type} (key : X -> string) (p q : X -> bool)
  (k : string) (l : list X) :
  (forall x, p x = true -> q x = true /\ key x = k) ->
  NoDup (map key (filter q l)) ->
  filter p l = match find p l with Some x => [x] | None => [] end.
Proof.
  intros Hp. induction l as [|x l IH]; intros Hnd; [reflexivity|].
  cbn [filter find]. destruct (p x) eqn:Px.
  - destruct (Hp x Px) as [Qx Kx].
    cbn [filter] in Hnd. rewrite Qx in Hnd. cbn [map] in Hnd.
    apply NoDup_cons_iff in Hnd. destruct Hnd as [Hnotin _].
    destruct (filter p l) as [|y rest] eqn:E; [reflexivity|].
    exfalso. apply Hnotin.
    assert (Hy : In y (filter p l)) by (rewrite E; now left).
    apply filter_In in Hy. destruct Hy as [Hy Py].
    destruct (Hp y Py) as [Qy Ky].
    rewrite Kx, <- Ky. apply in_map. apply filter_In. now split.
  - apply IH. cbn [filter] in Hnd.
    destruct (q x); [|exact Hnd].
    cbn [map] in Hnd. now apply NoDup_cons_iff in Hnd.
Qed.

Lemma NoDup_map_inj_in {X : Type} (key : X -> string) (l : list X) (a b : X) :
  NoDup (map key l) -> In a l -> In b l -> key a = key b -> a = b.
Proof.
  induction l as [|x l IH]; intros Hnd Ha Hb E; [contradiction|].
  cbn [map] in Hnd. apply NoDup_cons_iff in Hnd. destruct Hnd as [Hx Hnd].
  destruct Ha as [->|Ha], Hb as [->|Hb].
  - reflexivity.
  - exfalso. apply Hx. rewrite E. now apply in_map.
  - exfalso. apply Hx. rewrite <- E. now apply in_map.
  - now apply IH.
Qed.

Section DoubleFacts.

Import Double.
#[local] Open Scope float_scope.

(** The lookup of the loop, on the sorted logs of the month, finds the
    first stored log of the date. *)
Lemma Double_findLog_monthLogs (logs : list UserDailyUsage.t) (m : string)
  (i : nat) :
  findLog (monthLogs logs m) (dateStr m i) = hd_error (loggedOn logs m i).
Proof.
  unfold findLog, monthLogs, loggedOn.
  rewrite find_sortBy.
  - rewrite <- find_hd_filter. apply find_filter. intros x Hx.
    apply String.eqb_eq in Hx. rewrite Hx. apply startsWith_app.
  - intros a y Ha Hy. apply String.eqb_eq in Ha, Hy.
    apply localeCompare_same. congruence.
Qed.

(** With distinct dates in the month, a day has its one log or none. *)
Lemma loggedOn_distinct (logs : list UserDailyUsage.t) (m : string) (j : nat) :
  NoDup (map UserDailyUsage.date
           (filter (fun l => startsWith (UserDailyUsage.date l) m) logs)) ->
  loggedOn logs m j =
    match hd_error (loggedOn logs m j) with Some l => [l] | None => [] end.
Proof.
  intros Hnd. unfold loggedOn at 2. rewrite <- find_hd_filter.
  apply (filter_distinct_key UserDailyUsage.date _
           (fun l => startsWith (UserDailyUsage.date l) m) (dateStr m j));
    [|exact Hnd].
  intros x Hx. apply String.eqb_eq in Hx. split; [|exact Hx].
  rewrite Hx. apply startsWith_app.
Qed.

Lemma runningTotal_S (logs : list UserDailyUsage.t) (m : string) (n : nat) :
  runningTotal logs m (S n) =
    match hd_error (loggedOn logs m (S n)) with
    | Some l => runningTotal logs m n + UserDailyUsage.totalUnits l
    | None => runningTotal logs m n
    end.
Proof.
  unfold runningTotal. rewrite seq_S, fold_left_app. cbn [fold_left].
  change (1 + n)%nat with (S n). now rewrite Double_findLog_monthLogs.
Qed.

Lemma unitsThrough_S (logs : list UserDailyUsage.t) (m : string) (n : nat) :
  unitsThrough logs m (S n) =
    fold_left PrimFloat.add
      (map UserDailyUsage.totalUnits (loggedOn logs m (S n)))
      (unitsThrough logs m n).
Proof.
  unfold unitsThrough.
  now rewrite seq_S, flat_map_app, map_app, fold_left_app; cbn [flat_map];
    rewrite app_nil_r.
Qed.

(** With distinct dates in the month, the running total of the loop is the
    cumulative logged units: the same doubles added in the same order. *)
Lemma runningTotal_unitsThrough (logs : list UserDailyUsage.t) (m : string)
  (n : nat) :
  NoDup (map UserDailyUsage.date
           (filter (fun l => startsWith (UserDailyUsage.date l) m) logs)) ->
  runningTotal logs m n = unitsThrough logs m n.
Proof.
  intros Hnd. induction n as [|n IH]; [reflexivity|].
  rewrite runningTotal_S, unitsThrough_S, (loggedOn_distinct logs m (S n) Hnd), IH.
  now destruct (hd_error (loggedOn logs m (S n))).
Qed.

(** The logs counted by [unitsThrough] are the stored logs dated on one
    of the days [1..i]. *)
Lemma loggedThrough_In (logs : list UserDailyUsage.t) (m : string) (i : nat)
  (l : UserDailyUsage.t) :
  In l (flat_map (loggedOn logs m) (seq 1 i))
  <-> In l logs
      /\ exists j, (1 <= j <= i)%nat /\ UserDailyUsage.date l = dateStr m j.
Proof.
  rewrite in_flat_map. unfold loggedOn. split.
  - intros (j & Hj & Hl). apply in_seq in Hj. apply filter_In in Hl.
    destruct Hl as [Hl E]. apply String.eqb_eq in E.
    split; [exact Hl|]. exists j. split; [lia | exact E].
  - intros (Hl & j & Hj & E). exists j. split; [apply in_seq; lia|].
    apply filter_In. split; [exact Hl|]. now apply String.eqb_eq.
Qed.

(** The stored logs a day's entry can carry. *)
Lemma hd_loggedOn_Some (logs : list UserDailyUsage.t) (m : string) (i : nat)
  (l : UserDailyUsage.t) :
  hd_error (loggedOn logs m i) = Some l ->
  In l logs /\ UserDailyUsage.date l = dateStr m i.
Proof.
  unfold loggedOn. rewrite <- find_hd_filter. intros H.
  apply find_some in H. destruct H as [Hin E].
  now apply String.eqb_eq in E.
Qed.

Lemma hd_loggedOn_None (logs : list UserDailyUsage.t) (m : string) (i : nat) :
  hd_error (loggedOn logs m i) = None ->
  forall l, In l logs -> UserDailyUsage.date l <> dateStr m i.
Proof.
  unfold loggedOn. rewrite <- find_hd_filter. intros H l Hl E.
  apply (find_none _ _ H) in Hl. apply String.eqb_neq in Hl. contradiction.
Qed.

Section Loop.

Context {runtime : DateRuntime}.

Lemma Double_calendarLoop_S (clock : Clock.t) (m : string)
  (logs : list UserDailyUsage.t) (cfg : SubsidyConfig.t) (n : nat) :
  calendarLoop clock m (S n) (monthLogs logs m) cfg =
    calendarStep clock m (monthLogs logs m)
      (orInfinity (SubsidyConfig.limitUnits cfg))
      (calendarLoop clock m n (monthLogs logs m) cfg) (S n).
Proof.
  unfold calendarLoop.
  now rewrite seq_S, fold_left_app.
Qed.

(** What the loop has built after [n] days, in doubles: [n] entries, the
    running total, and for day [i] the first stored log of its date and the
    status of the cascade at the running total after that day. *)
Lemma Double_calendarLoop_spec (clock : Clock.t) (m : string)
  (logs : list UserDailyUsage.t) (cfg : SubsidyConfig.t) (n : nat) :
  let st := calendarLoop clock m n (monthLogs logs m) cfg in
  snd st = runningTotal logs m n
  /\ List.length (fst st) = n
  /\ forall i, (1 <= i <= n)%nat ->
       exists d, nth_error (fst st) (i - 1) = Some d
         /\ CalendarDay.dayNum d = i
         /\ CalendarDay.date d = dateStr m i
         /\ CalendarDay.log d = hd_error (loggedOn logs m i)
         /\ CalendarDay.status d =
              match hd_error (loggedOn logs m i) with
              | Some _ =>
                  loggedStatus (runningTotal logs m i)
                    (orInfinity (SubsidyConfig.limitUnits cfg))
              | None => DayStatus.none
              end.
Proof.
  induction n as [|n IH]; cbv zeta.
  - split; [reflexivity|]. split; [reflexivity|]. intros i Hi. lia.
  - rewrite Double_calendarLoop_S.
    destruct (calendarLoop clock m n (monthLogs logs m) cfg) as [days acc] eqn:Est.
    cbv zeta in IH. simpl fst in IH. simpl snd in IH.
    destruct IH as (Hacc & Hlen & Hdays).
    unfold calendarStep. rewrite Double_findLog_monthLogs.
    simpl fst. simpl snd. rewrite runningTotal_S, <- Hacc.
    split; [reflexivity|].
    split; [rewrite length_app, Hlen; simpl; lia|].
    intros i Hi.
    destruct (Nat.eq_dec i (S n)) as [->|Hne].
    + eexists. split.
      * rewrite nth_error_app2 by lia.
        replace (S n - 1 - List.length days)%nat with 0%nat by lia.
        reflexivity.
      * simpl. repeat split.
        rewrite runningTotal_S, <- Hacc.
        now destruct (hd_error (loggedOn logs m (S n))).
    + destruct (Hdays i) as (d & Hd & Hrest); [lia|].
      exists d. split; [|exact Hrest].
      rewrite nth_error_app1 by lia. exact Hd.
Qed.

End Loop.

Lemma SFcompare_antisym (x y : SpecFloat.spec_float) :
  SpecFloat.SFcompare y x = option_map CompOpp (SpecFloat.SFcompare x y).
Proof.
  destruct x as [sx|sx| |sx mx ex], y as [sy|sy| |sy my ey]; cbn;
    try reflexivity; try (destruct sx; reflexivity);
    try (destruct sy; reflexivity);
    try (destruct sx, sy; reflexivity).
  assert (Hm : Pos.compare_cont Eq my mx = CompOpp (Pos.compare_cont Eq mx my))
    by (rewrite Pos.compare_cont_antisym; reflexivity).
  destruct sx, sy; try reflexivity;
    rewrite (Z.compare_antisym ex ey), Hm;
    destruct (Z.compare ex ey); cbn; try reflexivity;
    destruct (Pos.compare_cont Eq mx my); reflexivity.
Qed.

Lemma is_nan_Prim2SF (x : float) :
  is_nan x = false -> Prim2SF x <> SpecFloat.S754_nan.
Proof.
  unfold is_nan. rewrite eqb_spec. intros H E. rewrite E in H. discriminate.
Qed.

(** For numbers, [a >= b] fails exactly when [a < b]. *)
Lemma geb_ltb (a b : float) :
  is_nan a = false -> is_nan b = false -> geb a b = negb (PrimFloat.ltb a b).
Proof.
  intros Ha Hb. apply is_nan_Prim2SF in Ha, Hb.
  unfold geb. rewrite leb_spec, ltb_spec. unfold SpecFloat.SFleb, SpecFloat.SFltb.
  rewrite (SFcompare_antisym (Prim2SF a) (Prim2SF b)).
  destruct (SpecFloat.SFcompare (Prim2SF a) (Prim2SF b)) as [[| |]|] eqn:E;
    try reflexivity.
  exfalso. destruct (Prim2SF a) as [sx|sx| |sx mx ex],
    (Prim2SF b) as [sy|sy| |sy my ey]; try discriminate; congruence.
Qed.

(** The cascade of the loop, read back from the status. *)
Lemma loggedStatus_cases (c limit : float) :
  (loggedStatus c limit = DayStatus.critical <-> geb c limit = true)
  /\ (loggedStatus c limit = DayStatus.warning
      <-> geb c limit = false /\ geb c (0.85 * limit) = true)
  /\ (loggedStatus c limit = DayStatus.safe
      <-> geb c limit = false /\ geb c (0.85 * limit) = false)
  /\ loggedStatus c limit <> DayStatus.none.
Proof.
  unfold loggedStatus.
  destruct (geb c limit), (geb c (0.85 * limit));
    repeat split; try discriminate; try reflexivity;
    try (intros [? ?]; discriminate); intros; discriminate.
Qed.

(** Against [Infinity] the cascade has two outcomes: 0.85 times
    [Infinity] is [Infinity]. *)
Lemma loggedStatus_infinity (c : float) :
  loggedStatus c infinity =
    if geb c infinity then DayStatus.critical else DayStatus.safe.
Proof.
  unfold loggedStatus. change (0.85 * infinity) with infinity.
  now destruct (geb c infinity).
Qed.

(** Under [onCalendar] the logs counted through the last day are the logs
    of the month. *)
Lemma loggedThrough_month (logs : list UserDailyUsage.t) (m : string)
  (daysInMonth : nat) (l : UserDailyUsage.t) :
  onCalendar logs m daysInMonth ->
  (In l (flat_map (loggedOn logs m) (seq 1 daysInMonth))
   <-> In l logs /\ startsWith (UserDailyUsage.date l) m = true).
Proof.
  intros [_ Hcal]. rewrite loggedThrough_In. split.
  - intros (Hl & j & _ & E). split; [exact Hl|].
    rewrite E. apply startsWith_app.
  - intros [Hl Hm]. split; [exact Hl|].
    apply Hcal. apply filter_In. now split.
Qed.

(** C1, as the code has it, on doubles.  Let the logs of the month be the
    logs of calendar days, one a day at most.  Day [i] of the month,
    [1 <= i <= daysInMonth], has the entry [i - 1] of [calendarDays], which
    carries the stored log of that date if there is one.  A day without a
    log has status [none].  A day with a log is classified by the
    cumulative logged units [c] up to and including that day, the doubles
    added day after day, against [limit = limitUnits || Infinity]:
    [critical] when [c >= limit]; else [warning] when [c >= 0.85 * limit];
    else [safe].  When [limitUnits] is [0] the limit is [Infinity] and no
    day is [warning].  For numbers, [NaN] apart, a logged day is [safe]
    exactly when [c] is strictly below the limit and 0.85 times the limit,
    and [warning] exactly when it is strictly below the limit and not below
    0.85 times the limit. *)
Theorem calendarDays_status_double {runtime : DateRuntime} (clock : Clock.t)
  (logs : list UserDailyUsage.t) (currentMonth : string) (daysInMonth : nat)
  (subsidyConfig : SubsidyConfig.t) (i : nat) :
  onCalendar logs currentMonth daysInMonth ->
  (1 <= i <= daysInMonth)%nat ->
  let limitUnits := SubsidyConfig.limitUnits subsidyConfig in
  let limit := if falsy limitUnits then infinity else limitUnits in
  let c := unitsThrough logs currentMonth i in
  exists d,
    nth_error (calendarDays clock currentMonth daysInMonth
                 (monthLogs logs currentMonth) subsidyConfig) (i - 1) = Some d
    /\ CalendarDay.dayNum d = i
    /\ (forall l, CalendarDay.log d = Some l
                  <-> In l logs
                      /\ UserDailyUsage.date l = dateStr currentMonth i)
    /\ (CalendarDay.log d = None -> CalendarDay.status d = DayStatus.none)
    /\ (CalendarDay.log d <> None ->
          (CalendarDay.status d = DayStatus.critical <-> geb c limit = true)
          /\ (CalendarDay.status d = DayStatus.warning
              <-> geb c limit = false /\ geb c (0.85 * limit) = true)
          /\ (CalendarDay.status d = DayStatus.safe
              <-> geb c limit = false /\ geb c (0.85 * limit) = false)
          /\ (falsy limitUnits = true ->
              CalendarDay.status d <> DayStatus.warning)
          /\ (is_nan c = false -> is_nan limit = false ->
              is_nan (0.85 * limit) = false ->
              (CalendarDay.status d = DayStatus.safe
               <-> PrimFloat.ltb c limit = true
                   /\ PrimFloat.ltb c (0.85 * limit) = true)
              /\ (CalendarDay.status d = DayStatus.warning
                  <-> PrimFloat.ltb c limit = true
                      /\ PrimFloat.ltb c (0.85 * limit) = false))).
Proof.
  intros Hcal Hi limitUnits limit c.
  destruct Hcal as [Hnd Hcal].
  destruct (Double_calendarLoop_spec clock currentMonth logs subsidyConfig
              daysInMonth) as (_ & _ & Hdays).
  destruct (Hdays i Hi) as (d & Hd & Hnum & _ & Hlog & Hst).
  exists d. split; [exact Hd|]. split; [exact Hnum|].
  rewrite (runningTotal_unitsThrough _ _ _ Hnd) in Hst.
  fold c in Hst. change (orInfinity (SubsidyConfig.limitUnits subsidyConfig))
    with limit in Hst.
  split; [|split].
  - intros l. rewrite Hlog. split.
    + apply hd_loggedOn_Some.
    + intros [Hl E].
      destruct (hd_error (loggedOn logs currentMonth i)) as [l'|] eqn:Ehd.
      * apply hd_loggedOn_Some in Ehd. destruct Ehd as [Hl' E'].
        f_equal.
        apply (NoDup_map_inj_in UserDailyUsage.date _ l' l Hnd).
        -- apply filter_In. split; [exact Hl'|].
           rewrite E'. apply startsWith_app.
        -- apply filter_In. split; [exact Hl|].
           rewrite E. apply startsWith_app.
        -- congruence.
      * exfalso. exact (hd_loggedOn_None _ _ _ Ehd l Hl E).
  - intros Hnone. rewrite Hlog in Hnone. now rewrite Hnone in Hst.
  - intros Hsome. rewrite Hlog in Hsome.
    destruct (hd_error (loggedOn logs currentMonth i)); [|congruence].
    rewrite Hst.
    destruct (loggedStatus_cases c limit) as (Hc & Hw & Hs & _).
    split; [exact Hc|]. split; [exact Hw|]. split; [exact Hs|]. split.
    + intros Hfalsy. unfold limit. rewrite Hfalsy, loggedStatus_infinity.
      destruct (geb c infinity); discriminate.
    + intros Nc Nl Nl85. rewrite Hs, Hw, !geb_ltb by assumption.
      rewrite !negb_false_iff, !negb_true_iff. tauto.
Qed.

Lemma tenDaysOf_onCalendar (units : float) :
  onCalendar (tenDaysOf units) "2024-03" 31.
Proof.
  split.
  - cbn. repeat (constructor; [cbn; intuition discriminate|]). constructor.
  - intros l Hl. apply filter_In in Hl. destruct Hl as [Hl _].
    unfold tenDaysOf in Hl. apply in_map_iff in Hl.
    destruct Hl as (k & <- & Hk). apply in_seq in Hk.
    exists k. split; [lia | reflexivity].
Qed.

(** Ten days of March logged with 0.1 units each under a limit of 1: the
    ten doubles add up to 0.99999999999999989, below the limit, and day 10
    is [warning]. *)
Lemma calendarDays_status_double_witness :
  onCalendar (tenDaysOf 0.1) "2024-03" 31
  /\ (1 <= 10 <= 31)%nat
  /\ unitsThrough (tenDaysOf 0.1) "2024-03" 10 = 0.99999999999999989
  /\ exists d,
       nth_error (calendarDays (runtime := Sample.isoDates) Sample.march15
                    "2024-03" 31 (monthLogs (tenDaysOf 0.1) "2024-03")
                    (subsidy SubsidyType.government 1)) 9 = Some d
       /\ CalendarDay.log d <> None
       /\ CalendarDay.status d = DayStatus.warning.
Proof.
  split; [exact (tenDaysOf_onCalendar 0.1)|].
  split; [lia|].
  split; [vm_compute; reflexivity|].
  destruct (calendarDays_status_double (runtime := Sample.isoDates)
              Sample.march15 (tenDaysOf 0.1) "2024-03" 31
              (subsidy SubsidyType.government 1) 10
              (tenDaysOf_onCalendar 0.1) ltac:(lia))
    as (d & Hd & _ & Hlog & _ & Hst).
  exists d. split; [exact Hd|].
  assert (Hsome : CalendarDay.log d <> None).
  { intros Hnone.
    assert (H : CalendarDay.log d = Some (logOn "2024-03-10" 0.1)).
    { apply Hlog. split; [vm_compute; tauto | reflexivity]. }
    congruence. }
  split; [exact Hsome|].
  destruct (Hst Hsome) as (_ & Hwarn & _).
  apply Hwarn. split; vm_compute; reflexivity.
Defined.

(** With two logs stored under one date the loop counts the first of them:
    on 2 March 140 units are logged, above the limit of 100, while the
    running total stands at 90 and the day is [warning].  Hence the one log
    a date that the statement on the status asks for, which is what
    [handleSaveLog] keeps. *)
Example twiceLogged_status :
  unitsThrough twiceLogged "2024-03" 2 = 140
  /\ runningTotal twiceLogged "2024-03" 2 = 90
  /\ exists d,
       nth_error (calendarDays (runtime := Sample.isoDates) Sample.march15
                    "2024-03" 31 (monthLogs twiceLogged "2024-03")
                    (subsidy SubsidyType.government 100)) 1 = Some d
       /\ CalendarDay.status d = DayStatus.warning.
Proof.
  split; [vm_compute; reflexivity|]. split; [vm_compute; reflexivity|].
  eexists. split; [vm_compute; reflexivity | reflexivity].
Qed.

(** [x >= Infinity] holds of [Infinity] alone. *)
Lemma geb_infinity (x : float) : geb x infinity = true <-> x = infinity.
Proof.
  unfold geb. rewrite leb_spec.
  change (Prim2SF infinity) with (SpecFloat.S754_infinity false).
  split.
  - intros H. apply Prim2SF_inj.
    change (Prim2SF infinity) with (SpecFloat.S754_infinity false).
    destruct (Prim2SF x) as [s|s| |s m e]; try destruct s; cbn in H;
      try discriminate; reflexivity.
  - intros ->. reflexivity.
Qed.

Lemma fold_left_add_map {X : Type} (f : X -> float) (l : list X) (acc : float) :
  fold_left (fun sum x => sum + f x) l acc = fold_left PrimFloat.add (map f l) acc.
Proof.
  revert acc. induction l as [|x l IH]; intros acc; cbn; [reflexivity|].
  apply IH.
Qed.

Lemma Double_monthLogs_Permutation (logs : list UserDailyUsage.t) (m : string) :
  Permutation (monthLogs logs m)
    (filter (fun l => startsWith (UserDailyUsage.date l) m) logs).
Proof. apply sortBy_Permutation. Qed.

(** The logs of the days from [a] on, day after day, are in increasing
    order of date. *)
Lemma loggedOn_sorted (logs : list UserDailyUsage.t) (m : string) (n a : nat) :
  NoDup (map UserDailyUsage.date
           (filter (fun l => startsWith (UserDailyUsage.date l) m) logs)) ->
  (a + n <= 100)%nat ->
  StronglySorted
    (fun x y => localeCompare (UserDailyUsage.date x) (UserDailyUsage.date y) = Lt)
    (flat_map (loggedOn logs m) (seq a n)).
Proof.
  intros Hnd. revert a. induction n as [|n IH]; intros a Ha; cbn [seq flat_map].
  - constructor.
  - rewrite (loggedOn_distinct logs m a Hnd).
    destruct (hd_error (loggedOn logs m a)) as [l|] eqn:E;
      [|apply IH; lia].
    cbn [app]. constructor; [apply IH; lia|].
    apply hd_loggedOn_Some in E. destruct E as [_ E].
    apply Forall_forall. intros z Hz.
    apply in_flat_map in Hz. destruct Hz as (j & Hj & Hz).
    apply in_seq in Hj. apply filter_In in Hz. destruct Hz as [_ Ez].
    apply String.eqb_eq in Ez. rewrite E, Ez.
    apply dateStr_lt. lia.
Qed.

Lemma sorted_NoDup {X : Type} (key : X -> string) (l : list X) :
  StronglySorted (fun x y => localeCompare (key x) (key y) = Lt) l -> NoDup l.
Proof.
  induction 1 as [|a l _ IH Ha]; constructor; [|exact IH].
  intros Hin. rewrite Forall_forall in Ha. specialize (Ha a Hin).
  unfold localeCompare in Ha.
  assert (E : String.compare (key a) (key a) = Eq)
    by now apply OrderedTypeEx.String_as_OT.cmp_eq.
  congruence.
Qed.

(** When the logs of the month are the logs of calendar days, the sorted
    logs of the month are the logs of day 1, of day 2, and so on. *)
Lemma monthLogs_by_day (logs : list UserDailyUsage.t) (m : string)
  (daysInMonth : nat) :
  onCalendar logs m daysInMonth -> (daysInMonth <= 31)%nat ->
  monthLogs logs m = flat_map (loggedOn logs m) (seq 1 daysInMonth).
Proof.
  intros Hcal Hdim. pose proof Hcal as [Hnd _].
  pose proof (loggedOn_sorted logs m daysInMonth 1 Hnd ltac:(lia)) as Hsorted.
  apply (sorted_unique UserDailyUsage.date); [| |exact Hsorted].
  - unfold monthLogs. rewrite sortBy_Permutation.
    apply NoDup_Permutation.
    + exact (NoDup_map_inv _ _ Hnd).
    + exact (sorted_NoDup _ _ Hsorted).
    + intros l. rewrite (loggedThrough_month logs m daysInMonth l Hcal).
      apply filter_In.
  - unfold monthLogs. apply sortBy_sorted.
    apply (Permutation_NoDup (l := map UserDailyUsage.date
             (filter (fun l => startsWith (UserDailyUsage.date l) m) logs)));
      [reflexivity | exact Hnd].
Qed.

(** The month-to-date units of the summary are then the cumulative logged
    units through the last day of the month: the same doubles, added in the
    same order. *)
Lemma totalUnits_unitsThrough (logs : list UserDailyUsage.t) (m : string)
  (daysInMonth : nat) :
  onCalendar logs m daysInMonth -> (daysInMonth <= 31)%nat ->
  totalUnits (monthLogs logs m) = unitsThrough logs m daysInMonth.
Proof.
  intros Hcal Hdim. unfold totalUnits, unitsThrough.
  rewrite fold_left_add_map. now rewrite (monthLogs_by_day logs m daysInMonth).
Qed.

(** C3, on doubles.  The summary's [totalUnits] is the double that adding
    the units of the logs of the month, in the order of their dates and
    from [0], gives; and for every subsidy type, [none] included,
    [slabCrossed] is the boolean [totalUnits > limitUnits] on that double:
    the type is not looked at.  When the logs of the month are the logs of
    calendar days, one a day at most, [totalUnits] is the cumulative logged
    units through the last day of the month. *)
Theorem summary_slabCrossed_double {calculator : Calculator}
  (logs : list UserDailyUsage.t) (stateTariff : StateTariff.t)
  (inventory : list Appliance.t) (daysInMonth : nat) (currentMonth : string)
  (type : SubsidyType.t) (limitUnits : float) (season : Season.t) :
  let s := summary (monthLogs logs currentMonth) stateTariff inventory
             daysInMonth currentMonth (subsidy type limitUnits) season in
  MonthlyUsageSummary.totalUnits s
    = fold_left PrimFloat.add
        (map UserDailyUsage.totalUnits (monthLogs logs currentMonth)) 0
  /\ Permutation (monthLogs logs currentMonth)
       (filter (fun l => startsWith (UserDailyUsage.date l) currentMonth) logs)
  /\ MonthlyUsageSummary.slabCrossed s
     = gtb (MonthlyUsageSummary.totalUnits s) limitUnits
  /\ (MonthlyUsageSummary.slabCrossed s = true
      <-> PrimFloat.ltb limitUnits (MonthlyUsageSummary.totalUnits s) = true)
  /\ (forall type',
        MonthlyUsageSummary.slabCrossed
          (summary (monthLogs logs currentMonth) stateTariff inventory
             daysInMonth currentMonth (subsidy type' limitUnits) season)
        = MonthlyUsageSummary.slabCrossed s)
  /\ (onCalendar logs currentMonth daysInMonth -> (daysInMonth <= 31)%nat ->
      MonthlyUsageSummary.totalUnits s
        = unitsThrough logs currentMonth daysInMonth
      /\ MonthlyUsageSummary.slabCrossed s
         = gtb (unitsThrough logs currentMonth daysInMonth) limitUnits).
Proof.
  cbv zeta. unfold summary, subsidy.
  cbn [MonthlyUsageSummary.slabCrossed MonthlyUsageSummary.totalUnits
       SubsidyConfig.limitUnits].
  split; [apply fold_left_add_map|].
  split; [apply Double_monthLogs_Permutation|].
  split; [reflexivity|]. split; [reflexivity|]. split; [reflexivity|].
  intros Hcal Hdim.
  now rewrite (totalUnits_unitsThrough logs currentMonth daysInMonth Hcal Hdim).
Qed.

(** Ten days of 0.7 units under a limit of 7: the doubles add up to
    7.0000000000000009 and [slabCrossed] is true, for every subsidy type. *)
Example slabCrossed_at_the_limit :
  totalUnits (monthLogs (tenDaysOf 0.7) "2024-03") = 7.0000000000000009
  /\ forall type,
       MonthlyUsageSummary.slabCrossed
         (summary (calculator := flatCalculator)
            (monthLogs (tenDaysOf 0.7) "2024-03") flatTariff [] 31 "2024-03"
            (subsidy type 7) Season.summer) = true.
Proof. split; [vm_compute; reflexivity | intros type; vm_compute; reflexivity]. Qed.

(** C10 as stated fails when the units overflow: with [limitUnits] [0] and
    1e308 units logged on each of 1 and 2 March, the running total on day 2
    is [Infinity], [Infinity >= Infinity] holds, and day 2 is [critical]. *)
Lemma calendarDays_zero_limit_counterexample :
  SubsidyConfig.limitUnits noSubsidy = 0
  /\ unitsThrough hugeDays "2024-03" 2 = infinity
  /\ exists d l,
       nth_error (calendarDays (runtime := Sample.isoDates) Sample.march15
                    "2024-03" 31 (monthLogs hugeDays "2024-03") noSubsidy) 1
         = Some d
       /\ CalendarDay.log d = Some l
       /\ In l hugeDays
       /\ CalendarDay.status d = DayStatus.critical
       /\ CalendarDay.status d <> DayStatus.safe.
Proof.
  split; [reflexivity|]. split; [vm_compute; reflexivity|].
  eexists. eexists.
  split; [vm_compute; reflexivity|].
  split; [reflexivity|].
  split; [right; left; reflexivity|].
  split; [reflexivity | discriminate].
Qed.

(** C10, as the code has it, on doubles.  When [limitUnits] is [0] (or
    [-0], or [NaN]) the calendar takes the limit to be [Infinity].  It has
    one entry for each day of the month; the entry of a day carries the
    first stored log of that date, so a day on which a log is stored has
    one; a day without a log has status [none]; a day with a log is [safe],
    whatever the running total of the loop, unless that total is
    [Infinity] itself, and then it is [critical]; no day is [warning].
    Meanwhile [slabCrossed] is [totalUnits > limitUnits] all the same. *)
Theorem calendarDays_zero_limit_double {calculator : Calculator}
  {runtime : DateRuntime} (clock : Clock.t) (logs : list UserDailyUsage.t)
  (currentMonth : string) (daysInMonth : nat) (subsidyConfig : SubsidyConfig.t)
  (stateTariff : StateTariff.t) (inventory : list Appliance.t)
  (season : Season.t) :
  falsy (SubsidyConfig.limitUnits subsidyConfig) = true ->
  let days := calendarDays clock currentMonth daysInMonth
                (monthLogs logs currentMonth) subsidyConfig in
  List.length days = daysInMonth
  /\ (forall i, (1 <= i <= daysInMonth)%nat ->
        exists d,
          nth_error days (i - 1) = Some d
          /\ CalendarDay.dayNum d = i
          /\ CalendarDay.log d = hd_error (loggedOn logs currentMonth i)
          /\ (forall l, In l logs ->
                UserDailyUsage.date l = dateStr currentMonth i ->
                CalendarDay.log d <> None)
          /\ (CalendarDay.log d = None -> CalendarDay.status d = DayStatus.none)
          /\ (CalendarDay.log d <> None ->
                (runningTotal logs currentMonth i <> infinity ->
                 CalendarDay.status d = DayStatus.safe)
                /\ (runningTotal logs currentMonth i = infinity ->
                    CalendarDay.status d = DayStatus.critical)))
  /\ Forall (fun d => CalendarDay.status d <> DayStatus.warning) days
  /\ MonthlyUsageSummary.slabCrossed
       (summary (monthLogs logs currentMonth) stateTariff inventory
          daysInMonth currentMonth subsidyConfig season)
     = gtb (totalUnits (monthLogs logs currentMonth))
           (SubsidyConfig.limitUnits subsidyConfig).
Proof.
  intros Hfalsy days.
  destruct (Double_calendarLoop_spec clock currentMonth logs subsidyConfig
              daysInMonth) as (_ & Hlen & Hdays).
  fold (calendarDays clock currentMonth daysInMonth
          (monthLogs logs currentMonth) subsidyConfig) in Hlen, Hdays.
  fold days in Hlen, Hdays.
  assert (Hentry : forall i, (1 <= i <= daysInMonth)%nat ->
            exists d,
              nth_error days (i - 1) = Some d
              /\ CalendarDay.dayNum d = i
              /\ CalendarDay.log d = hd_error (loggedOn logs currentMonth i)
              /\ CalendarDay.status d =
                   match CalendarDay.log d with
                   | Some _ =>
                       if geb (runningTotal logs currentMonth i) infinity
                       then DayStatus.critical else DayStatus.safe
                   | None => DayStatus.none
                   end).
  { intros i Hi. destruct (Hdays i Hi) as (d & Hd & Hnum & _ & Hlog & Hst).
    exists d. split; [exact Hd|]. split; [exact Hnum|]. split; [exact Hlog|].
    rewrite Hst, Hlog. unfold orInfinity. rewrite Hfalsy.
    now rewrite loggedStatus_infinity. }
  split; [exact Hlen|]. split; [|split].
  - intros i Hi. destruct (Hentry i Hi) as (d & Hd & Hnum & Hlog & Hst).
    exists d. split; [exact Hd|]. split; [exact Hnum|]. split; [exact Hlog|].
    split; [|split].
    + intros l Hl E Hnone. rewrite Hlog in Hnone.
      exact (hd_loggedOn_None _ _ _ Hnone l Hl E).
    + intros Hnone. now rewrite Hnone in Hst.
    + intros Hsome. destruct (CalendarDay.log d); [|congruence].
      rewrite Hst. split.
      * intros Hfin.
        destruct (geb (runningTotal logs currentMonth i) infinity) eqn:E;
          [|reflexivity].
        apply geb_infinity in E. contradiction.
      * intros Hinf. rewrite Hinf. reflexivity.
  - apply Forall_forall. intros d Hin.
    apply In_nth_error in Hin. destruct Hin as [k Hk].
    assert (Hlt : (k < daysInMonth)%nat).
    { rewrite <- Hlen. apply nth_error_Some. congruence. }
    destruct (Hentry (S k) ltac:(lia)) as (d' & Hd' & _ & _ & Hst).
    replace (S k - 1)%nat with k in Hd' by lia.
    assert (d' = d) by congruence. subst d'.
    rewrite Hst. destruct (CalendarDay.log d); [|discriminate].
    destruct (geb _ _); discriminate.
  - reflexivity.
Qed.

(** March 2024 with 110 logged units and the configuration App.tsx starts
    from, [{ type: 'none', limitUnits: 0 }]: [slabCrossed] is true, and the
    three logged days are [safe], the others [none]. *)
Lemma calendarDays_zero_limit_double_witness :
  falsy (SubsidyConfig.limitUnits noSubsidy) = true
  /\ MonthlyUsageSummary.slabCrossed
       (summary (calculator := flatCalculator)
          (monthLogs threeDays "2024-03") flatTariff [] 31 "2024-03"
          noSubsidy Season.summer) = true
  /\ exists d,
       nth_error (calendarDays (runtime := Sample.isoDates) Sample.march15
                    "2024-03" 31 (monthLogs threeDays "2024-03") noSubsidy) 4
         = Some d
       /\ CalendarDay.log d = Some (logOn "2024-03-05" 20)
       /\ CalendarDay.status d = DayStatus.safe.
Proof.
  assert (H0 : falsy (SubsidyConfig.limitUnits noSubsidy) = true)
    by reflexivity.
  destruct (calendarDays_zero_limit_double (calculator := flatCalculator)
              (runtime := Sample.isoDates) Sample.march15 threeDays
              "2024-03" 31 noSubsidy flatTariff [] Season.summer H0)
    as (_ & Hdays & _ & Hcrossed).
  split; [exact H0|].
  split; [rewrite Hcrossed; vm_compute; reflexivity|].
  destruct (Hdays 5%nat ltac:(lia)) as (d & Hd & _ & Hlog & _ & _ & Hst).
  exists d. split; [exact Hd|].
  split; [rewrite Hlog; reflexivity|].
  apply Hst.
  - rewrite Hlog. discriminate.
  - vm_compute. discriminate.
Defined.

(** X18.  The projection [avgUnitsPerDay * daysInMonth] rounds twice and is
    no bound on the month-to-date units: with every day of a 30-day month
    logged at 8.3 units, [totalUnits] is 249.00000000000014 and
    [projectedUnits], [(totalUnits / 30) * 30], is 249.00000000000011,
    below it. *)
Theorem summary_projection_rounding :
  let monthLogs := monthLogs (allApril 8.3) "2024-04" in
  let s := summary (calculator := flatCalculator) monthLogs flatTariff [] 30
             "2024-04" noSubsidy Season.summer in
  List.length monthLogs = 30%nat
  /\ MonthlyUsageSummary.totalUnits s = 249.00000000000014
  /\ MonthlyUsageSummary.projectedUnits s
     = MonthlyUsageSummary.totalUnits s / 30 * 30
  /\ MonthlyUsageSummary.projectedUnits s = 249.00000000000011
  /\ PrimFloat.ltb (MonthlyUsageSummary.projectedUnits s)
       (MonthlyUsageSummary.totalUnits s) = true.
Proof. cbv zeta. repeat split; vm_compute; reflexivity. Qed.

End DoubleFacts.

(* ================================================================== *)
(** * The clock                                                        *)
(* ================================================================== *)

(** The loop reads the clock for [isFuture] and [isEstimated] only. *)
Lemma calendarLoop_classification {runtime : DateRuntime} (c1 c2 : Clock.t)
  (m : string) (logs : list UserDailyUsage.t) (cfg : SubsidyConfig.t) (n : nat) :
  map classification (fst (calendarLoop c1 m n (monthLogs logs m) cfg))
  = map classification (fst (calendarLoop c2 m n (monthLogs logs m) cfg))
  /\ snd (calendarLoop c1 m n (monthLogs logs m) cfg)
     = snd (calendarLoop c2 m n (monthLogs logs m) cfg).
Proof.
  induction n as [|n [IHdays IHacc]]; [split; reflexivity|].
  rewrite !calendarLoop_S.
  destruct (calendarLoop c1 m n (monthLogs logs m) cfg) as [days1 acc1].
  destruct (calendarLoop c2 m n (monthLogs logs m) cfg) as [days2 acc2].
  simpl in IHdays, IHacc. subst acc2.
  unfold calendarStep. simpl. rewrite !map_app, IHdays. split; reflexivity.
Qed.

Lemma calendarLoop_same_instant {runtime : DateRuntime} (c1 c2 : Clock.t)
  (m : string) (ml : list UserDailyUsage.t) (cfg : SubsidyConfig.t) (n : nat) :
  Clock.startOfDay c1 = Clock.startOfDay c2 ->
  Clock.getTime c1 = Clock.getTime c2 ->
  calendarLoop c1 m n ml cfg = calendarLoop c2 m n ml cfg.
Proof.
  intros Hday Hnow. unfold calendarLoop.
  apply fold_left_pointwise. intros st i.
  unfold calendarStep. now rewrite Hday, Hnow.
Qed.

(** A memo whose dependencies are unchanged keeps its value; the clock is
    not a dependency. *)
Lemma rerender_kept {calculator : Calculator} {runtime : DateRuntime}
  (m : Mounted) (props : Props) (ids : Identity) (clock : Clock.t) :
  depMonth m = currentMonth clock ->
  depDays m = daysInMonth clock ->
  depIdentity m = ids ->
  depSeason m = season props ->
  rendered (rerender m props ids clock) = rendered m.
Proof.
  intros Hm Hd Hi Hs. unfold rendered, rerender.
  cbn [memoSummary memoCalendarDays].
  unfold summaryKept, calendarDaysKept, monthLogsKept.
  rewrite Hm, Hd, Hi, Hs, !Nat.eqb_refl, !String.eqb_refl.
  cbn [andb]. now destruct (season props).
Qed.

(** A change of month, or of the stored logs, has both memos computed
    anew. *)
Lemma rerender_recomputed {calculator : Calculator} {runtime : DateRuntime}
  (m : Mounted) (props : Props) (ids : Identity) (clock : Clock.t) :
  depMonth m <> currentMonth clock \/ logsId (depIdentity m) <> logsId ids ->
  rendered (rerender m props ids clock) = DailyCalendar props clock.
Proof.
  intros H. unfold rendered, rerender.
  cbn [memoSummary memoCalendarDays].
  assert (Hkept : monthLogsKept m ids (currentMonth clock) = false).
  { unfold monthLogsKept. destruct H as [H|H].
    - apply String.eqb_neq in H. rewrite H. apply andb_false_r.
    - apply Nat.eqb_neq in H. now rewrite H. }
  unfold summaryKept, calendarDaysKept. rewrite Hkept.
  cbn [andb]. rewrite !andb_false_r. cbn [andb].
  now destruct (DailyCalendar props clock).
Qed.

(** C5, as the code has it.  [DailyCalendar] reads the clock.  Two mounts
    with the same props whose clocks give the same current month (the UTC
    year and month) and the same number of days yield the same summary and,
    day by day, the same date, log and status.  The first render of a
    component shows what the mount computes, and a later render of that
    component with the same props, in the same month, shows the same
    summary and the same days as the first, flags [isFuture] and
    [isEstimated] included, whatever the clock has moved to: the memo of
    the days does not depend on it. *)
Theorem DailyCalendar_deterministic {calculator : Calculator}
  {runtime : DateRuntime} (props : Props) (ids : Identity) (c1 c2 : Clock.t) :
  currentMonth c1 = currentMonth c2 ->
  daysInMonth c1 = daysInMonth c2 ->
  fst (DailyCalendar props c1) = fst (DailyCalendar props c2)
  /\ map classification (snd (DailyCalendar props c1))
     = map classification (snd (DailyCalendar props c2))
  /\ rendered (mount props ids c1) = DailyCalendar props c1
  /\ rendered (rerender (mount props ids c1) props ids c2)
     = DailyCalendar props c1.
Proof.
  intros Hmonth Hdays. split; [|split; [|split]].
  - unfold DailyCalendar. cbv zeta. simpl fst. now rewrite Hmonth, Hdays.
  - unfold DailyCalendar. cbv zeta. simpl snd. rewrite Hmonth, Hdays.
    apply calendarLoop_classification.
  - unfold rendered, mount. cbn [memoSummary memoCalendarDays].
    now destruct (DailyCalendar props c1).
  - rewrite rerender_kept by (cbn; congruence).
    unfold rendered, mount. cbn [memoSummary memoCalendarDays].
    now destruct (DailyCalendar props c1).
Qed.

(** 15 March and 20 March 2024 lie in the same month: two mounts give the
    same summary and the same classification of the days, and a component
    mounted on the 15th and rendered again on the 20th still shows the days
    of the 15th, which are not the days a mount on the 20th computes. *)
Lemma DailyCalendar_deterministic_witness :
  currentMonth Sample.march15 = currentMonth Sample.march20
  /\ daysInMonth Sample.march15 = daysInMonth Sample.march20
  /\ fst (Sample.render Sample.march15) = fst (Sample.render Sample.march20)
  /\ map classification (snd (Sample.render Sample.march15))
     = map classification (snd (Sample.render Sample.march20))
  /\ rendered (rerender (calculator := Sample.calculator)
                 (runtime := Sample.isoDates)
                 (mount (calculator := Sample.calculator)
                    (runtime := Sample.isoDates) Sample.props
                    (mkIdentity 1 2 3 4) Sample.march15)
                 Sample.props (mkIdentity 1 2 3 4) Sample.march20)
     = Sample.render Sample.march15.
Proof.
  assert (Hm : currentMonth Sample.march15 = currentMonth Sample.march20)
    by reflexivity.
  assert (Hd : daysInMonth Sample.march15 = daysInMonth Sample.march20)
    by reflexivity.
  destruct (DailyCalendar_deterministic (calculator := Sample.calculator)
              (runtime := Sample.isoDates) Sample.props (mkIdentity 1 2 3 4)
              Sample.march15 Sample.march20 Hm Hd) as (Hsum & Hcls & _ & Hre).
  exact (conj Hm (conj Hd (conj Hsum (conj Hcls Hre)))).
Defined.

(** The days a component shows on 20 March after it was mounted on the
    15th are not those a mount on the 20th computes: the days between are
    still shown as future. *)
Example rerender_stale_flags :
  snd (rendered (rerender (calculator := Sample.calculator)
                   (runtime := Sample.isoDates)
                   (mount (calculator := Sample.calculator)
                      (runtime := Sample.isoDates) Sample.props
                      (mkIdentity 1 2 3 4) Sample.march15)
                   Sample.props (mkIdentity 1 2 3 4) Sample.march20))
  <> snd (Sample.render Sample.march20).
Proof.
  intros H. apply (f_equal (map CalendarDay.isFuture)) in H.
  vm_compute in H. discriminate.
Qed.

(** C5 as stated fails: with the same props, a render on 15 March 2024 and
    a render on 15 April 2024 differ in the summary (its month, its total
    units) and in the status of the days; and two renders within March
    differ in the flags of the days in between. *)
Lemma DailyCalendar_clock_counterexample :
  MonthlyUsageSummary.month (fst (Sample.render Sample.march15)) = "2024-03"
  /\ MonthlyUsageSummary.month (fst (Sample.render Sample.april15)) = "2024-04"
  /\ MonthlyUsageSummary.totalUnits (fst (Sample.render Sample.march15)) == 110
  /\ MonthlyUsageSummary.totalUnits (fst (Sample.render Sample.april15)) == 0
  /\ fst (Sample.render Sample.march15) <> fst (Sample.render Sample.april15)
  /\ map CalendarDay.status (snd (Sample.render Sample.march15))
     <> map CalendarDay.status (snd (Sample.render Sample.april15))
  /\ snd (Sample.render Sample.march15) <> snd (Sample.render Sample.march20).
Proof.
  split; [reflexivity|]. split; [reflexivity|].
  split; [reflexivity|]. split; [reflexivity|].
  split; [|split].
  - intros H. apply (f_equal MonthlyUsageSummary.month) in H.
    vm_compute in H. discriminate.
  - intros H. vm_compute in H. discriminate.
  - intros H. apply (f_equal (map CalendarDay.isFuture)) in H.
    vm_compute in H. discriminate.
Qed.

(* ================================================================== *)
(** * Facts about the billing engine                                   *)
(* ================================================================== *)

(** C6.  For [units >= 0] and a [government] or [company] subsidy of limit
    [L], [applySubsidy] splits the units: subsidized + billable = units,
    billable = max(0, units - L), subsidized = min(units, L), remaining =
    max(0, L - units); for [none], billable = units and subsidized =
    remaining = 0. *)
Theorem applySubsidy_split (units : Q) (type : SubsidyType.t) (limitUnits : Q) :
  0 <= units ->
  let r := Engine.applySubsidy units (SubsidyConfig.mk type limitUnits) in
  match type with
  | SubsidyType.none =>
      Engine.split_billableUnits r == units
      /\ Engine.split_subsidizedUnits r == 0
      /\ Engine.split_remainingSubsidyUnits r == 0
  | SubsidyType.government | SubsidyType.company =>
      Engine.split_subsidizedUnits r + Engine.split_billableUnits r == units
      /\ Engine.split_billableUnits r == Qmax 0 (units - limitUnits)
      /\ Engine.split_subsidizedUnits r == Qmin units limitUnits
      /\ Engine.split_remainingSubsidyUnits r == Qmax 0 (limitUnits - units)
  end.
Proof.
  intros _. destruct type; cbv zeta; unfold Engine.applySubsidy; simpl;
    repeat split; try reflexivity;
    destruct (Q.min_spec units limitUnits) as [[H1 H2]|[H1 H2]];
    destruct (Q.max_spec 0 (units - limitUnits)) as [[H3 H4]|[H3 H4]];
    rewrite H2, H4; lra.
Qed.

(** 250 units under a government subsidy of 100: 100 subsidized, 150
    billable, nothing left of the subsidy. *)
Lemma applySubsidy_split_witness :
  0 <= 250
  /\ Engine.split_subsidizedUnits (Engine.applySubsidy 250 Sample.government100)
     + Engine.split_billableUnits (Engine.applySubsidy 250 Sample.government100)
     == 250.
Proof.
  split; [discriminate|].
  apply (applySubsidy_split 250 SubsidyType.government 100). discriminate.
Defined.

Lemma nonNegative_Ok (x : Q) : 0 <= x -> Engine.nonNegative x = Engine.Ok tt.
Proof.
  intros H. unfold Engine.nonNegative.
  apply Qle_bool_iff in H. now rewrite H.
Qed.

Lemma standard_units_Ok {config : Engine.Config}
  (a : Appliance.t) (season : Season.t) :
  Appliance.inputMode a = EnergyMode.standard ->
  0 <= Appliance.watts a -> 0 <= Appliance.hoursPerDay a ->
  0 <= Appliance.daysPerMonth a -> 0 <= Appliance.quantity a ->
  Engine.computeMonthlyUnits a season
  = Engine.Ok
      (Engine.seasonallyAdjusted (Engine.isCoolingOrHeating (Appliance.category a))
         season
         (Appliance.watts a * Appliance.hoursPerDay a * Appliance.daysPerMonth a
          * Appliance.quantity a / 1000)).
Proof.
  intros Hmode Hw Hh Hd Hq. unfold Engine.computeMonthlyUnits.
  rewrite Hmode, !nonNegative_Ok by assumption. reflexivity.
Qed.

(** C7, as the engine is specified.  A [standard]-mode appliance with non-negative watts, hours per
    day, days per month and quantity has
    [watts * hoursPerDay * daysPerMonth * quantity / 1000] monthly units,
    times the seasonal multiplier exactly when its category is cooling or
    heating; for electronics, lighting and motor the units are the same in
    every season.  At 1000 W, 5 hours, 30 days, quantity 1 and a summer
    multiplier of 1.2 that is 180 units for cooling (and heating) and 150
    for electronics, lighting and motor. *)
Theorem computeMonthlyUnits_standard {config : Engine.Config}
  (a : Appliance.t) (season : Season.t) :
  Appliance.inputMode a = EnergyMode.standard ->
  0 <= Appliance.watts a -> 0 <= Appliance.hoursPerDay a ->
  0 <= Appliance.daysPerMonth a -> 0 <= Appliance.quantity a ->
  let base := Appliance.watts a * Appliance.hoursPerDay a
              * Appliance.daysPerMonth a * Appliance.quantity a / 1000 in
  exists u,
    Engine.computeMonthlyUnits a season = Engine.Ok u
    /\ match Appliance.category a with
       | ApplianceCategory.cooling | ApplianceCategory.heating =>
           u == base * Engine.seasonalMultiplier season
       | ApplianceCategory.electronics | ApplianceCategory.lighting
       | ApplianceCategory.motor =>
           u == base
           /\ forall season', Engine.computeMonthlyUnits a season' = Engine.Ok u
       end
    /\ (Appliance.watts a == 1000 -> Appliance.hoursPerDay a == 5 ->
        Appliance.daysPerMonth a == 30 -> Appliance.quantity a == 1 ->
        season = Season.summer ->
        Engine.seasonalMultiplier Season.summer == 1.2 ->
        u == match Appliance.category a with
             | ApplianceCategory.cooling | ApplianceCategory.heating => 180
             | _ => 150
             end).
Proof.
  intros Hmode Hw Hh Hd Hq base.
  eexists. split; [now apply standard_units_Ok|].
  fold base. split.
  - destruct (Appliance.category a) eqn:E; simpl; try reflexivity;
      (split; [reflexivity|]); intros season';
      rewrite standard_units_Ok by assumption;
      rewrite E; reflexivity.
  - intros H1 H2 H3 H4 -> Hsummer. subst base.
    destruct (Appliance.category a); simpl;
      rewrite ?Hsummer, H1, H2, H3, H4; reflexivity.
Qed.

(** The example of the specification: 180 units for the cooling appliance
    in summer, 150 for the same appliance in the lighting category. *)
Lemma computeMonthlyUnits_standard_witness :
  (Appliance.inputMode (Sample.kilowatt ApplianceCategory.cooling)
   = EnergyMode.standard
   /\ 0 <= Appliance.watts (Sample.kilowatt ApplianceCategory.cooling)
   /\ 0 <= Appliance.hoursPerDay (Sample.kilowatt ApplianceCategory.cooling)
   /\ 0 <= Appliance.daysPerMonth (Sample.kilowatt ApplianceCategory.cooling)
   /\ 0 <= Appliance.quantity (Sample.kilowatt ApplianceCategory.cooling))
  /\ (exists u,
        Engine.computeMonthlyUnits (config := Sample.config)
          (Sample.kilowatt ApplianceCategory.cooling) Season.summer = Engine.Ok u
        /\ u == 180)
  /\ (exists u,
        Engine.computeMonthlyUnits (config := Sample.config)
          (Sample.kilowatt ApplianceCategory.lighting) Season.summer = Engine.Ok u
        /\ u == 150).
Proof.
  split; [repeat split; discriminate|].
  split.
  - destruct (computeMonthlyUnits_standard (config := Sample.config)
                (Sample.kilowatt ApplianceCategory.cooling) Season.summer
                eq_refl ltac:(discriminate) ltac:(discriminate)
                ltac:(discriminate) ltac:(discriminate))
      as (u & Hu & _ & Hexample).
    exists u. split; [exact Hu|]. apply Hexample; reflexivity.
  - destruct (computeMonthlyUnits_standard (config := Sample.config)
                (Sample.kilowatt ApplianceCategory.lighting) Season.summer
                eq_refl ltac:(discriminate) ltac:(discriminate)
                ltac:(discriminate) ltac:(discriminate))
      as (u & Hu & _ & Hexample).
    exists u. split; [exact Hu|]. apply Hexample; reflexivity.
Defined.

(** C7 as stated fails on its example: heating is a category other than
    cooling, the multiplier applies to it, and the appliance of the example
    in that category has 180 units in summer, not 150. *)
Lemma computeMonthlyUnits_heating_counterexample :
  Appliance.category (Sample.kilowatt ApplianceCategory.heating)
    <> ApplianceCategory.cooling
  /\ Engine.seasonalMultiplier (Config := Sample.config) Season.summer == 1.2
  /\ exists u,
       Engine.computeMonthlyUnits (config := Sample.config)
         (Sample.kilowatt ApplianceCategory.heating) Season.summer = Engine.Ok u
       /\ u == 180
       /\ ~ u == 150.
Proof.
  split; [discriminate|]. split; [reflexivity|].
  eexists. split; [reflexivity|].
  split; [reflexivity | vm_compute; discriminate].
Qed.

Lemma validSlabs_min (lo : Q) (slabs : list TariffSlab.t) :
  Engine.validSlabs lo slabs = true ->
  Forall (fun s => 0 <= TariffSlab.min s) slabs.
Proof.
  revert lo. induction slabs as [|s rest IH]; intros lo H; [constructor|].
  simpl in H. apply andb_prop in H. destruct H as [H Hrest].
  apply andb_prop in H. destruct H as [H _].
  apply andb_prop in H. destruct H as [Hmin Hlo].
  apply Qeq_bool_iff in Hmin. apply Qle_bool_iff in Hlo.
  constructor; [now rewrite Hmin|].
  destruct (TariffSlab.max s) as [hi|], rest as [|s' rest'];
    try discriminate; [|constructor].
  apply andb_prop in Hrest. destruct Hrest as [_ Hrest].
  now apply (IH hi).
Qed.

(** No units reach a slab that starts at or above zero. *)
Lemma slabQuantity_none (units : Q) (s : TariffSlab.t) :
  units <= 0 -> 0 <= TariffSlab.min s -> Engine.slabQuantity units s == 0.
Proof.
  intros Hu Hmin. unfold Engine.slabQuantity.
  apply Q.max_l.
  destruct (TariffSlab.max s) as [hi|].
  - pose proof (Q.le_min_l units hi). lra.
  - lra.
Qed.

Lemma energyCost_none (units : Q) (slabs : list TariffSlab.t) :
  units <= 0 -> Forall (fun s => 0 <= TariffSlab.min s) slabs ->
  sumQ (map SlabCharge.cost (map (Engine.slabCharge units) slabs)) == 0.
Proof.
  intros Hu Hall. induction Hall as [|s rest Hs _ IH]; simpl; [reflexivity|].
  rewrite IH, slabQuantity_none by assumption. ring.
Qed.

(** The fixed charge is due with no units billed. *)
Lemma calculateProgressiveBill_none (units : Q) (tariff : StateTariff.t) :
  units <= 0 -> Engine.validTariff tariff = true ->
  ProgressiveBill.total (Engine.calculateProgressiveBill units tariff)
  == StateTariff.fixedCharge tariff.
Proof.
  intros Hu Hvalid. unfold Engine.calculateProgressiveBill. simpl.
  rewrite energyCost_none; [ring | exact Hu |].
  unfold Engine.validTariff in Hvalid.
  apply andb_prop in Hvalid. destruct Hvalid as [_ Hslabs].
  destruct (StateTariff.slabs tariff) as [|s rest]; [discriminate|].
  exact (validSlabs_min _ _ Hslabs).
Qed.

(** C8.  For a valid tariff, [getFullCalculation] on an empty appliance
    list, with solar not installed and subsidy type [none], in any season,
    returns a result, not an error, with [totalUnits] 0 and [totalCost] the
    tariff's fixed charge. *)
Theorem getFullCalculation_empty {config : Engine.Config}
  (tariff : StateTariff.t) (ratingKw limitUnits : Q) (season : Season.t) :
  Engine.validTariff tariff = true ->
  exists r,
    Engine.getFullCalculation [] tariff
      (SolarConfig.mk false ratingKw)
      (SubsidyConfig.mk SubsidyType.none limitUnits) season = Engine.Ok r
    /\ Engine.totalUnits r == 0
    /\ Engine.totalCost r == StateTariff.fixedCharge tariff.
Proof.
  intros Hvalid. unfold Engine.getFullCalculation. rewrite Hvalid.
  destruct season; simpl; eexists; (split; [reflexivity|]); simpl;
    (split; [reflexivity|]);
    apply calculateProgressiveBill_none; try assumption;
    apply Qle_lteq; right; reflexivity.
Qed.

(** The sample tariff is valid; the empty household owes its fixed charge
    of 50. *)
Lemma getFullCalculation_empty_witness :
  Engine.validTariff Sample.tariff = true
  /\ exists r,
       Engine.getFullCalculation (config := Sample.config) [] Sample.tariff
         (SolarConfig.mk false 3) Sample.noSubsidy Season.summer = Engine.Ok r
       /\ Engine.totalUnits r == 0
       /\ Engine.totalCost r == 50.
Proof.
  split; [reflexivity|].
  apply (getFullCalculation_empty (config := Sample.config) Sample.tariff 3 0
           Season.summer).
  reflexivity.
Defined.

(* ================================================================== *)
(** * The scenarios of the specification, run                          *)
(* ================================================================== *)

(** Ten logged days of 8 units in a 30-day month: 80 units so far, 8 a day,
    240 projected. *)
Example tenDays_projection :
  totalUnits (monthLogs Sample.tenDays "2024-04") == 80
  /\ avgUnitsPerDay (calculator := Sample.calculator)
       (monthLogs Sample.tenDays "2024-04") [] Season.summer == 8
  /\ MonthlyUsageSummary.projectedUnits
       (summary (calculator := Sample.calculator)
          (monthLogs Sample.tenDays "2024-04") Sample.tariff [] 30 "2024-04"
          Sample.government100 Season.summer) == 240.
Proof. repeat split. Qed.

(** 250 billable units on the sample tariff: 100 at 3 and 150 at 5, plus
    the fixed charge of 50. *)
Example sample_bill :
  ProgressiveBill.energyCost (Engine.calculateProgressiveBill 250 Sample.tariff)
  == 1050
  /\ ProgressiveBill.total (Engine.calculateProgressiveBill 250 Sample.tariff)
     == 1100.
Proof. split; reflexivity. Qed.

(** The sort of [monthLogs] puts the three days of March in date order. *)
Example threeDays_sorted :
  map UserDailyUsage.date (monthLogs Sample.threeDays "2024-03")
  = ["2024-03-01"; "2024-03-02"; "2024-03-05"].
Proof. reflexivity. Qed.

(** The first six days of March under a limit of 100 units. *)
Example threeDays_statuses :
  map CalendarDay.status
    (calendarDays (runtime := Sample.isoDates) Sample.march15 "2024-03" 6
       (monthLogs Sample.threeDays "2024-03") Sample.government100)
  = [ DayStatus.safe; DayStatus.warning; DayStatus.none; DayStatus.none;
      DayStatus.critical; DayStatus.none ].
Proof. reflexivity. Qed.

(** An appliance in [iseer] mode without its ISEER value is rejected. *)
Example iseer_missing :
  Engine.computeMonthlyUnits (config := Sample.config)
    {| Appliance.id := "ac"; Appliance.name := "AC";
       Appliance.category := ApplianceCategory.cooling;
       Appliance.type := "ac"; Appliance.watts := 1500;
       Appliance.hoursPerDay := 8; Appliance.daysPerMonth := 30;
       Appliance.quantity := 1; Appliance.inputMode := EnergyMode.iseer;
       Appliance.acType := Some ACType.inverter;
       Appliance.annualUnits := None; Appliance.capacityTon := Some 1.5;
       Appliance.iseer := None; Appliance.eer := None;
       Appliance.starRating := None; Appliance.icon := "" |}
    Season.summer
  = Engine.Err Engine.ValidationError.
Proof. reflexivity. Qed.

(* ================================================================== *)
(** * Insert-or-replace by key                                         *)
(* ================================================================== *)

Lemma find_app {X : Type} (p : X -> bool) (l1 l2 : list X) :
  find p (l1 ++ l2) = match find p l1 with
                      | Some a => Some a
                      | None => find p l2
                      end.
Proof.
  induction l1 as [|a l1 IH]; simpl; [reflexivity|].
  now destruct (p a).
Qed.

Lemma removelast_map {X Y : Type} (f : X -> Y) (l : list X) :
  removelast (map f l) = map f (removelast l).
Proof.
  induction l as [|a l IH]; simpl; [reflexivity|].
  destruct l as [|b l]; simpl in *; [reflexivity|].
  now rewrite IH.
Qed.

Section Upsert.

Context {X : Type} (key : X -> string) (x : X).

Let same (y : X) : bool := String.eqb (key y) (key x).
Let repl (y : X) : X := if same y then x else y.

Lemma same_self : same x = true.
Proof. apply String.eqb_refl. Qed.

Lemma upsertBy_cases (prev : list X) :
  (existsb same prev = true /\ upsertBy key x prev = map repl prev)
  \/ (existsb same prev = false /\ upsertBy key x prev = (prev ++ [x])%list).
Proof.
  unfold upsertBy. change (fun y : X => String.eqb (key y) (key x)) with same.
  assert (H : existsb same prev
              = match find same prev with Some _ => true | None => false end).
  { induction prev as [|y l IH]; [reflexivity|].
    cbn [existsb find]. now destruct (same y). }
  rewrite H. destruct (find same prev); [left | right]; split; reflexivity.
Qed.

Lemma existsb_same_In (l : list X) :
  existsb same l = true <-> In (key x) (map key l).
Proof.
  induction l as [|y l IH]; cbn [existsb map In]; [split; [discriminate | tauto]|].
  rewrite orb_true_iff, IH. unfold same.
  split; (intros [H|H]; [left | now right]).
  - now apply String.eqb_eq in H.
  - now apply String.eqb_eq.
Qed.

Lemma repl_same (y : X) : same y = true -> repl y = x.
Proof. intros H. unfold repl. now rewrite H. Qed.

Lemma repl_other (y : X) : same y = false -> repl y = y.
Proof. intros H. unfold repl. now rewrite H. Qed.

Lemma find_same_repl (l : list X) :
  find same (map repl l) = if existsb same l then Some x else None.
Proof.
  induction l as [|y l IH]; [reflexivity|].
  cbn [map find existsb].
  destruct (same y) eqn:E; cbn [orb].
  - now rewrite (repl_same y E), same_self.
  - now rewrite (repl_other y E), E.
Qed.

(** Looking the key of [x] up after the insert-or-replace finds [x]. *)
Lemma findBy_upsertBy_same (prev : list X) :
  findBy key (key x) (upsertBy key x prev) = Some x.
Proof.
  unfold findBy. change (fun y : X => String.eqb (key y) (key x)) with same.
  destruct (upsertBy_cases prev) as [[He ->]|[He ->]].
  - now rewrite find_same_repl, He.
  - rewrite find_app.
    assert (Hn : find same prev = None).
    { induction prev as [|y l IH]; [reflexivity|].
      cbn [existsb find] in *. destruct (same y); [discriminate|]. now apply IH. }
    rewrite Hn. cbn [find]. now rewrite same_self.
Qed.

(** Another key finds what it found before. *)
Lemma findBy_upsertBy_other (k : string) (prev : list X) :
  k <> key x ->
  findBy key k (upsertBy key x prev) = findBy key k prev.
Proof.
  intros Hk. unfold findBy.
  assert (Hx : String.eqb (key x) k = false)
    by (apply String.eqb_neq; congruence).
  destruct (upsertBy_cases prev) as [[_ ->]|[_ ->]].
  - induction prev as [|y l IH]; [reflexivity|].
    cbn [map find].
    destruct (same y) eqn:E.
    + rewrite (repl_same y E), Hx.
      apply String.eqb_eq in E. rewrite E, Hx. exact IH.
    + rewrite (repl_other y E).
      destruct (String.eqb (key y) k); [reflexivity | exact IH].
  - rewrite find_app. destruct (find _ prev); [reflexivity|].
    cbn [find]. now rewrite Hx.
Qed.

Lemma repl_absent (l : list X) :
  existsb same l = false -> map repl l = l.
Proof.
  induction l as [|y l IH]; [reflexivity|].
  cbn [map existsb]. intros H. apply orb_false_iff in H. destruct H as [Hy Hl].
  now rewrite (repl_other y Hy), IH.
Qed.

Lemma repl_repl (l : list X) : map repl (map repl l) = map repl l.
Proof.
  rewrite map_map. apply map_ext. intros y.
  destruct (same y) eqn:E.
  - rewrite (repl_same y E). apply repl_same, same_self.
  - rewrite (repl_other y E). now apply repl_other.
Qed.

Lemma existsb_same_upsertBy (prev : list X) :
  existsb same (upsertBy key x prev) = true.
Proof.
  apply existsb_exists. exists x. split; [|apply same_self].
  pose proof (findBy_upsertBy_same prev) as H.
  apply find_some in H. tauto.
Qed.

Lemma upsertBy_idempotent (prev : list X) :
  upsertBy key x (upsertBy key x prev) = upsertBy key x prev.
Proof.
  destruct (upsertBy_cases (upsertBy key x prev)) as [[_ ->]|[He _]].
  - destruct (upsertBy_cases prev) as [[_ ->]|[He ->]].
    + apply repl_repl.
    + rewrite map_app, (repl_absent _ He). cbn [map].
      now rewrite (repl_same x same_self).
  - rewrite existsb_same_upsertBy in He. discriminate.
Qed.

Lemma upsertBy_length (prev : list X) :
  List.length (upsertBy key x prev)
  = if existsb same prev then List.length prev else S (List.length prev).
Proof.
  destruct (upsertBy_cases prev) as [[-> ->]|[-> ->]].
  - apply length_map.
  - rewrite length_app. simpl. lia.
Qed.

(** With distinct keys the replacement changes one element. *)
Lemma upsertBy_present (prev : list X) :
  NoDup (map key prev) -> In (key x) (map key prev) ->
  exists before old after,
    prev = (before ++ old :: after)%list
    /\ key old = key x
    /\ upsertBy key x prev = (before ++ x :: after)%list.
Proof.
  intros Hnd Hin.
  destruct (upsertBy_cases prev) as [[_ ->]|[He _]].
  2:{ apply existsb_same_In in Hin. congruence. }
  induction prev as [|y l IH]; cbn [map In] in *; [contradiction|].
  apply NoDup_cons_iff in Hnd. destruct Hnd as [Hy Hnd].
  destruct (same y) eqn:E.
  - exists [], y, l. rewrite (repl_same y E).
    apply String.eqb_eq in E.
    repeat split; [exact E|].
    cbn [app]. f_equal. apply repl_absent.
    destruct (existsb same l) eqn:El; [|reflexivity].
    apply existsb_same_In in El. rewrite <- E in El. contradiction.
  - rewrite (repl_other y E).
    destruct Hin as [Hin|Hin].
    { unfold same in E. apply String.eqb_neq in E. contradiction. }
    destruct (IH Hnd Hin) as (before & old & after & Hprev & Hold & Hmap).
    exists (y :: before), old, after. repeat split.
    + cbn [app]. now rewrite Hprev.
    + exact Hold.
    + cbn [app]. now rewrite Hmap.
Qed.

Lemma upsertBy_absent (prev : list X) :
  ~ In (key x) (map key prev) -> upsertBy key x prev = (prev ++ [x])%list.
Proof.
  intros H.
  destruct (upsertBy_cases prev) as [[He _]|[_ ->]]; [|reflexivity].
  apply existsb_same_In in He. contradiction.
Qed.

Lemma upsertBy_NoDup (prev : list X) :
  NoDup (map key prev) -> NoDup (map key (upsertBy key x prev)).
Proof.
  intros Hnd.
  destruct (in_dec string_dec (key x) (map key prev)) as [Hin|Hin].
  - destruct (upsertBy_present prev Hnd Hin)
      as (before & old & after & H1 & H2 & H3).
    rewrite H3. rewrite H1 in Hnd. rewrite map_app in *. cbn [map] in *.
    now rewrite <- H2.
  - rewrite (upsertBy_absent prev Hin), map_app. cbn [map].
    apply (Permutation_NoDup (Permutation_cons_append _ _)).
    now constructor.
Qed.

End Upsert.

Lemma handleSaveLog_upsertBy (log : UserDailyUsage.t) (prev : list UserDailyUsage.t) :
  handleSaveLog log prev = upsertBy UserDailyUsage.date log prev.
Proof. reflexivity. Qed.

Lemma handleAddAppliance_upsertBy (app : Appliance.t) (prev : list Appliance.t) :
  handleAddAppliance app prev = upsertBy Appliance.id app prev.
Proof. reflexivity. Qed.

Lemma existsb_find {X : Type} (p : X -> bool) (l : list X) :
  existsb p l = match find p l with Some _ => true | None => false end.
Proof.
  induction l as [|y l IH]; [reflexivity|].
  cbn [existsb find]. now destruct (p y).
Qed.

Lemma find_None_In {X : Type} (key : X -> string) (k : string) (l : list X) :
  findBy key k l = None <-> ~ In k (map key l).
Proof.
  unfold findBy. induction l as [|y l IH]; cbn [find map In]; [tauto|].
  destruct (String.eqb_spec (key y) k) as [E|E].
  - split; [discriminate | intros H; exfalso; apply H; now left].
  - rewrite IH. tauto.
Qed.

(* ================================================================== *)
(** * More facts about the daily-log store (App.tsx)                   *)
(* ================================================================== *)

(** X1.  After [handleSaveLog], looking the saved date up (as the day
    editor's [existingLog] does) finds the saved log, whatever was stored
    before; every other date finds what it found before. *)
Theorem handleSaveLog_existingLog (log : UserDailyUsage.t)
  (prev : list UserDailyUsage.t) :
  existingLog (handleSaveLog log prev) (UserDailyUsage.date log) = Some log
  /\ forall d, d <> UserDailyUsage.date log ->
       existingLog (handleSaveLog log prev) d = existingLog prev d.
Proof.
  rewrite handleSaveLog_upsertBy. split.
  - apply (findBy_upsertBy_same UserDailyUsage.date).
  - intros d Hd. now apply (findBy_upsertBy_other UserDailyUsage.date).
Qed.

(** X2.  Saving the same log twice is saving it once; a save leaves the
    number of stored logs as it is when the date was stored already and
    adds one otherwise. *)
Theorem handleSaveLog_idempotent (log : UserDailyUsage.t)
  (prev : list UserDailyUsage.t) :
  handleSaveLog log (handleSaveLog log prev) = handleSaveLog log prev
  /\ List.length (handleSaveLog log prev)
     = match existingLog prev (UserDailyUsage.date log) with
       | Some _ => List.length prev
       | None => S (List.length prev)
       end.
Proof.
  split.
  - rewrite !handleSaveLog_upsertBy. apply upsertBy_idempotent.
  - rewrite handleSaveLog_upsertBy, upsertBy_length, existsb_find.
    unfold existingLog. now destruct (find _ prev).
Qed.

(** X3.  [handleUndoLast] drops the last stored log, and nothing from an
    empty store.  Right after saving a log for a new date it restores the
    store; after saving over a date that is stored before the last entry it
    commutes with the save, so that it removes the last stored day and keeps
    the edit. *)
Theorem handleUndoLast_after_save (log : UserDailyUsage.t)
  (prev : list UserDailyUsage.t) :
  handleUndoLast [] = []
  /\ (existingLog prev (UserDailyUsage.date log) = None ->
      handleUndoLast (handleSaveLog log prev) = prev)
  /\ (existingLog (handleUndoLast prev) (UserDailyUsage.date log) <> None ->
      handleUndoLast (handleSaveLog log prev)
      = handleSaveLog log (handleUndoLast prev)
      /\ List.length (handleUndoLast (handleSaveLog log prev))
         = (List.length prev - 1)%nat).
Proof.
  split; [reflexivity|]. split.
  - intros Hnone. apply find_None_In in Hnone.
    rewrite handleSaveLog_upsertBy, (upsertBy_absent _ _ _ Hnone).
    apply removelast_last.
  - intros Hsome. unfold handleUndoLast, existingLog in *.
    assert (Hrest : exists found,
              find (fun l => String.eqb (UserDailyUsage.date l)
                               (UserDailyUsage.date log)) (removelast prev)
              = Some found).
    { destruct (find _ (removelast prev)) as [f|]; [now exists f | congruence]. }
    destruct Hrest as [found Hfound].
    assert (Hprev : exists found',
              find (fun l => String.eqb (UserDailyUsage.date l)
                               (UserDailyUsage.date log)) prev = Some found').
    { destruct prev as [|a l] using rev_ind; [discriminate|].
      rewrite removelast_last in Hfound. rewrite find_app, Hfound.
      now exists found. }
    destruct Hprev as [found' Hfound'].
    unfold handleSaveLog. rewrite Hfound, Hfound'.
    split; [apply removelast_map|].
    rewrite removelast_map, length_map, removelast_firstn_len, length_firstn.
    lia.
Qed.

(** Saving 25 units for the new date 5 March and undoing restores the
    store; saving 65 units over 2 March, stored first of three, and undoing
    removes 5 March and keeps the 65 units. *)
Lemma handleUndoLast_after_save_witness :
  (existingLog Sample.oneDay (UserDailyUsage.date (Sample.logOn "2024-03-05" 25))
   = None
   /\ handleUndoLast (handleSaveLog (Sample.logOn "2024-03-05" 25) Sample.oneDay)
      = Sample.oneDay)
  /\ (existingLog (handleUndoLast Sample.threeDays)
        (UserDailyUsage.date (Sample.logOn "2024-03-02" 65)) <> None
      /\ handleUndoLast (handleSaveLog (Sample.logOn "2024-03-02" 65)
                           Sample.threeDays)
         = [ Sample.logOn "2024-03-02" 65; Sample.logOn "2024-03-01" 30 ]).
Proof.
  split.
  - split; [reflexivity|].
    apply (handleUndoLast_after_save (Sample.logOn "2024-03-05" 25) Sample.oneDay).
    reflexivity.
  - assert (H : existingLog (handleUndoLast Sample.threeDays)
                  (UserDailyUsage.date (Sample.logOn "2024-03-02" 65)) <> None)
      by discriminate.
    split; [exact H|].
    destruct (handleUndoLast_after_save (Sample.logOn "2024-03-02" 65)
                Sample.threeDays) as (_ & _ & Hedit).
    destruct (Hedit H) as [Heq _]. rewrite Heq. reflexivity.
Defined.






(* ================================================================== *)
(** * Facts about the inventory and the history (App.tsx)              *)
(* ================================================================== *)

(** X5.  On an inventory with pairwise distinct ids [handleAddAppliance]
    keeps the ids distinct: an appliance whose id is stored takes the place
    of the stored one, the others staying where they are; an appliance with
    a new id goes to the end.  Either way the inventory then holds the
    appliance under its id. *)
Theorem handleAddAppliance_distinctIds (app : Appliance.t)
  (prev : list Appliance.t) :
  distinctIds prev ->
  distinctIds (handleAddAppliance app prev)
  /\ (In (Appliance.id app) (map Appliance.id prev) ->
      exists before old after,
        prev = (before ++ old :: after)%list
        /\ Appliance.id old = Appliance.id app
        /\ handleAddAppliance app prev = (before ++ app :: after)%list)
  /\ (~ In (Appliance.id app) (map Appliance.id prev) ->
      handleAddAppliance app prev = (prev ++ [app])%list)
  /\ findBy Appliance.id (Appliance.id app) (handleAddAppliance app prev)
     = Some app.
Proof.
  intros Hnd. rewrite handleAddAppliance_upsertBy.
  split; [now apply upsertBy_NoDup|].
  split; [now apply upsertBy_present|].
  split; [apply upsertBy_absent | apply findBy_upsertBy_same].
Qed.

Lemma filter_other_key {X : Type} (key : X -> string) (k : string) (l : list X) :
  ~ In k (map key l) ->
  filter (fun y => negb (String.eqb (key y) k)) l = l.
Proof.
  induction l as [|y l IH]; cbn [map In filter]; intros H; [reflexivity|].
  destruct (String.eqb_spec (key y) k) as [E|E]; [tauto|].
  cbn [negb]. rewrite IH by tauto. reflexivity.
Qed.

Lemma filter_upsertBy {X : Type} (key : X -> string) (x : X) (prev : list X) :
  filter (fun y => negb (String.eqb (key y) (key x))) (upsertBy key x prev)
  = filter (fun y => negb (String.eqb (key y) (key x))) prev.
Proof.
  destruct (upsertBy_cases key x prev) as [[_ ->]|[_ ->]].
  - induction prev as [|y l IH]; [reflexivity|].
    cbn [map filter].
    destruct (String.eqb_spec (key y) (key x)) as [E|E].
    + rewrite String.eqb_refl. exact IH.
    + apply String.eqb_neq in E. rewrite E. cbn [negb]. now rewrite IH.
  - rewrite filter_app. cbn [filter]. rewrite String.eqb_refl. cbn [negb].
    apply app_nil_r.
Qed.

Lemma findBy_filter_same {X : Type} (key : X -> string) (k : string) (l : list X) :
  findBy key k (filter (fun y => negb (String.eqb (key y) k)) l) = None.
Proof.
  apply find_None_In. intros H. apply in_map_iff in H.
  destruct H as (y & Hy & Hin). apply filter_In in Hin.
  destruct Hin as [_ Hneq]. rewrite Hy, String.eqb_refl in Hneq. discriminate.
Qed.

Lemma findBy_filter_other {X : Type} (key : X -> string) (k k' : string)
  (l : list X) :
  k' <> k ->
  findBy key k' (filter (fun y => negb (String.eqb (key y) k)) l)
  = findBy key k' l.
Proof.
  intros Hk. unfold findBy. induction l as [|y l IH]; [reflexivity|].
  cbn [filter find].
  destruct (String.eqb_spec (key y) k) as [E|E]; cbn [negb find].
  - destruct (String.eqb_spec (key y) k'); [congruence | exact IH].
  - now rewrite IH.
Qed.

(** X6.  [handleDeleteAppliance] leaves no appliance of the deleted id and
    does not touch the lookup of any other id.  Deleting the id of an
    appliance just added gives the inventory without that id: the inventory
    as it was when the appliance was new. *)
Theorem handleDeleteAppliance_after_add (app : Appliance.t)
  (prev : list Appliance.t) :
  (forall id, findBy Appliance.id id (handleDeleteAppliance id prev) = None)
  /\ (forall id id', id' <> id ->
        findBy Appliance.id id' (handleDeleteAppliance id prev)
        = findBy Appliance.id id' prev)
  /\ handleDeleteAppliance (Appliance.id app) (handleAddAppliance app prev)
     = handleDeleteAppliance (Appliance.id app) prev
  /\ (~ In (Appliance.id app) (map Appliance.id prev) ->
      handleDeleteAppliance (Appliance.id app) (handleAddAppliance app prev)
      = prev).
Proof.
  unfold handleDeleteAppliance. rewrite handleAddAppliance_upsertBy.
  split; [intros id; apply findBy_filter_same|].
  split; [intros id id' H; now apply findBy_filter_other|].
  split; [apply (filter_upsertBy Appliance.id)|].
  intros H. rewrite (filter_upsertBy Appliance.id).
  now apply filter_other_key.
Qed.

Lemma toStringZ_inj (a b : Z) : toStringZ a = toStringZ b -> a = b.
Proof.
  unfold toStringZ. intros H.
  apply (f_equal NilEmpty.int_of_string) in H. rewrite !NilEmpty.isi in H.
  injection H as H. apply (f_equal Z.of_int) in H.
  now rewrite !DecimalZ.of_to in H.
Qed.

Lemma historyId_inj (a b : Z) : historyId a = historyId b -> a = b.
Proof.
  unfold historyId. intros H. cbn in H.
  injection H as H. now apply toStringZ_inj.
Qed.

(** X7.  The ids [handleSaveForecast] gives are distinct for distinct
    readings of the clock.  If no stored entry carries the id of the
    reading, deleting that id right after the save gives the history back;
    but two forecasts saved on the same reading share their id, and deleting
    it removes both. *)
Theorem handleSaveForecast_delete (idNow timestampNow : Z)
  (resultUnits resultCost : Q) (stateTariff : StateTariff.t)
  (prev : list HistoricalEntry.t) :
  (forall other, historyId idNow = historyId other -> idNow = other)
  /\ (~ In (historyId idNow) (map HistoricalEntry.id prev) ->
      deleteHistoryEntry (historyId idNow)
        (handleSaveForecast idNow timestampNow resultUnits resultCost
           stateTariff prev) = prev)
  /\ (forall timestampNow' resultUnits' resultCost' stateTariff',
        deleteHistoryEntry (historyId idNow)
          (handleSaveForecast idNow timestampNow' resultUnits' resultCost'
             stateTariff'
             (handleSaveForecast idNow timestampNow resultUnits resultCost
                stateTariff prev))
        = deleteHistoryEntry (historyId idNow) prev).
Proof.
  split; [intros other; apply historyId_inj|].
  unfold deleteHistoryEntry, handleSaveForecast. split.
  - intros H. cbn [filter HistoricalEntry.id].
    rewrite String.eqb_refl. cbn [negb].
    now apply (filter_other_key HistoricalEntry.id).
  - intros ts' u' c' tariff'. cbn [filter HistoricalEntry.id].
    rewrite String.eqb_refl. reflexivity.
Qed.

(* ================================================================== *)
(** * Facts about the translation lookup                               *)
(* ================================================================== *)

Lemma orElse_text (s : string) (b : JsValue.t) :
  s <> "" -> I18n.orElse (JsValue.text s) b = JsValue.text s.
Proof. intros Hs. now destruct s. Qed.

(** X8.  [t(key)] is the text of the key in the chosen language when that
    text exists and is not empty; a member the table inherits from
    [Object.prototype] under that key, a function or an object, when the
    table has no text of its own for it; else the English table is looked
    up the same way; else the key itself.  For a key that no plain object
    inherits, [t(key)] is a text, and a non-empty one when the key is not
    empty; [t('constructor')] is a text only if a table has it as its
    own key. *)
Theorem t_fallback {tr : Translations} (lang : Language.t) (key : string) :
  let falsy := fun v => v = JsValue.undefined \/ v = JsValue.text "" in
  (forall s, I18n.entry lang key = JsValue.text s -> s <> "" ->
     I18n.t lang key = JsValue.text s)
  /\ (I18n.entry lang key = JsValue.inherited key ->
      I18n.t lang key = JsValue.inherited key)
  /\ (forall s, falsy (I18n.entry lang key) ->
        I18n.entry Language.en key = JsValue.text s -> s <> "" ->
        I18n.t lang key = JsValue.text s)
  /\ (falsy (I18n.entry lang key) ->
      I18n.entry Language.en key = JsValue.inherited key ->
      I18n.t lang key = JsValue.inherited key)
  /\ (falsy (I18n.entry lang key) -> falsy (I18n.entry Language.en key) ->
      I18n.t lang key = JsValue.text key)
  /\ (~ In key I18n.Object_prototype ->
      exists s, I18n.t lang key = JsValue.text s /\ (key <> "" -> s <> ""))
  /\ (forall table, translations lang = Some table ->
        table "constructor" = None ->
        I18n.t lang "constructor" = JsValue.inherited "constructor").
Proof.
  cbv zeta. unfold I18n.t.
  split; [|split; [|split; [|split; [|split; [|split]]]]].
  - intros s -> Hs. now apply orElse_text.
  - intros ->. reflexivity.
  - intros s [->| ->] -> Hs; cbn [I18n.orElse]; now apply orElse_text.
  - intros [->| ->] ->; reflexivity.
  - intros [->| ->] [->| ->]; reflexivity.
  - intros Hkey.
    assert (Hown : forall l,
              (exists s, I18n.entry l key = JsValue.text s)
              \/ I18n.entry l key = JsValue.undefined).
    { intros l. unfold I18n.entry. destruct (translations l) as [table|];
        [|now right].
      unfold I18n.get. destruct (table key) as [s|]; [left; now exists s|].
      destruct (existsb (String.eqb key) I18n.Object_prototype) eqn:E;
        [|now right].
      exfalso. apply Hkey. apply existsb_exists in E.
      destruct E as (k & Hk & E). apply String.eqb_eq in E. now subst k. }
    destruct (Hown lang) as [[s ->]| ->], (Hown Language.en) as [[s' ->]| ->];
      cbn [I18n.orElse].
    + destruct s as [|c s]; [destruct s' as [|c' s']|].
      * exists key. now split.
      * eexists. split; [reflexivity | discriminate].
      * eexists. split; [reflexivity | discriminate].
    + destruct s as [|c s].
      * exists key. now split.
      * eexists. split; [reflexivity | discriminate].
    + destruct s' as [|c' s'].
      * exists key. now split.
      * eexists. split; [reflexivity | discriminate].
    + exists key. now split.
  - intros table Htable Hnone. unfold I18n.entry at 1. rewrite Htable.
    unfold I18n.get. rewrite Hnone. reflexivity.
Qed.

(* ================================================================== *)
(** * More facts about DailyCalendar.tsx                               *)
(* ================================================================== *)

Lemma append_inj_l (p a b : string) : (p ++ a = p ++ b)%string -> a = b.
Proof.
  induction p as [|c p IH]; cbn; intros H; [exact H|].
  injection H as H. now apply IH.
Qed.

Lemma uint_of_string_zero (s : string) :
  option_map Nat.of_uint (NilEmpty.uint_of_string ("0" ++ s))
  = option_map Nat.of_uint (NilEmpty.uint_of_string s).
Proof.
  cbn. now destruct (NilEmpty.uint_of_string s).
Qed.

Lemma uint_of_string_zeros (k : nat) (s : string) :
  option_map Nat.of_uint (NilEmpty.uint_of_string (repeatString "0" k ++ s))
  = option_map Nat.of_uint (NilEmpty.uint_of_string s).
Proof.
  induction k as [|k IH]; [reflexivity|].
  cbn [repeatString].
  change (("0" ++ repeatString "0" k) ++ s)%string
    with ("0" ++ (repeatString "0" k ++ s))%string.
  now rewrite uint_of_string_zero.
Qed.

(** The padded day number reads back as the day. *)
Lemma padStart_toString_decode (i : nat) :
  option_map Nat.of_uint
    (NilEmpty.uint_of_string (padStart (toString i) 2 "0")) = Some i.
Proof.
  unfold padStart. rewrite uint_of_string_zeros. unfold toString.
  rewrite NilEmpty.usu. cbn [option_map].
  now rewrite DecimalNat.Unsigned.of_to.
Qed.

Lemma dateStr_inj (m : string) (i j : nat) : dateStr m i = dateStr m j -> i = j.
Proof.
  unfold dateStr. intros H.
  apply append_inj_l, append_inj_l in H.
  pose proof (padStart_toString_decode i) as Hi.
  rewrite H, padStart_toString_decode in Hi. congruence.
Qed.

Lemma dateStr_NoDup (m : string) (start n : nat) :
  NoDup (map (dateStr m) (seq start n)).
Proof.
  apply Finite.Injective_map_NoDup; [|apply seq_NoDup].
  intros i j. apply dateStr_inj.
Qed.

Lemma calendarLoop_step {runtime : DateRuntime} (clock : Clock.t) (m : string)
  (ml : list UserDailyUsage.t) (cfg : SubsidyConfig.t) (n : nat) :
  calendarLoop clock m (S n) ml cfg =
    calendarStep clock m ml (Limit.orInfinity (SubsidyConfig.limitUnits cfg))
      (calendarLoop clock m n ml cfg) (S n).
Proof.
  unfold calendarLoop. now rewrite seq_S, fold_left_app.
Qed.

Lemma loggedStatus_not_none (c : Q) (l : Limit.t) :
  loggedStatus c l <> DayStatus.none.
Proof.
  unfold loggedStatus.
  destruct (Limit.reached c l); [discriminate|].
  destruct (Limit.reached c (Limit.scale 0.85 l)); discriminate.
Qed.

(** What every entry the loop pushes satisfies, for any list of logs. *)
Lemma calendarLoop_entries {runtime : DateRuntime} (clock : Clock.t) (m : string)
  (ml : list UserDailyUsage.t) (cfg : SubsidyConfig.t) (n : nat) :
  map CalendarDay.dayNum (fst (calendarLoop clock m n ml cfg)) = seq 1 n
  /\ Forall (fun d =>
       CalendarDay.date d = dateStr m (CalendarDay.dayNum d)
       /\ CalendarDay.log d = findLog ml (CalendarDay.date d)
       /\ (CalendarDay.status d = DayStatus.none <-> CalendarDay.log d = None)
       /\ CalendarDay.isFuture d
          = match Date_parse (CalendarDay.date d) with
            | Some t => (Clock.getTime clock <? t)%Z
            | None => false
            end
       /\ CalendarDay.isEstimated d
          = (match Date_parse (CalendarDay.date d) with
             | Some t => (t <? Clock.startOfDay clock)%Z
             | None => false
             end
             && match CalendarDay.log d with Some _ => false | None => true end))
     (fst (calendarLoop clock m n ml cfg)).
Proof.
  induction n as [|n [IHnum IHall]]; [split; [reflexivity | constructor]|].
  rewrite calendarLoop_step.
  destruct (calendarLoop clock m n ml cfg) as [days acc].
  cbn [fst] in IHnum, IHall. unfold calendarStep. cbn [fst].
  split.
  - rewrite map_app, IHnum, seq_S. reflexivity.
  - apply Forall_app. split; [exact IHall|].
    constructor; [|constructor]. cbn.
    repeat split; try reflexivity;
      destruct (findLog ml (dateStr m (S n))); try reflexivity;
      try discriminate; intros H; exfalso;
      now apply (loggedStatus_not_none _ _ H).
Qed.

(** X9.  [calendarDays] has one entry per day [1..daysInMonth], in order,
    each dated [currentMonth-DD] with its day number padded to two digits;
    the dates, which are the keys of the rendered buttons, are pairwise
    distinct. *)
Theorem calendarDays_keys {runtime : DateRuntime} (clock : Clock.t)
  (currentMonth : string) (daysInMonth : nat) (monthLogs : list UserDailyUsage.t)
  (subsidyConfig : SubsidyConfig.t) :
  let days := calendarDays clock currentMonth daysInMonth monthLogs subsidyConfig in
  List.length days = daysInMonth
  /\ map CalendarDay.dayNum days = seq 1 daysInMonth
  /\ map CalendarDay.date days = map (dateStr currentMonth) (seq 1 daysInMonth)
  /\ NoDup (map CalendarDay.date days).
Proof.
  cbv zeta. unfold calendarDays.
  destruct (calendarLoop_entries clock currentMonth monthLogs subsidyConfig
              daysInMonth) as [Hnum Hall].
  assert (Hdates : map CalendarDay.date
                     (fst (calendarLoop clock currentMonth daysInMonth monthLogs
                             subsidyConfig))
                   = map (dateStr currentMonth) (seq 1 daysInMonth)).
  { rewrite <- Hnum, map_map. apply map_ext_Forall.
    eapply Forall_impl; [|exact Hall]. intros d Hd. apply Hd. }
  split; [|split; [exact Hnum | split; [exact Hdates|]]].
  - rewrite <- (length_map CalendarDay.dayNum), Hnum. apply length_seq.
  - rewrite Hdates. apply dateStr_NoDup.
Qed.

(** X10.  In [calendarDays] a day has the status [none] exactly when it has
    no log; a day flagged [isEstimated] has no log; and when the start of
    the day is not after the current instant, no day is flagged both
    [isFuture] and [isEstimated]. *)
Theorem calendarDays_flags {runtime : DateRuntime} (clock : Clock.t)
  (currentMonth : string) (daysInMonth : nat) (monthLogs : list UserDailyUsage.t)
  (subsidyConfig : SubsidyConfig.t) :
  (Clock.startOfDay clock <= Clock.getTime clock)%Z ->
  Forall (fun d =>
            (CalendarDay.status d = DayStatus.none <-> CalendarDay.log d = None)
            /\ (CalendarDay.isEstimated d = true -> CalendarDay.log d = None)
            /\ (CalendarDay.isEstimated d = true -> CalendarDay.isFuture d = false))
         (calendarDays clock currentMonth daysInMonth monthLogs subsidyConfig).
Proof.
  intros Hclock. unfold calendarDays.
  destruct (calendarLoop_entries clock currentMonth monthLogs subsidyConfig
              daysInMonth) as [_ Hall].
  eapply Forall_impl; [|exact Hall].
  intros d (_ & _ & Hstatus & Hfuture & Hest).
  split; [exact Hstatus|]. rewrite Hest, Hfuture.
  split; intros H; apply andb_prop in H; destruct H as [Hpast Hlog].
  - now destruct (CalendarDay.log d).
  - destruct (Date_parse (CalendarDay.date d)) as [t|]; [|reflexivity].
    apply Z.ltb_lt in Hpast. apply Z.ltb_ge. lia.
Qed.

(** On 15 March 2024 the start of the day precedes the instant of the
    reading. *)
Lemma calendarDays_flags_witness :
  (Clock.startOfDay Sample.march15 <= Clock.getTime Sample.march15)%Z
  /\ Forall (fun d =>
               CalendarDay.isEstimated d = true -> CalendarDay.isFuture d = false)
            (calendarDays (runtime := Sample.isoDates) Sample.march15 "2024-03"
               31 (monthLogs Sample.threeDays "2024-03") Sample.government100).
Proof.
  assert (H : (Clock.startOfDay Sample.march15 <= Clock.getTime Sample.march15)%Z)
    by (vm_compute; discriminate).
  split; [exact H|].
  eapply Forall_impl;
    [|exact (calendarDays_flags (runtime := Sample.isoDates) Sample.march15
               "2024-03" 31 (monthLogs Sample.threeDays "2024-03")
               Sample.government100 H)].
  intros d Hd. apply Hd.
Defined.

(** X11.  Two days are given the same class by [getStatusClass] exactly
    when both are future, or neither is future and both are estimated, or
    neither is future or estimated and their statuses are equal: a future
    day hides its status, and among the other days the four statuses and
    the estimate are told apart. *)
Theorem getStatusClass_same (s s' : DayStatus.t) (f f' e e' : bool) :
  getStatusClass s f e = getStatusClass s' f' e'
  <-> (f = true /\ f' = true)
      \/ (f = false /\ f' = false /\ e = true /\ e' = true)
      \/ (f = false /\ f' = false /\ e = false /\ e' = false /\ s = s').
Proof.
  split.
  - destruct f, f', e, e'; try (intros _; tauto);
      destruct s, s'; cbn; intros H; try discriminate H; tauto.
  - intros [[-> ->]|[(-> & -> & -> & ->)|(-> & -> & -> & -> & ->)]]; reflexivity.
Qed.

(** X12.  A log saved for day [i] of the month shows on the calendar: the
    entry of day [i] carries that very log, has a status other than [none]
    and is not flagged [isEstimated], whatever the store held before. *)
Theorem saved_day_on_calendar {runtime : DateRuntime} (clock : Clock.t)
  (log : UserDailyUsage.t) (prev : list UserDailyUsage.t)
  (currentMonth : string) (daysInMonth : nat) (subsidyConfig : SubsidyConfig.t)
  (i : nat) :
  (1 <= i <= daysInMonth)%nat ->
  UserDailyUsage.date log = dateStr currentMonth i ->
  exists d,
    nth_error (calendarDays clock currentMonth daysInMonth
                 (monthLogs (handleSaveLog log prev) currentMonth)
                 subsidyConfig) (i - 1) = Some d
    /\ CalendarDay.dayNum d = i
    /\ CalendarDay.log d = Some log
    /\ CalendarDay.status d <> DayStatus.none
    /\ CalendarDay.isEstimated d = false.
Proof.
  intros Hi Hdate.
  destruct (calendarLoop_spec clock currentMonth (handleSaveLog log prev)
              subsidyConfig daysInMonth) as (_ & _ & Hdays).
  destruct (Hdays i Hi) as (d & Hd & Hnum & _ & Hlog & Hst).
  assert (Hfound : logOfDay (handleSaveLog log prev) currentMonth i = Some log).
  { unfold logOfDay. rewrite <- Hdate, handleSaveLog_upsertBy.
    apply (findBy_upsertBy_same UserDailyUsage.date). }
  rewrite Hfound in Hlog, Hst.
  exists d. split; [exact Hd|]. split; [exact Hnum|]. split; [exact Hlog|].
  split; [rewrite Hst; apply loggedStatus_not_none|].
  destruct (calendarLoop_entries clock currentMonth
              (monthLogs (handleSaveLog log prev) currentMonth) subsidyConfig
              daysInMonth) as [_ Hall].
  rewrite Forall_forall in Hall.
  destruct (Hall d (nth_error_In _ _ Hd)) as (_ & _ & _ & _ & Hest).
  rewrite Hest, Hlog. apply andb_false_r.
Qed.

(** Saving 12 units for 7 March: day 7 of the calendar carries the log. *)
Lemma saved_day_on_calendar_witness :
  (1 <= 7 <= 31)%nat
  /\ UserDailyUsage.date (Sample.logOn "2024-03-07" 12) = dateStr "2024-03" 7
  /\ exists d,
       nth_error (calendarDays (runtime := Sample.isoDates) Sample.march15
                    "2024-03" 31
                    (monthLogs (handleSaveLog (Sample.logOn "2024-03-07" 12)
                                  Sample.threeDays) "2024-03")
                    Sample.government100) 6 = Some d
       /\ CalendarDay.log d = Some (Sample.logOn "2024-03-07" 12).
Proof.
  split; [lia|]. split; [reflexivity|].
  destruct (saved_day_on_calendar (runtime := Sample.isoDates) Sample.march15
              (Sample.logOn "2024-03-07" 12) Sample.threeDays "2024-03" 31
              Sample.government100 7 ltac:(lia) eq_refl)
    as (d & Hd & _ & Hlog & _).
  exists d. split; [exact Hd | exact Hlog].
Defined.

Lemma unitsOfDay_nonneg (logs : list UserDailyUsage.t) (m : string) (i : nat) :
  Forall (fun l => 0 <= UserDailyUsage.totalUnits l) logs ->
  0 <= unitsOfDay logs m i.
Proof.
  intros Hall. unfold unitsOfDay, logOfDay.
  destruct (find _ logs) as [l|] eqn:E; [|apply Qle_refl].
  apply find_some in E. rewrite Forall_forall in Hall. now apply Hall.
Qed.

Lemma cumulativeUnits_mono (logs : list UserDailyUsage.t) (m : string) (i j : nat) :
  Forall (fun l => 0 <= UserDailyUsage.totalUnits l) logs ->
  (i <= j)%nat -> cumulativeUnits logs m i <= cumulativeUnits logs m j.
Proof.
  intros Hall Hij. induction Hij as [|j Hij IH]; [apply Qle_refl|].
  cbn [cumulativeUnits].
  pose proof (unitsOfDay_nonneg logs m (S j) Hall). lra.
Qed.

Lemma severity_loggedStatus_mono (c c' : Q) (l : Limit.t) :
  c <= c' -> (severity (loggedStatus c l) <= severity (loggedStatus c' l))%nat.
Proof.
  intros Hc. destruct l as [q|]; [|reflexivity].
  rewrite !loggedStatus_Finite.
  destruct (Qle_bool q c) eqn:E1; destruct (Qle_bool q c') eqn:E1';
    destruct (Qle_bool (0.85 * q) c) eqn:E2;
    destruct (Qle_bool (0.85 * q) c') eqn:E2'; cbn; try lia;
    rewrite ?Qle_bool_iff, ?Qle_bool_false in *; lra.
Qed.

(** X13.  When no log has negative units the status never improves within
    the month: of two logged days the later one is at least as severe as
    the earlier one, in the order [safe], [warning], [critical]. *)
Theorem calendarDays_status_monotone {runtime : DateRuntime} (clock : Clock.t)
  (logs : list UserDailyUsage.t) (currentMonth : string) (daysInMonth : nat)
  (subsidyConfig : SubsidyConfig.t) (i j : nat) :
  Forall (fun l => 0 <= UserDailyUsage.totalUnits l) logs ->
  (1 <= i)%nat -> (i <= j)%nat -> (j <= daysInMonth)%nat ->
  exists di dj,
    nth_error (calendarDays clock currentMonth daysInMonth
                 (monthLogs logs currentMonth) subsidyConfig) (i - 1) = Some di
    /\ nth_error (calendarDays clock currentMonth daysInMonth
                    (monthLogs logs currentMonth) subsidyConfig) (j - 1) = Some dj
    /\ (CalendarDay.log di <> None -> CalendarDay.log dj <> None ->
        (severity (CalendarDay.status di) <= severity (CalendarDay.status dj))%nat).
Proof.
  intros Hall Hi Hij Hj.
  destruct (calendarLoop_spec clock currentMonth logs subsidyConfig daysInMonth)
    as (_ & _ & Hdays).
  destruct (Hdays i ltac:(lia)) as (di & Hdi & _ & _ & Hlogi & Hsti).
  destruct (Hdays j ltac:(lia)) as (dj & Hdj & _ & _ & Hlogj & Hstj).
  exists di, dj. split; [exact Hdi|]. split; [exact Hdj|].
  intros Hi' Hj'. rewrite Hsti, Hstj. rewrite Hlogi in Hi'. rewrite Hlogj in Hj'.
  destruct (logOfDay logs currentMonth i); [|congruence].
  destruct (logOfDay logs currentMonth j); [|congruence].
  apply severity_loggedStatus_mono. now apply cumulativeUnits_mono.
Qed.

(** Days 1 and 5 of the three days of March under a limit of 100 units:
    [safe], then [critical]. *)
Lemma calendarDays_status_monotone_witness :
  Forall (fun l => 0 <= UserDailyUsage.totalUnits l) Sample.threeDays
  /\ (1 <= 1)%nat /\ (1 <= 5)%nat /\ (5 <= 31)%nat
  /\ exists di dj,
       nth_error (calendarDays (runtime := Sample.isoDates) Sample.march15
                    "2024-03" 31 (monthLogs Sample.threeDays "2024-03")
                    Sample.government100) 0 = Some di
       /\ nth_error (calendarDays (runtime := Sample.isoDates) Sample.march15
                       "2024-03" 31 (monthLogs Sample.threeDays "2024-03")
                       Sample.government100) 4 = Some dj
       /\ (severity (CalendarDay.status di) <= severity (CalendarDay.status dj))%nat.
Proof.
  assert (H : Forall (fun l => 0 <= UserDailyUsage.totalUnits l) Sample.threeDays).
  { repeat constructor; discriminate. }
  split; [exact H|]. split; [lia|]. split; [lia|]. split; [lia|].
  destruct (calendarDays_status_monotone (runtime := Sample.isoDates)
              Sample.march15 Sample.threeDays "2024-03" 31 Sample.government100
              1 5 H ltac:(lia) ltac:(lia) ltac:(lia)) as (di & dj & Hdi & Hdj & Hsev).
  exists di, dj. split; [exact Hdi|]. split; [exact Hdj|].
  apply Hsev.
  - vm_compute in Hdi. injection Hdi as <-. discriminate.
  - vm_compute in Hdj. injection Hdj as <-. discriminate.
Defined.

Section DaySums.

(** The units found for a date, and the units of a log if its date is one
    of the given dates. *)
Let found (l : list UserDailyUsage.t) (d : string) : Q :=
  match findBy UserDailyUsage.date d l with
  | Some x => UserDailyUsage.totalUnits x
  | None => 0
  end.

Let onDays (ds : list string) (x : UserDailyUsage.t) : Q :=
  if existsb (String.eqb (UserDailyUsage.date x)) ds
  then UserDailyUsage.totalUnits x else 0.

Lemma existsb_eqb_In (k : string) (ds : list string) :
  existsb (String.eqb k) ds = true <-> In k ds.
Proof.
  rewrite existsb_exists. split.
  - intros (d & Hd & E). apply String.eqb_eq in E. now subst.
  - intros H. exists k. split; [exact H | apply String.eqb_refl].
Qed.

Lemma found_cons (x : UserDailyUsage.t) (l : list UserDailyUsage.t) (d : string) :
  found (x :: l) d
  = if String.eqb (UserDailyUsage.date x) d
    then UserDailyUsage.totalUnits x else found l d.
Proof.
  unfold found, findBy. cbn [find].
  now destruct (String.eqb (UserDailyUsage.date x) d).
Qed.

Lemma daySum_cons (x : UserDailyUsage.t) (l : list UserDailyUsage.t)
  (ds : list string) :
  NoDup ds -> ~ In (UserDailyUsage.date x) (map UserDailyUsage.date l) ->
  sumQ (map (found (x :: l)) ds) == onDays ds x + sumQ (map (found l) ds).
Proof.
  intros Hds Hx. unfold onDays.
  induction Hds as [|d ds Hd Hds IH]; cbn [map sumQ fold_right existsb].
  - ring.
  - fold (sumQ (map (found (x :: l)) ds)). fold (sumQ (map (found l) ds)).
    rewrite IH, found_cons.
    destruct (String.eqb_spec (UserDailyUsage.date x) d) as [E|E]; cbn [orb].
    + assert (Hno : existsb (String.eqb (UserDailyUsage.date x)) ds = false).
      { destruct (existsb _ ds) eqn:Ex; [|reflexivity].
        apply existsb_eqb_In in Ex. rewrite E in Ex. contradiction. }
      assert (Hnone : found l d = 0).
      { unfold found. apply find_None_In in Hx. rewrite E in Hx. now rewrite Hx. }
      rewrite Hno, Hnone. ring.
    + ring.
Qed.

Lemma daySum_logs (l : list UserDailyUsage.t) (ds : list string) :
  NoDup ds -> distinctDates l ->
  sumQ (map (found l) ds) == sumQ (map (onDays ds) l).
Proof.
  intros Hds Hl. unfold distinctDates in Hl.
  induction l as [|x l IH]; cbn [map] in *.
  - clear. induction ds as [|d ds IH]; cbn; [reflexivity|].
    fold (sumQ (map (found []) ds)). rewrite IH. reflexivity.
  - apply NoDup_cons_iff in Hl. destruct Hl as [Hx Hl].
    rewrite (daySum_cons x l ds Hds Hx), (IH Hl). reflexivity.
Qed.

Lemma onDays_all (l : list UserDailyUsage.t) (ds : list string) :
  (forall x, In x l -> In (UserDailyUsage.date x) ds) ->
  sumQ (map (onDays ds) l) == sumUnits l.
Proof.
  intros Hall. unfold sumUnits. induction l as [|x l IH]; [reflexivity|].
  cbn [map sumQ fold_right].
  fold (sumQ (map (onDays ds) l)). fold (sumQ (map UserDailyUsage.totalUnits l)).
  rewrite IH by (intros y Hy; apply Hall; now right).
  unfold onDays.
  assert (Hin : existsb (String.eqb (UserDailyUsage.date x)) ds = true)
    by (apply existsb_eqb_In, Hall; now left).
  now rewrite Hin.
Qed.

Lemma cumulativeUnits_daySum (logs : list UserDailyUsage.t) (m : string) (n : nat) :
  cumulativeUnits logs m n
  == sumQ (map (found (logsOfMonth logs m)) (map (dateStr m) (seq 1 n))).
Proof.
  induction n as [|n IH]; [reflexivity|].
  cbn [cumulativeUnits]. rewrite seq_S, !map_app, sumQ_app_plain, IH.
  cbn [map sumQ fold_right].
  assert (Hday : unitsOfDay logs m (S n)
                 = found (logsOfMonth logs m) (dateStr m (1 + n))).
  { unfold unitsOfDay, logOfDay, found, findBy, logsOfMonth.
    rewrite find_filter; [reflexivity|].
    intros x Hx. apply String.eqb_eq in Hx. rewrite Hx. apply startsWith_app. }
  rewrite Hday. ring.
Qed.

(** When the logs of the month have distinct dates and each lies on a day
    of the calendar, the days add up to the month. *)
Lemma cumulativeUnits_total (logs : list UserDailyUsage.t) (m : string) (n : nat) :
  distinctDates (logsOfMonth logs m) ->
  (forall l, In l (logsOfMonth logs m) ->
     exists i, (1 <= i <= n)%nat /\ UserDailyUsage.date l = dateStr m i) ->
  cumulativeUnits logs m n == monthToDateUnits logs m.
Proof.
  intros Hnd Hplaced.
  rewrite cumulativeUnits_daySum, daySum_logs;
    [|apply dateStr_NoDup | exact Hnd].
  apply onDays_all. intros x Hx.
  destruct (Hplaced x Hx) as (i & Hi & ->).
  apply in_map, in_seq. lia.
Qed.

End DaySums.

(** X14.  When the logs of the month are the logs of calendar days, the
    calendar and the summary count the same units: the running total the
    loop of [calendarDays] ends with is the summary's [totalUnits]. *)
Theorem calendar_total_is_summary_total {calculator : Calculator}
  {runtime : DateRuntime} (clock : Clock.t) (logs : list UserDailyUsage.t)
  (stateTariff : StateTariff.t) (inventory : list Appliance.t)
  (daysInMonth : nat) (currentMonth : string)
  (subsidyConfig : SubsidyConfig.t) (season : Season.t) :
  onCalendar logs currentMonth daysInMonth ->
  snd (calendarLoop clock currentMonth daysInMonth
         (monthLogs logs currentMonth) subsidyConfig)
  == MonthlyUsageSummary.totalUnits
       (summary (monthLogs logs currentMonth) stateTariff inventory daysInMonth
          currentMonth subsidyConfig season)
  /\ cumulativeUnits logs currentMonth daysInMonth
     == monthToDateUnits logs currentMonth.
Proof.
  intros [Hnd Hplaced].
  pose proof (cumulativeUnits_total logs currentMonth daysInMonth Hnd Hplaced)
    as Htotal.
  split; [|exact Htotal].
  destruct (calendarLoop_spec clock currentMonth logs subsidyConfig daysInMonth)
    as (Hacc & _ & _).
  cbv zeta in Hacc. rewrite Hacc, Htotal.
  unfold summary. cbn [MonthlyUsageSummary.totalUnits].
  now rewrite totalUnits_monthLogs.
Qed.

Lemma threeDays_onCalendar : onCalendar Sample.threeDays "2024-03" 31.
Proof.
  split.
  - unfold distinctDates. cbn.
    repeat (constructor; [cbn; intuition discriminate|]). constructor.
  - intros l Hl. cbn in Hl.
    destruct Hl as [<-|[<-|[<-|[]]]];
      [exists 2%nat | exists 1%nat | exists 5%nat]; (split; [lia | reflexivity]).
Defined.

(** The three days of March: 110 units on the calendar and in the
    summary. *)
Lemma calendar_total_is_summary_total_witness :
  onCalendar Sample.threeDays "2024-03" 31
  /\ cumulativeUnits Sample.threeDays "2024-03" 31
     == monthToDateUnits Sample.threeDays "2024-03".
Proof.
  split; [exact threeDays_onCalendar|].
  apply (calendar_total_is_summary_total (calculator := Sample.calculator)
           (runtime := Sample.isoDates) Sample.march15 Sample.threeDays
           Sample.tariff [] 31 "2024-03" Sample.government100 Season.summer
           threeDays_onCalendar).
Defined.

Lemma first_crossing (logs : list UserDailyUsage.t) (m : string) (limit : Q)
  (n : nat) :
  0 < limit -> limit <= cumulativeUnits logs m n ->
  exists i, (1 <= i <= n)%nat
    /\ logOfDay logs m i <> None
    /\ limit <= cumulativeUnits logs m i.
Proof.
  intros Hpos. induction n as [|n IH]; cbn [cumulativeUnits]; intros Hn.
  - lra.
  - destruct (Qlt_le_dec (cumulativeUnits logs m n) limit) as [Hbelow|Habove].
    + exists (S n). split; [lia|]. split; [|exact Hn].
      unfold unitsOfDay in Hn.
      destruct (logOfDay logs m (S n)); [discriminate | lra].
    + destruct (IH Habove) as (i & Hi & Hlog & Hc).
      exists i. split; [lia | split; assumption].
Qed.

(** X15.  Under a positive limit, with the logs of the month being the
    logs of calendar days: when the summary says [slabCrossed], the calendar
    shows a [critical] day; and when no log has negative units and the
    calendar shows a [critical] day, the month-to-date units have reached
    the limit. *)
Theorem slabCrossed_critical_day {calculator : Calculator}
  {runtime : DateRuntime} (clock : Clock.t) (logs : list UserDailyUsage.t)
  (stateTariff : StateTariff.t) (inventory : list Appliance.t)
  (daysInMonth : nat) (currentMonth : string)
  (subsidyConfig : SubsidyConfig.t) (season : Season.t) :
  onCalendar logs currentMonth daysInMonth ->
  0 < SubsidyConfig.limitUnits subsidyConfig ->
  let days := calendarDays clock currentMonth daysInMonth
                (monthLogs logs currentMonth) subsidyConfig in
  (MonthlyUsageSummary.slabCrossed
     (summary (monthLogs logs currentMonth) stateTariff inventory daysInMonth
        currentMonth subsidyConfig season) = true ->
   exists d, In d days /\ CalendarDay.status d = DayStatus.critical)
  /\ (nonNegativeUnits logs ->
      forall d, In d days -> CalendarDay.status d = DayStatus.critical ->
      SubsidyConfig.limitUnits subsidyConfig <= monthToDateUnits logs currentMonth).
Proof.
  intros [Hnd Hplaced] Hpos days.
  pose proof (cumulativeUnits_total logs currentMonth daysInMonth Hnd Hplaced)
    as Htotal.
  destruct (calendarLoop_spec clock currentMonth logs subsidyConfig daysInMonth)
    as (_ & _ & Hdays).
  assert (Hlimit : Limit.orInfinity (SubsidyConfig.limitUnits subsidyConfig)
                   = Limit.Finite (SubsidyConfig.limitUnits subsidyConfig))
    by (apply orInfinity_nonzero; lra).
  split.
  - intros Hcrossed. unfold summary in Hcrossed.
    cbn [MonthlyUsageSummary.slabCrossed] in Hcrossed.
    rewrite Qgtb_lt, totalUnits_monthLogs, <- Htotal in Hcrossed.
    destruct (first_crossing logs currentMonth _ daysInMonth Hpos
                (Qlt_le_weak _ _ Hcrossed)) as (i & Hi & Hlog & Hc).
    destruct (Hdays i Hi) as (d & Hd & _ & _ & _ & Hst).
    exists d. split; [exact (nth_error_In _ _ Hd)|].
    rewrite Hst. destruct (logOfDay logs currentMonth i); [|congruence].
    rewrite Hlimit, loggedStatus_Finite.
    apply Qle_bool_iff in Hc. now rewrite Hc.
  - intros Hnonneg d Hin Hcrit.
    apply calendarDays_entry in Hin. destruct Hin as (i & Hi & Hnth).
    destruct (Hdays i Hi) as (d' & Hd' & _ & _ & _ & Hst).
    assert (d' = d) by (unfold calendarDays in Hnth; congruence). subst d'.
    rewrite Hst in Hcrit.
    destruct (logOfDay logs currentMonth i); [|discriminate].
    rewrite Hlimit, loggedStatus_Finite in Hcrit.
    destruct (Qle_bool (SubsidyConfig.limitUnits subsidyConfig)
                (cumulativeUnits logs currentMonth i)) eqn:E.
    + apply Qle_bool_iff in E. rewrite <- Htotal.
      apply Qle_trans with (cumulativeUnits logs currentMonth i); [exact E|].
      apply cumulativeUnits_mono; [exact Hnonneg | lia].
    + destruct (Qle_bool (0.85 * SubsidyConfig.limitUnits subsidyConfig) _);
        discriminate.
Qed.

(** The three days of March under a limit of 100 units: 110 units, the
    slab is crossed and a day is [critical]. *)
Lemma slabCrossed_critical_day_witness :
  onCalendar Sample.threeDays "2024-03" 31
  /\ 0 < SubsidyConfig.limitUnits Sample.government100
  /\ exists d,
       In d (calendarDays (runtime := Sample.isoDates) Sample.march15 "2024-03"
               31 (monthLogs Sample.threeDays "2024-03") Sample.government100)
       /\ CalendarDay.status d = DayStatus.critical.
Proof.
  split; [exact threeDays_onCalendar|].
  split; [reflexivity|].
  apply (slabCrossed_critical_day (calculator := Sample.calculator)
           (runtime := Sample.isoDates) Sample.march15 Sample.threeDays
           Sample.tariff [] 31 "2024-03" Sample.government100 Season.summer
           threeDays_onCalendar eq_refl).
  reflexivity.
Defined.

(* ================================================================== *)
(** * More facts about the month summary                               *)
(* ================================================================== *)

(** X16.  [subsidyUsed] never exceeds the subsidy limit nor the units
    used: it is the units used while the slab is not crossed and the limit
    once it is. *)
Theorem summary_subsidyUsed {calculator : Calculator}
  (logs : list UserDailyUsage.t) (stateTariff : StateTariff.t)
  (inventory : list Appliance.t) (daysInMonth : nat) (currentMonth : string)
  (subsidyConfig : SubsidyConfig.t) (season : Season.t) :
  let s := summary (monthLogs logs currentMonth) stateTariff inventory
             daysInMonth currentMonth subsidyConfig season in
  MonthlyUsageSummary.subsidyUsed s <= MonthlyUsageSummary.subsidyLimit s
  /\ MonthlyUsageSummary.subsidyUsed s <= monthToDateUnits logs currentMonth
  /\ (MonthlyUsageSummary.slabCrossed s = true ->
      MonthlyUsageSummary.subsidyUsed s == SubsidyConfig.limitUnits subsidyConfig)
  /\ (MonthlyUsageSummary.slabCrossed s = false ->
      MonthlyUsageSummary.subsidyUsed s == monthToDateUnits logs currentMonth).
Proof.
  cbv zeta. unfold summary.
  cbn [MonthlyUsageSummary.subsidyUsed MonthlyUsageSummary.subsidyLimit
       MonthlyUsageSummary.slabCrossed].
  split; [apply Q.le_min_r|].
  split; [rewrite <- totalUnits_monthLogs; apply Q.le_min_l|].
  split; intros H.
  - apply Qgtb_lt in H. apply Q.min_r. lra.
  - rewrite <- totalUnits_monthLogs. apply Q.min_l.
    unfold Qgtb in H. apply negb_false_iff, Qle_bool_iff in H. exact H.
Qed.

(** X17.  [isStabilized] is true from seven logged days on, and a summary
    that carries a confidence score is stabilized: while the forecast is
    calibrating there is no score. *)
Theorem summary_isStabilized {calculator : Calculator}
  (logs : list UserDailyUsage.t) (stateTariff : StateTariff.t)
  (inventory : list Appliance.t) (daysInMonth : nat) (currentMonth : string)
  (subsidyConfig : SubsidyConfig.t) (season : Season.t) :
  let s := summary (monthLogs logs currentMonth) stateTariff inventory
             daysInMonth currentMonth subsidyConfig season in
  (MonthlyUsageSummary.isStabilized s = true
   <-> (7 <= daysLogged logs currentMonth)%nat)
  /\ (MonthlyUsageSummary.confidenceScore s <> None ->
      MonthlyUsageSummary.isStabilized s = true)
  /\ (MonthlyUsageSummary.isStabilized s = false ->
      MonthlyUsageSummary.confidenceScore s = None).
Proof.
  cbv zeta. rewrite confidenceScore_of_summary. unfold summary.
  cbn [MonthlyUsageSummary.isStabilized]. rewrite monthLogs_length.
  split; [apply Nat.leb_le|].
  unfold confidenceScore.
  split; intros H.
  - destruct (Nat.leb_spec 10 (daysLogged logs currentMonth)); [|congruence].
    apply Nat.leb_le. lia.
  - apply Nat.leb_gt in H.
    destruct (Nat.leb_spec 10 (daysLogged logs currentMonth)); [lia | reflexivity].
Qed.




(* ================================================================== *)
(** * Facts about the retry helper                                     *)
(* ================================================================== *)

Section RetryFacts.

Context {W T : Type} (fn : W -> Retry.Outcome T * W).

Lemma doubling_schedule (backoff : Z) (n : nat) :
  backoff :: map (fun k => (backoff * 2 * 2 ^ Z.of_nat k)%Z) (seq 0 n)
  = map (fun k => (backoff * 2 ^ Z.of_nat k)%Z) (seq 0 (S n)).
Proof.
  cbn [seq map]. f_equal; [cbn; lia|].
  rewrite <- seq_shift, map_map. apply map_ext. intros k.
  rewrite Nat2Z.inj_succ, Z.pow_succ_r by lia. lia.
Qed.

(** X20.  [retryWithBackoff] waits at most [retries] times; the delays are
    [backoff], twice [backoff], four times [backoff] and so on, each the
    double of the one before, so that after [n] waits it has waited
    [backoff * (2^n - 1)] in all: with the default of 3 retries and 1000 ms,
    no more than 7000 ms. *)
Theorem retryWithBackoff_schedule (retries : nat) (backoff : Z) (w : W) :
  let delays := snd (Retry.retryWithBackoff fn retries backoff w) in
  let n := List.length delays in
  (n <= retries)%nat
  /\ delays = map (fun k => (backoff * 2 ^ Z.of_nat k)%Z) (seq 0 n)
  /\ fold_right Z.add 0%Z delays = (backoff * (2 ^ Z.of_nat n - 1))%Z
  /\ ((0 <= backoff)%Z ->
      (fold_right Z.add 0%Z delays <= backoff * (2 ^ Z.of_nat retries - 1))%Z).
Proof.
  cbv zeta.
  enough (H : (List.length (snd (Retry.retryWithBackoff fn retries backoff w))
               <= retries)%nat
              /\ snd (Retry.retryWithBackoff fn retries backoff w)
                 = map (fun k => (backoff * 2 ^ Z.of_nat k)%Z)
                     (seq 0 (List.length
                               (snd (Retry.retryWithBackoff fn retries backoff w))))
              /\ fold_right Z.add 0%Z
                   (snd (Retry.retryWithBackoff fn retries backoff w))
                 = (backoff
                    * (2 ^ Z.of_nat
                             (List.length
                                (snd (Retry.retryWithBackoff fn retries backoff w)))
                       - 1))%Z).
  { destruct H as (Hlen & Hd & Hsum).
    split; [exact Hlen|]. split; [exact Hd|]. split; [exact Hsum|].
    intros Hpos. rewrite Hsum. apply Z.mul_le_mono_nonneg_l; [exact Hpos|].
    apply Z.sub_le_mono_r, Z.pow_le_mono_r; lia. }
  revert backoff w.
  induction retries as [|r IH]; intros backoff w; cbn [Retry.retryWithBackoff].
  - destruct (fn w) as [[v|e] w1]; cbn; (split; [lia|]); split; (reflexivity || lia).
  - destruct (fn w) as [[v|e] w1];
      [cbn; (split; [lia|]); split; (reflexivity || lia)|].
    destruct (Retry.retryable e);
      [|cbn; (split; [lia|]); split; (reflexivity || lia)].
    specialize (IH (backoff * 2)%Z w1).
    destruct (Retry.retryWithBackoff fn r (backoff * 2) w1) as [[o2 w2] d2].
    cbn [snd] in *. destruct IH as (Hlen & Hd & Hsum).
    cbn [List.length]. split; [lia|]. split.
    + rewrite Hd at 1. apply doubling_schedule.
    + cbn [fold_right]. rewrite Hsum, Nat2Z.inj_succ, Z.pow_succ_r by lia. lia.
Qed.

(** X21.  [retryWithBackoff] calls [fn] once more than it waits, hence at
    most [retries + 1] times; when it gives up, the error it throws is the
    one of the last call, and either that error is not a 500 or all the
    retries are spent; a result is returned as it comes.  Counting the
    calls changes nothing else. *)
Theorem retryWithBackoff_calls (retries : nat) (backoff : Z) (w : W) (c : nat) :
  let '(o, (w', c'), delays) :=
    Retry.retryWithBackoff (Retry.counted fn) retries backoff (w, c) in
  Retry.retryWithBackoff fn retries backoff w = (o, w', delays)
  /\ c' = (c + List.length delays + 1)%nat
  /\ (c' <= c + retries + 1)%nat
  /\ match o with
     | Retry.Returned _ => True
     | Retry.Threw e =>
         Retry.retryable e = false \/ List.length delays = retries
     end.
Proof.
  revert backoff w c.
  induction retries as [|r IH]; intros backoff w c;
    cbn [Retry.retryWithBackoff Retry.counted].
  - destruct (fn w) as [[v|e] w1]; cbn; repeat split; try lia; now right.
  - destruct (fn w) as [[v|e] w1]; [cbn; repeat split; lia|].
    destruct (Retry.retryable e) eqn:Eretry;
      [|cbn; repeat split; try lia; now left].
    specialize (IH (backoff * 2)%Z w1 (S c)).
    destruct (Retry.retryWithBackoff (Retry.counted fn) r (backoff * 2) (w1, S c))
      as [[o2 [w2 c2]] d2].
    destruct IH as (Hrun & Hc & Hbound & Hout).
    rewrite Hrun. cbn [List.length].
    split; [reflexivity|]. split; [lia|]. split; [lia|].
    destruct o2 as [v|e2]; [exact I|].
    destruct Hout as [Hout|Hout]; [now left | right; lia].
Qed.

End RetryFacts.

(** X22.  [includes] holds exactly of the strings that contain the
    searched text somewhere; so an error is retried as soon as the
    characters 500 occur anywhere in its text, whatever its status and
    code. *)
Theorem includes_500 (s sub : string) :
  (Retry.includes s sub = true
   <-> exists before after, s = (before ++ sub ++ after)%string)
  /\ (forall status code before after,
        Retry.retryable
          (Retry.mkError status code (before ++ "500" ++ after)) = true).
Proof.
  assert (Hpre : forall p t, String.prefix p t = true
                             <-> exists after, t = (p ++ after)%string).
  { induction p as [|a p IH]; intros t; cbn.
    - split; [intros _; now exists t | now destruct t].
    - destruct t as [|b t]; [split; [discriminate | intros [x Hx]; discriminate]|].
      cbn [String.prefix].
      destruct (ascii_dec a b) as [<-|Hab]; cbv iota.
      + rewrite IH. split; intros [after H]; exists after; congruence.
      + split; [discriminate | intros [after H]; congruence]. }
  assert (Hinc : forall t u, Retry.includes t u = true
                             <-> exists before after, t = (before ++ u ++ after)%string).
  { induction t as [|b t IH]; intros u; cbn [Retry.includes];
      rewrite orb_true_iff, Hpre.
    - split.
      + intros [[after H]|H]; [|discriminate]. now exists "", after.
      + intros (before & after & H). left.
        destruct before; [now exists after | discriminate].
    - rewrite IH. split.
      + intros [[after H]|(before & after & H)].
        * now exists "", after.
        * exists (String b before), after. cbn. now rewrite H.
      + intros (before & after & H).
        destruct before as [|c before]; [left; now exists after|].
        right. cbn in H. injection H as _ H. now exists before, after. }
  split; [apply Hinc|].
  intros status code before after. unfold Retry.retryable.
  cbn [Retry.text].
  assert (H : Retry.includes (before ++ "500" ++ after) "500" = true)
    by (apply Hinc; now exists before, after).
  rewrite H. apply orb_true_r.
Qed.

(** Adding a heater to the fan and the fridge, and a second fan in place
    of the first. *)
Lemma handleAddAppliance_distinctIds_witness :
  distinctIds Fixture.inventory
  /\ distinctIds (handleAddAppliance (Fixture.appliance "heater" 2000)
                    Fixture.inventory)
  /\ handleAddAppliance (Fixture.appliance "fan" 60) Fixture.inventory
     = [ Fixture.appliance "fan" 60; Fixture.appliance "fridge" 150 ].
Proof.
  assert (H : distinctIds Fixture.inventory).
  { unfold distinctIds. cbn.
    repeat (constructor; [cbn; intuition discriminate|]). constructor. }
  split; [exact H|].
  split; [apply (handleAddAppliance_distinctIds _ _ H) | reflexivity].
Defined.

(* ================================================================== *)
(** * Facts about the tariff selection (App.tsx)                       *)
(* ================================================================== *)

(** X23.  Over a catalogue that is not empty the selected tariff is always
    an entry of the catalogue: the first entry of the selected id when the
    catalogue has that id, and the first entry of the catalogue when it
    does not, as for an id kept from an older catalogue. *)
Theorem selectStateTariff_fallback (INDIAN_STATES : list StateTariff.t)
  (selectedStateId : string) :
  INDIAN_STATES <> [] ->
  exists s,
    selectStateTariff INDIAN_STATES selectedStateId = Some s
    /\ In s INDIAN_STATES
    /\ (In selectedStateId (map StateTariff.id INDIAN_STATES) ->
        StateTariff.id s = selectedStateId
        /\ exists before after,
             INDIAN_STATES = (before ++ s :: after)%list
             /\ ~ In selectedStateId (map StateTariff.id before))
    /\ (~ In selectedStateId (map StateTariff.id INDIAN_STATES) ->
        hd_error INDIAN_STATES = Some s).
Proof.
  intros Hne. unfold selectStateTariff.
  destruct (find _ INDIAN_STATES) as [s|] eqn:E.
  - exists s. split; [reflexivity|].
    pose proof (find_some _ _ E) as [Hin Hid]. apply String.eqb_eq in Hid.
    split; [exact Hin|]. split.
    + intros _. split; [exact Hid|].
      clear Hne Hin. induction INDIAN_STATES as [|x l IH]; [discriminate|].
      cbn [find] in E.
      destruct (String.eqb_spec (StateTariff.id x) selectedStateId) as [Ex|Ex].
      * injection E as ->. exists [], l. split; [reflexivity | intros []].
      * destruct (IH E) as (before & after & Hl & Hb).
        exists (x :: before), after. split; [now rewrite Hl|].
        cbn. intros [H|H]; [congruence | contradiction].
    + intros Hout. exfalso. apply Hout. rewrite <- Hid. now apply in_map.
  - destruct INDIAN_STATES as [|x l]; [congruence|].
    exists x. split; [reflexivity|]. split; [now left|]. split.
    + intros Hin. exfalso.
      apply (find_None_In StateTariff.id selectedStateId (x :: l)) in E.
      contradiction.
    + reflexivity.
Qed.

(** A catalogue holding the sample tariff alone: an unknown id selects
    it. *)
Lemma selectStateTariff_fallback_witness :
  [Sample.tariff] <> []
  /\ selectStateTariff [Sample.tariff] "unknown" = Some Sample.tariff.
Proof.
  split; [discriminate|].
  destruct (selectStateTariff_fallback [Sample.tariff] "unknown"
              ltac:(discriminate)) as (s & Hs & _ & _ & Hhd).
  rewrite Hs. rewrite <- Hhd; [reflexivity|].
  cbn. intuition discriminate.
Defined.
